(** * graph4nlp: embedding construction

    A shallow embedding of
    [graph4nlp/pytorch/modules/graph_construction/embedding_construction.py].
    The other source file,
    [examples/pytorch/name_entity_recognition/conll.py], is not valid
    Python (stray colons after class names, an indentation that matches no
    block, an [elif] after an [else]): the module cannot be imported and
    has no behaviour to embed.

    Tensors are nested lists over a scalar type; a [LongTensor] holds [Z].
    Python exceptions are values of [exn]; a call that may raise returns a
    [result].  The framework primitives the source calls ([torch.cat],
    [torch.stack], [pack_padded_sequence], [pad_packed_sequence], indexing)
    are modelled after their documented behaviour; [torch.sum],
    [torch.sort] and the recurrent network itself are parameters, with what
    the framework promises of them stated as a property. *)

From Stdlib Require Import ZArith QArith String SpecFloat.
From stdpp Require Import base list sorting strings gmap.

Set Warnings "-register-all".

Open Scope string_scope.
Open Scope list_scope.
Open Scope Z_scope.

(** ** Python exceptions and results *)

Module Py.

(** [FrameworkError] is an exception raised inside the framework whose
    Python class the source does not decide: it differs between versions
    of the framework. *)
Inductive exn : Type :=
| RuntimeError (msg : string)
| TypeError (msg : string)
| NameError (name : string)
| UnboundLocalError (name : string)
| IndexError
| NotImplementedError
| FrameworkError (msg : string).

Inductive result (A : Type) : Type :=
| Ok (a : A)
| Raise (e : exn).

Arguments Ok {A} a.
Arguments Raise {A} e.

Definition bind {A B : Type} (m : result A) (k : A -> result B) : result B :=
match m with
| Ok a => k a
| Raise e => Raise e
end.

Definition is_ok {A : Type} (m : result A) : bool :=
match m with Ok _ => true | Raise _ => false end.

(** [for x in l: acc.append(f x)], stopping at the first exception. *)
Fixpoint for_each {A B : Type} (f : A -> result B) (l : list A) : result (list B) :=
match l with
| [] => Ok []
| x :: l' =>
    bind (f x) (fun y => bind (for_each f l') (fun ys => Ok (y :: ys)))
end.

End Py.

Import Py.

Notation "'let*' x ':=' m 'in' k" := (Py.bind m (fun x => k))
  (at level 10, x pattern, m at level 100, k at level 200).

(** ** Tensors as nested lists *)

Section Tensor.

Context {F : Type}.
Variable F0 : F.

(** [t.shape[1]] of a two-dimensional tensor, read off its first row. *)
Definition shape1 (t : list (list F)) : nat :=
  match t with
  | r :: _ => length r
  | [] => 0%nat
  end.

(** [torch.zeros(n, d)]. *)
Definition torch_zeros (n d : nat) : list (list F) :=
  replicate n (replicate d F0).


(** Entry [(i, d)] of a two-dimensional tensor. *)
Definition at2 (t : list (list F)) (i d : nat) : F :=
  default F0 (r ← t !! i; r !! d).

(** A list-of-lists has the shape [(n, d)]. *)
Definition has_shape2 (t : list (list F)) (n d : nat) : Prop :=
  length t = n /\ Forall (fun r => length r = d) t.

(** A list-of-lists-of-lists has the shape [(n, l, d)]. *)
Definition has_shape3 (t : list (list (list F))) (n l d : nat) : Prop :=
  length t = n /\ Forall (fun it => has_shape2 it l d) t.

End Tensor.

(** ** [MeanEmbedding] *)

Section MeanEmbedding.

Context {F : Type}.
Variable F0 : F.
Variable Fadd : F -> F -> F.
(** [torch.sum(emb, dim=1)].  The framework adds the entries along the
    sequence dimension in an order of its own (by blocks, with several
    accumulators), which shows in floating point; what it promises is
    [sum_spec] below. *)
Variable torch_sum : list (list (list F)) -> list (list F).
Variable Fdiv : F -> F -> F.
(** [.float()] on one entry of a [LongTensor]. *)
Variable F_of_Z : Z -> F.

(** [torch.sum(emb, dim=1)] when the entries of every column are added one
    after another, starting from zero: the sum in exact arithmetic, and in
    floating point one of the orders [sum_spec] admits. *)
Definition torch_sum_dim1 (emb : list (list (list F))) : list (list F) :=
  (fun item : list (list F) =>
     foldl (fun acc row => zip_with Fadd acc row)
           (replicate (shape1 item) F0) item) <$> emb.

(** [len_.unsqueeze(1)]. *)
Definition unsqueeze1 (len_ : list Z) : list (list Z) :=
  (fun x => [x]) <$> len_.

(** [t.expand_as(other)] for [t] of shape [(N', 1)] and [other] of shape
    [(N, D)]: every row is repeated along the feature dimension; a single
    row ([N' = 1]) is also repeated over the [N] items; any other [N']
    that differs from [N] raises. *)
Definition expand_as (t : list (list Z)) (other : list (list F))
  : result (list (list Z)) :=
  let expand_row (r : list Z) (o : list F) :=
    match r with
    | [x] => replicate (length o) x
    | _ => r
    end in
  if (length t =? length other)%nat then
    Ok (zip_with expand_row t other)
  else
    match t with
    | [r] => Ok (expand_row r <$> other)
    | _ =>
        Raise (RuntimeError "The expanded size of the tensor must match the existing size")
    end.

(** [t.float()]. *)
Definition to_float (t : list (list Z)) : list (list F) :=
  (fun r : list Z => F_of_Z <$> r) <$> t.

(** [a / b], elementwise on tensors of one shape. *)
Definition tensor_div (a b : list (list F)) : list (list F) :=
  zip_with (zip_with Fdiv) a b.

(** [MeanEmbedding.forward(emb, len_)]. *)
Definition MeanEmbedding_forward (emb : list (list (list F))) (len_ : list Z)
  : result (list (list F)) :=
  let sumed_emb := torch_sum emb in
  let* len_ := expand_as (unsqueeze1 len_) sumed_emb in
  let len_ := to_float len_ in
  Ok (tensor_div sumed_emb len_).


End MeanEmbedding.

(** ** Framework primitives on nested lists *)

Section Primitives.

Context {A : Type}.

(** Python's [l[a:b]] with integer bounds: a negative bound counts from
    the end, and both are clipped to the list. *)
Definition py_slice_bound (n : nat) (a : Z) : nat :=
  if a <? 0 then Z.to_nat (Z.max 0 (Z.of_nat n + a))
  else Nat.min (Z.to_nat a) n.

Definition py_slice (l : list A) (a b : Z) : list A :=
  let a' := py_slice_bound (length l) a in
  let b' := py_slice_bound (length l) b in
  take (b' - a') (drop a' l).

(** [t[indx]] for an index tensor [indx]: the rows of [t] at the given
    positions; a negative position counts from the end, and one outside
    the tensor raises. *)
Definition index_row (t : list A) (j : Z) : result A :=
  let n := Z.of_nat (length t) in
  let j' := if j <? 0 then j + n else j in
  if (0 <=? j') && (j' <? n) then
    match t !! Z.to_nat j' with
    | Some r => Ok r
    | None => Raise IndexError
    end
  else Raise IndexError.

Definition index_rows (t : list A) (indx : list Z) : result (list A) :=
  for_each (index_row t) indx.

(** [torch.cat(ts, dim)] from the two-tensor case [cat2]; an empty list of
    tensors raises, with an exception whose class depends on the version of
    the framework. *)
Fixpoint cat_from (cat2 : A -> A -> result A) (acc : A) (ts : list A) : result A :=
  match ts with
  | [] => Ok acc
  | t :: ts' => let* acc' := cat2 acc t in cat_from cat2 acc' ts'
  end.

Definition cat_list (cat2 : A -> A -> result A) (ts : list A) : result A :=
  match ts with
  | [] => Raise (FrameworkError "torch.cat(): expected a non-empty list of Tensors")
  | t :: ts' => cat_from cat2 t ts'
  end.

End Primitives.

Section Concatenation.

Context {F : Type}.

Definition cat_mismatch : exn :=
  RuntimeError "Sizes of tensors must match except in dimension".

(** [torch.cat([a, b], -1)] for two-dimensional tensors. *)
Definition cat2_last (a b : list (list F)) : result (list (list F)) :=
  if (length a =? length b)%nat then Ok (zip_with app a b)
  else Raise cat_mismatch.

(** [torch.cat([a, b], -1)] for three-dimensional tensors. *)
Definition cat3_last (a b : list (list (list F))) : result (list (list (list F))) :=
  if (length a =? length b)%nat
     && forallb (fun p : list (list F) * list (list F) =>
                   (length p.1 =? length p.2)%nat) (zip a b)
  then Ok (zip_with (zip_with app) a b)
  else Raise cat_mismatch.

(** [torch.stack(ts, 0)] for two-dimensional tensors: the tensors must
    have one size. *)
Definition torch_stack (ts : list (list (list F))) : result (list (list (list F))) :=
  match ts with
  | [] => Raise (RuntimeError "stack expects a non-empty TensorList")
  | t :: ts' =>
      if forallb (fun t' : list (list F) => (length t' =? length t)%nat) ts'
      then Ok ts
      else Raise (RuntimeError "stack expects each tensor to be equal size")
  end.

(** [torch.max(t).item()] for a one-dimensional [LongTensor]. *)
Definition torch_max (t : list Z) : result Z :=
  match t with
  | [] => Raise (RuntimeError "max(): Expected reduction dim to be specified for input.numel() == 0")
  | x :: t' => Ok (foldl Z.max x t')
  end.

End Concatenation.

(** ** [RNNEmbedding] *)

Inductive rnn_cell : Type := nn_LSTM | nn_GRU.

Section RNNEmbedding.

Context {F : Type}.
Variable F0 : F.

(** The index output of [torch.sort(t, 0, descending)]. *)
Variable torch_argsort : bool -> list Z -> list Z.

(** A recurrent network run on one sequence from the zero initial state
    [h0] (and [c0]): the hidden state at every time step, and the final
    hidden state of each direction.  The framework may reject the input. *)
Definition rnn_fn : Type :=
  list (list F) -> result (list (list F) * list (list F)).

(** [nn.LSTM(input_size, hidden_size, 1, batch_first=True, bidirectional)]
    and [nn.GRU(...)]; the framework may reject the sizes. *)
Variable nn_RNN : rnn_cell -> Z -> Z -> bool -> result rnn_fn.

(** [torch.sort(t, 0, descending)]: the sorted values and their positions
    in [t]. *)
Definition torch_sort (descending : bool) (t : list Z) : list Z * list Z :=
  let indx := torch_argsort descending t in
  ((fun j => default 0 (t !! Z.to_nat j)) <$> indx, indx).

Fixpoint sorted_desc (l : list Z) : bool :=
  match l with
  | x :: (y :: _) as l' => (y <=? x) && sorted_desc l'
  | _ => true
  end.

(** [pack_padded_sequence(x, lengths, batch_first=True)]: sequence [k]
    of the batch cut to [lengths[k]] steps.  The lengths must be positive,
    in decreasing order, and within the padded length. *)
Definition pack_padded_sequence (x : list (list (list F))) (lengths : list Z)
  : result (list (list (list F))) :=
  if (length x =? 0)%nat then
    Raise (RuntimeError "Cannot pack empty tensors.")
  else if negb (length lengths =? length x)%nat then
    Raise (RuntimeError "Expected `len(lengths)` to be equal to batch_size")
  else if existsb (fun l => l <=? 0) lengths then
    Raise (RuntimeError "Length of all samples has to be greater than 0, but found an element in 'lengths' that is <= 0")
  else if negb (sorted_desc lengths) then
    Raise (RuntimeError "`lengths` array must be sorted in decreasing order when `enforce_sorted` is True.")
  else if existsb (fun p : Z * list (list F) => Z.of_nat (length p.2) <? p.1)
                  (zip lengths x) then
    Raise (RuntimeError "Expected sequence length to be larger than or equal to the lengths")
  else
    Ok (zip_with (fun l (s : list (list F)) => take (Z.to_nat l) s) lengths x).

(** Padding one sequence with zero rows up to [T] steps. *)
Definition pad_to (T H : nat) (s : list (list F)) : list (list F) :=
  s ++ torch_zeros F0 (T - length s) H.

(** [pad_packed_sequence(packed, batch_first=True)[0]]: every sequence
    padded with zeros to the longest one. *)
Definition pad_packed_sequence (packed : list (list (list F))) : list (list (list F)) :=
  let T := foldr Nat.max 0%nat (length <$> packed) in
  let H := shape1 (default [] (head packed)) in
  pad_to T H <$> packed.

Record RNNEmbedding : Type := {
  rnn_type : string;
  bidirectional : bool;
  hidden_size : Z;
  model : rnn_fn
}.

(** [self.num_directions = 2 if bidirectional else 1]. *)
Definition num_directions (self : RNNEmbedding) : Z :=
  if bidirectional self then 2 else 1.

(** [RNNEmbedding.__init__]. *)
Definition RNNEmbedding_init (input_size hidden_size : Z)
    (bidirectional : bool) (rnn_type : string) : result RNNEmbedding :=
  if negb (bool_decide (rnn_type ∈ ["lstm"; "gru"])) then
    Raise (RuntimeError ("rnn_type is expected to be lstm or gru, got " +:+ rnn_type))
  else if bidirectional && negb (hidden_size mod 2 =? 0) then
    Raise (RuntimeError "hidden_size is expected to be even in the bidirectional mode!")
  else
    let hidden_size' := if bidirectional then hidden_size / 2 else hidden_size in
    let cell := if String.eqb rnn_type "lstm" then nn_LSTM else nn_GRU in
    let* model := nn_RNN cell input_size hidden_size' bidirectional in
    Ok {| rnn_type := rnn_type;
          bidirectional := bidirectional;
          hidden_size := hidden_size';
          model := model |}.

(** The final hidden states [h_n] of shape [(num_directions, B, H)]
    gathered from the per-sequence runs. *)
Definition final_states (ndir : Z) (out : list (list (list F) * list (list F)))
  : list (list (list F)) :=
  (fun d : nat =>
     (fun o : list (list F) * list (list F) => default [] (o.2 !! d)) <$> out)
    <$> seq 0 (Z.to_nat ndir).

(** [h.squeeze(0)] for [h] of shape [(1, B, H)]. *)
Definition squeeze0 (h : list (list (list F))) : list (list F) :=
  default [] (head h).

(** [RNNEmbedding.forward(x, x_len)].  The initial states [h0] and [c0]
    are zero tensors; [model self] is the network run from them. *)
Definition RNNEmbedding_forward (self : RNNEmbedding)
    (x : list (list (list F))) (x_len : list Z)
  : result (list (list (list F)) * list (list F)) :=
  let '(sorted_x_len, indx) := torch_sort true x_len in
  let* x_indx := index_rows x indx in
  let* x := pack_padded_sequence x_indx sorted_x_len in
  let* out := for_each (model self) x in
  let packed_h := fst <$> out in
  let packed_h_t := final_states (num_directions self) out in
  let* packed_h_t :=
    if String.eqb (rnn_type self) "lstm" then
      if num_directions self =? 2 then cat_list cat2_last packed_h_t
      else Ok (squeeze0 packed_h_t)
    else
      if num_directions self =? 2 then Raise (NameError "query_lengths")
      else Ok (squeeze0 packed_h_t) in
  let hh := pad_packed_sequence packed_h in
  let '(_, inverse_indx) := torch_sort false indx in
  let* restore_hh := index_rows hh inverse_indx in
  let* restore_packed_h_t := index_rows packed_h_t inverse_indx in
  Ok (restore_hh, restore_packed_h_t).

End RNNEmbedding.

(** ** [WordEmbedding], [BertEmbedding] and [EmbeddingConstruction] *)

(** [word_emb_type : str or list of str]. *)
Inductive str_or_list : Type :=
  | Str (s : string)
  | StrList (l : list string).

Section EmbeddingConstruction.

Context {F : Type}.
Variable F0 : F.
Variable torch_sum : list (list (list F)) -> list (list F).
Variable Fdiv : F -> F -> F.
Variable F_of_Z : Z -> F.
Variable torch_argsort : bool -> list Z -> list Z.
Variable nn_RNN : rnn_cell -> Z -> Z -> bool -> result (@rnn_fn F).

(** The members of [self.word_emb_layers]. *)
Inductive word_emb_layer : Type :=
  | WordEmbedding (weight : list (list F)) (fix_word_emb : bool)
  | BertEmbedding (fix_word_emb : bool).

(** [WordEmbedding.forward(input_tensor)]: [nn.Embedding] looks every
    word index up in the weight matrix. *)
Definition WordEmbedding_forward (weight : list (list F))
    (input_tensor : list (list Z)) : result (list (list (list F))) :=
  for_each (fun item : list Z =>
              for_each (fun w : Z =>
                          if (0 <=? w) && (w <? Z.of_nat (length weight)) then
                            match weight !! Z.to_nat w with
                            | Some v => Ok v
                            | None => Raise IndexError
                            end
                          else Raise IndexError) item)
           input_tensor.

(** [word_emb_layer(input_tensor)].  [BertEmbedding.forward(self)] takes
    no input, so the call with one raises. *)
Definition word_emb_layer_call (layer : word_emb_layer)
    (input_tensor : list (list Z)) : result (list (list (list F))) :=
  match layer with
  | WordEmbedding weight _ => WordEmbedding_forward weight input_tensor
  | BertEmbedding _ =>
      Raise (TypeError "forward() takes 1 positional argument but 2 were given")
  end.

(** [self.node_edge_emb_layer]. *)
Inductive node_edge_layer : Type :=
  | MeanLayer
  | RNNLayer (r : @RNNEmbedding F).

Record EmbeddingConstruction : Type := {
  node_edge_emb_strategy : string;
  seq_info_encode_strategy : string;
  word_emb_layers : list word_emb_layer;
  node_edge_emb_layer : node_edge_layer;
  seq_info_encode_layer : option (@RNNEmbedding F)
}.

(** [word_vocab.embeddings.shape[1]]. *)
Definition emb_dim (embeddings : list (list F)) : Z :=
  Z.of_nat (shape1 embeddings).

(** The [node_edge_emb_strategy] dispatch of [__init__]. *)
Definition init_node_edge_emb_layer (embeddings : list (list F))
    (node_edge_emb_strategy : string) (hidden_size : Z) : result node_edge_layer :=
  if String.eqb node_edge_emb_strategy "mean" then
    Ok MeanLayer
  else if String.eqb node_edge_emb_strategy "lstm" then
    let* r := RNNEmbedding_init nn_RNN (emb_dim embeddings) hidden_size false "lstm" in
    Ok (RNNLayer r)
  else if String.eqb node_edge_emb_strategy "bilstm" then
    let* r := RNNEmbedding_init nn_RNN (emb_dim embeddings) hidden_size true "lstm" in
    Ok (RNNLayer r)
  else if String.eqb node_edge_emb_strategy "gru" then
    let* r := RNNEmbedding_init nn_RNN (emb_dim embeddings) hidden_size false "gru" in
    Ok (RNNLayer r)
  else if String.eqb node_edge_emb_strategy "bigru" then
    let* r := RNNEmbedding_init nn_RNN (emb_dim embeddings) hidden_size true "gru" in
    Ok (RNNLayer r)
  else
    Raise (RuntimeError ("Unknown node_edge_emb_strategy: " +:+ node_edge_emb_strategy)).

(** The [seq_info_encode_strategy] dispatch of [__init__]. *)
Definition init_seq_info_encode_layer (embeddings : list (list F))
    (node_edge_emb_strategy seq_info_encode_strategy : string) (hidden_size : Z)
  : result (option (@RNNEmbedding F)) :=
  let input_size :=
    if String.eqb node_edge_emb_strategy "mean" then emb_dim embeddings
    else hidden_size in
  if String.eqb seq_info_encode_strategy "none" then
    Ok None
  else if String.eqb seq_info_encode_strategy "lstm" then
    let* r := RNNEmbedding_init nn_RNN input_size hidden_size false "lstm" in
    Ok (Some r)
  else if String.eqb seq_info_encode_strategy "bilstm" then
    let* r := RNNEmbedding_init nn_RNN input_size hidden_size true "lstm" in
    Ok (Some r)
  else if String.eqb seq_info_encode_strategy "gru" then
    let* r := RNNEmbedding_init nn_RNN input_size hidden_size false "gru" in
    Ok (Some r)
  else if String.eqb seq_info_encode_strategy "bigru" then
    let* r := RNNEmbedding_init nn_RNN input_size hidden_size true "gru" in
    Ok (Some r)
  else
    Raise (RuntimeError ("Unknown seq_info_encode_strategy: " +:+ seq_info_encode_strategy)).

(** [EmbeddingConstruction.__init__].  [hidden_size] is an [int]. *)
Definition EmbeddingConstruction_init (embeddings : list (list F))
    (word_emb_type : str_or_list)
    (node_edge_emb_strategy seq_info_encode_strategy : string)
    (hidden_size : Z) (fix_word_emb : bool) : result EmbeddingConstruction :=
  let word_emb_type :=
    match word_emb_type with
    | Str s => [s]
    | StrList l => l
    end in
  let layers :=
    (if bool_decide ("w2v" ∈ word_emb_type)
     then [WordEmbedding embeddings fix_word_emb] else [])
    ++ (if bool_decide ("bert" ∈ word_emb_type)
        then [BertEmbedding fix_word_emb] else []) in
  let* ne := init_node_edge_emb_layer embeddings node_edge_emb_strategy hidden_size in
  let* se := init_seq_info_encode_layer embeddings node_edge_emb_strategy
               seq_info_encode_strategy hidden_size in
  Ok {| node_edge_emb_strategy := node_edge_emb_strategy;
        seq_info_encode_strategy := seq_info_encode_strategy;
        word_emb_layers := layers;
        node_edge_emb_layer := ne;
        seq_info_encode_layer := se |}.

(** Lines 185-189 of [forward]: every word embedding layer applied to the
    input, in registration order, and the outputs concatenated along the
    feature dimension. *)
Definition embed_words (self : EmbeddingConstruction)
    (input_tensor : list (list Z)) : result (list (list (list F))) :=
  let* feat := for_each (fun layer => word_emb_layer_call layer input_tensor)
                 (word_emb_layers self) in
  cat_list cat3_last feat.

(** Lines 193-195 of [forward]: the node/edge layer; of the pair an
    [RNNEmbedding] returns, [feat[-1]] is kept.  The strategy is one of
    the four recurrent ones exactly when the layer is an [RNNEmbedding]. *)
Definition node_edge_emb (self : EmbeddingConstruction)
    (feat : list (list (list F))) (item_size : list Z) : result (list (list F)) :=
  match node_edge_emb_layer self with
  | MeanLayer => MeanEmbedding_forward torch_sum Fdiv F_of_Z feat item_size
  | RNNLayer r =>
      let* feat := RNNEmbedding_forward F0 torch_argsort r feat item_size in
      Ok feat.2
  end.

(** The "unbatching" loop (lines 203-210): the block of each graph cut out
    of [feat] and padded with zero rows to [max_num_items].  The zero rows
    are as wide as the block, [tmp_feat.shape[1]], which is the width of
    [feat]. *)
Fixpoint unbatch (feat : list (list F)) (max_num_items start_idx : Z)
    (num_items : list Z) : list (list (list F)) :=
  match num_items with
  | [] => []
  | n :: rest =>
      let tmp_feat := py_slice feat start_idx (start_idx + n) in
      let tmp_feat :=
        if n <? max_num_items
        then tmp_feat ++ torch_zeros F0 (Z.to_nat (max_num_items - n)) (shape1 feat)
        else tmp_feat in
      tmp_feat :: unbatch feat max_num_items (start_idx + n) rest
  end.

(** The "batching" loop (lines 219-221): [new_feat[i][:num_items[i]]]. *)
Definition rebatch (new_feat : list (list (list F))) (num_items : list Z)
  : result (list (list (list F))) :=
  for_each (fun p : nat * Z =>
              let* block := index_row new_feat (Z.of_nat p.1) in
              Ok (py_slice block 0 p.2))
           (zip (seq 0 (length num_items)) num_items).

(** [torch.cat(ts, 0)] for two-dimensional tensors. *)
Definition cat0 (ts : list (list (list F))) : result (list (list F)) :=
  cat_list (fun a b => Ok (a ++ b)) ts.

(** Lines 199-225 of [forward]: the sequence encoder run over the graphs
    of the batch.  Of the pair the encoder returns, [new_feat[0]] is kept:
    the strategy is one of the four recurrent ones whenever there is an
    encoder. *)
Definition seq_info_encode (layer : @RNNEmbedding F)
    (feat : list (list F)) (num_items : list Z) : result (list (list F)) :=
  let* max_num_items := torch_max num_items in
  let new_feat := unbatch feat max_num_items 0 num_items in
  let* new_feat := torch_stack new_feat in
  let* new_feat := RNNEmbedding_forward F0 torch_argsort layer new_feat num_items in
  let new_feat := new_feat.1 in
  let* ret_feat := rebatch new_feat num_items in
  cat0 ret_feat.

(** [EmbeddingConstruction.forward(input_tensor, item_size, num_items)]. *)
Definition EmbeddingConstruction_forward (self : EmbeddingConstruction)
    (input_tensor : list (list Z)) (item_size num_items : list Z)
  : result (list (list F)) :=
  let* feat := embed_words self input_tensor in
  let* feat := node_edge_emb self feat item_size in
  match seq_info_encode_layer self with
  | None => Ok feat
  | Some layer => seq_info_encode layer feat num_items
  end.

End EmbeddingConstruction.


(** ** Single-precision floats

    [MeanEmbedding] run on [float32] tensors, the type [.float()] converts
    to: IEEE 754 binary32 as specified by [SpecFloat]. *)

Module Float32.

Definition prec : Z := 24.
Definition emax : Z := 128.

Definition zero : spec_float := S754_zero false.
Definition add : spec_float -> spec_float -> spec_float := SFadd prec emax.
Definition div : spec_float -> spec_float -> spec_float := SFdiv prec emax.

(** A 64-bit integer converted to the nearest float. *)
Definition of_Z (z : Z) : spec_float := binary_normalize prec emax z 0 false.

(** Neither an infinity nor a NaN. *)
Definition is_finite (x : spec_float) : bool :=
  match x with
  | S754_zero _ | S754_finite _ _ _ => true
  | S754_infinity _ | S754_nan => false
  end.

(** [MeanEmbedding.forward] on [float32] tensors, with the entries of every
    column added one after another. *)
Definition MeanEmbedding_forward (emb : list (list (list spec_float))) (len_ : list Z)
  : result (list (list spec_float)) :=
  MeanEmbedding_forward (torch_sum_dim1 zero add) div of_Z emb len_.


End Float32.

(** ** Notions used to state the properties *)

Section Notions.

Context {F : Type}.

(** [t[indx]] where every position is known to lie in [t]. *)
Definition gather {A : Type} (d : A) (t : list A) (indx : list Z) : list A :=
  (fun j => default d (t !! Z.to_nat j)) <$> indx.

(** The positions [0, 1, ..., n-1] as a [LongTensor]. *)
Definition arange (n : nat) : list Z := Z.of_nat <$> seq 0 n.

(** What [torch.sort] promises of its index output: it lists every position
    once, and reading the input in that order gives a sorted tensor.  The
    order among equal entries is left open. *)
Definition argsort_spec (argsort : bool -> list Z -> list Z) : Prop :=
  forall (descending : bool) (t : list Z),
    argsort descending t ≡ₚ arange (length t)
    /\ Sorted (fun a b => if descending then b <= a else a <= b)
              (gather 0 t (argsort descending t)).

(** A nested list that stands for a tensor of shape [(N, L, D)]: with no
    row to carry it ([L = 0]) the width is [0]. *)
Definition tensor3 (emb : list (list (list F))) (N L D : nat) : Prop :=
  has_shape3 emb N L D /\ (L = 0%nat -> D = 0%nat).

(** The entries of item [i] at feature [d], along the sequence dimension. *)
Definition column (F0 : F) (emb : list (list (list F))) (i d : nat) : list F :=
  (fun row : list F => default F0 (row !! d)) <$> default [] (emb !! i).

(** [s] is a sum of the numbers [l]: they are added in some order and some
    bracketing, and accumulators may start from zero. *)
Inductive reduces_to (F0 : F) (Fadd : F -> F -> F) : list F -> F -> Prop :=
  | reduces_nil : reduces_to F0 Fadd [] F0
  | reduces_one (x : F) : reduces_to F0 Fadd [x] x
  | reduces_app (l1 l2 : list F) (a b : F) :
      reduces_to F0 Fadd l1 a -> reduces_to F0 Fadd l2 b ->
      reduces_to F0 Fadd (l1 ++ l2) (Fadd a b)
  | reduces_perm (l l' : list F) (a : F) :
      l ≡ₚ l' -> reduces_to F0 Fadd l a -> reduces_to F0 Fadd l' a.

(** What [torch.sum(emb, dim=1)] promises: a tensor of shape [(N, D)] whose
    entry [(i, d)] is a sum of the entries of item [i] at feature [d]. *)
Definition sum_spec (F0 : F) (Fadd : F -> F -> F)
    (torch_sum : list (list (list F)) -> list (list F)) : Prop :=
  forall (emb : list (list (list F))) (N L D : nat),
    tensor3 emb N L D ->
    has_shape2 (torch_sum emb) N D
    /\ forall i d : nat, (i < N)%nat -> (d < D)%nat ->
         reduces_to F0 Fadd (column F0 emb i d) (at2 F0 (torch_sum emb) i d).

(** What a recurrent layer of output width [H] promises: one hidden state
    of width [H] per time step. *)
Definition rnn_spec (f : @rnn_fn F) (H : nat) : Prop :=
  forall s o, f s = Ok o ->
    length o.1 = length s /\ Forall (fun r : list F => length r = H) o.1.

(** A padded batch [x] of shape [(B, L, _)] with its lengths: at least one
    sequence, and every length positive and at most [L]. *)
Definition valid_batch (x : list (list (list F))) (x_len : list Z) : Prop :=
  x <> []
  /\ Forall2 (fun n (s : list (list F)) => 0 < n <= Z.of_nat (length s)) x_len x.

(** The sequences of a batch cut to their lengths. *)
Definition sequences (x : list (list (list F))) (x_len : list Z)
  : list (list (list F)) :=
  zip_with (fun n (s : list (list F)) => take (Z.to_nat n) s) x_len x.

(** The final hidden state of one sequence: the states of the directions
    side by side. *)
Definition final_row (ndir : Z) (o : list (list F) * list (list F)) : list F :=
  mjoin ((fun d : nat => default [] (o.2 !! d)) <$> seq 0 (Z.to_nat ndir)).

(** The rows of [feat] split into the graphs of the batch. *)
Fixpoint graph_blocks (feat : list (list F)) (num_items : list Z)
  : list (list (list F)) :=
  match num_items with
  | [] => []
  | n :: rest =>
      take (Z.to_nat n) feat :: graph_blocks (drop (Z.to_nat n) feat) rest
  end.

(** [sum(num_items)]. *)
Definition sum_items (num_items : list Z) : Z := foldr Z.add 0 num_items.

End Notions.

(** ** An instance to run the model on

    A stable sort for [torch.sort], and a network that returns its input as
    the hidden states, with empty final states; like the framework's layers
    it rejects an input whose feature size is not [input_size]. *)

Definition key_le (descending : bool) (p q : Z * nat) : Prop :=
  if descending then q.1 <= p.1 else p.1 <= q.1.

#[global] Instance key_le_dec descending p q : Decision (key_le descending p q).
Proof. unfold key_le. destruct descending; apply _. Defined.

Definition argsort_stable (descending : bool) (t : list Z) : list Z :=
  (fun p : Z * nat => Z.of_nat p.2)
    <$> merge_sort (key_le descending) (zip t (seq 0 (length t))).

Definition echo_fn {F : Type} (input_size : Z) (bidirectional : bool) : @rnn_fn F :=
  fun s =>
    if forallb (fun r : list F => (length r =? Z.to_nat input_size)%nat) s
    then Ok (s, if bidirectional then [[]; []] else [[]])
    else Raise (RuntimeError "input.size(-1) must be equal to input_size").

Definition echo_rnn {F : Type} (cell : rnn_cell) (input_size hidden_size : Z)
    (bidirectional : bool) : result (@rnn_fn F) :=
  Ok (echo_fn input_size bidirectional).

(** A framework that builds a layer of positive hidden size only. *)
Definition strict_rnn {F : Type} (cell : rnn_cell) (input_size hidden_size : Z)
    (bidirectional : bool) : result (@rnn_fn F) :=
  if hidden_size <=? 0 then
    Raise (FrameworkError "hidden_size must be greater than zero")
  else Ok (echo_fn input_size bidirectional).

(** ** The strategies [__init__] knows *)

Definition node_edge_emb_strategies : list string :=
  ["mean"; "lstm"; "bilstm"; "gru"; "bigru"].

Definition seq_info_encode_strategies : list string :=
  ["none"; "lstm"; "bilstm"; "gru"; "bigru"].

(** The strategies that build a bidirectional layer. *)
Definition is_bidirectional (strategy : string) : bool :=
  bool_decide (strategy ∈ ["bilstm"; "bigru"]).

(** The cell a recurrent strategy names. *)
Definition strategy_rnn_type (strategy : string) : string :=
  if bool_decide (strategy ∈ ["lstm"; "bilstm"]) then "lstm" else "gru".

(** The layer [__init__] is to build for a recurrent strategy. *)
Definition layer_for {F : Type} (strategy : string) (r : @RNNEmbedding F) : Prop :=
  rnn_type r = strategy_rnn_type strategy
  /\ bidirectional r = is_bidirectional strategy.

(** The arguments [__init__] constructs its layers from. *)
Definition init_accepts (node_edge_emb_strategy seq_info_encode_strategy : string)
    (hidden_size : Z) : bool :=
  bool_decide (node_edge_emb_strategy ∈ node_edge_emb_strategies)
  && bool_decide (seq_info_encode_strategy ∈ seq_info_encode_strategies)
  && implb (is_bidirectional node_edge_emb_strategy
            || is_bidirectional seq_info_encode_strategy)
           (hidden_size mod 2 =? 0).

(** The recurrent strategies. *)
Definition rnn_strategies : list string := ["lstm"; "bilstm"; "gru"; "bigru"].

(** The framework class a recurrent strategy names. *)
Definition strategy_cell (strategy : string) : rnn_cell :=
  if String.eqb (strategy_rnn_type strategy) "lstm" then nn_LSTM else nn_GRU.

(** The hidden size of one direction of the layer a strategy asks for. *)
Definition direction_size (strategy : string) (hidden_size : Z) : Z :=
  if is_bidirectional strategy then hidden_size / 2 else hidden_size.

(** The input size of the sequence encoder. *)
Definition seq_input_size {F : Type} (embeddings : list (list F))
    (node_edge_emb_strategy : string) (hidden_size : Z) : Z :=
  if String.eqb node_edge_emb_strategy "mean" then emb_dim embeddings
  else hidden_size.

(** The layer [__init__] asks the framework for on behalf of a strategy:
    asked only for a recurrent strategy that passes the parity guard. *)
Definition asked (strategy : string) (hidden_size : Z) : Prop :=
  strategy ∈ rnn_strategies
  /\ (is_bidirectional strategy = true -> hidden_size mod 2 = 0).

(** The framework builds the recurrent layers this call of [__init__] asks
    of it: the node/edge layer, and the sequence encoder once the node/edge
    strategy has its layer. *)
Definition layers_built {F : Type}
    (nn_RNN : rnn_cell -> Z -> Z -> bool -> result (@rnn_fn F))
    (embeddings : list (list F))
    (node_edge_emb_strategy seq_info_encode_strategy : string)
    (hidden_size : Z) : Prop :=
  (asked node_edge_emb_strategy hidden_size ->
   is_ok (nn_RNN (strategy_cell node_edge_emb_strategy) (emb_dim embeddings)
            (direction_size node_edge_emb_strategy hidden_size)
            (is_bidirectional node_edge_emb_strategy)) = true)
  /\ (node_edge_emb_strategy = "mean" \/ asked node_edge_emb_strategy hidden_size ->
      asked seq_info_encode_strategy hidden_size ->
      is_ok (nn_RNN (strategy_cell seq_info_encode_strategy)
               (seq_input_size embeddings node_edge_emb_strategy hidden_size)
               (direction_size seq_info_encode_strategy hidden_size)
               (is_bidirectional seq_info_encode_strategy)) = true).

(** [word_emb_type] as the list of names [__init__] works on, a single
    name being wrapped in a list. *)
Definition word_emb_types (word_emb_type : str_or_list) : list string :=
  match word_emb_type with
  | Str s => [s]
  | StrList l => l
  end.

(** ** [EmbeddingConstruction.forward2] and the graph it updates

    [forward2] reads its input from the node features of a graph, stores
    the item embeddings there and returns the graph.  The graph is the
    caller's object: the model returns its state after the call together
    with the outcome, so that what an interrupted call leaves behind is
    part of the result. *)

Module DGL.

(** The exceptions of the graph library, beside those of [Py]. *)
Inductive error : Type :=
| Python (e : Py.exn)
| KeyError (key : string)
| DGLError (msg : string).

Inductive outcome (A : Type) : Type :=
| Returns (a : A)
| Raises (e : error).

Arguments Returns {A} a.
Arguments Raises {A} e.

Definition lift {A : Type} (m : Py.result A) : outcome A :=
match m with
| Py.Ok a => Returns a
| Py.Raise e => Raises (Python e)
end.

Definition and_then {A B : Type} (m : outcome A) (k : A -> outcome B) : outcome B :=
match m with
| Returns a => k a
| Raises e => Raises e
end.

Fixpoint for_each_graph {A B : Type} (f : A -> outcome B) (l : list A)
  : outcome (list B) :=
match l with
| [] => Returns []
| x :: l' =>
    and_then (f x)
      (fun y => and_then (for_each_graph f l') (fun ys => Returns (y :: ys)))
end.

Section Graph.

Context {F : Type}.

(** A node feature: a [LongTensor] of word indices or a float tensor, one
    row per node. *)
Inductive feature : Type :=
| LongTensor (t : list (list Z))
| FloatTensor (t : list (list F)).

Definition rows (x : feature) : nat :=
match x with
| LongTensor t => length t
| FloatTensor t => length t
end.

Definition slice_rows (start n : nat) (x : feature) : feature :=
match x with
| LongTensor t => LongTensor (take n (drop start t))
| FloatTensor t => FloatTensor (take n (drop start t))
end.

(** A batched graph, as far as [forward2] looks at it: the node features
    by name, and the number of nodes of each graph of the batch. *)
Record DGLGraph : Type := {
  ndata : gmap string feature;
  batch_num_nodes : list Z
}.

Definition num_nodes (g : DGLGraph) : Z := sum_items (batch_num_nodes g).

(** [graph.ndata[name]]. *)
Definition get_ndata (g : DGLGraph) (name : string) : outcome feature :=
match ndata g !! name with
| Some x => Returns x
| None => Raises (KeyError name)
end.

(** [graph.ndata[name] = x]: the feature must have one row per node. *)
Definition set_ndata (g : DGLGraph) (name : string) (x : feature) : outcome DGLGraph :=
if Z.of_nat (rows x) =? num_nodes g then
  Returns {| ndata := <[name := x]> (ndata g); batch_num_nodes := batch_num_nodes g |}
else
  Raises (DGLError "Expect number of features to match number of nodes").

(** [dgl.unbatch(graph)]: the graphs of the batch, each with its rows of
    every node feature. *)
Fixpoint unbatch_from (g : DGLGraph) (start : nat) (sizes : list Z) : list DGLGraph :=
match sizes with
| [] => []
| n :: rest =>
    {| ndata := slice_rows start (Z.to_nat n) <$> ndata g;
       batch_num_nodes := [n] |}
      :: unbatch_from g (start + Z.to_nat n) rest
end.

Definition dgl_unbatch (g : DGLGraph) : list DGLGraph :=
  unbatch_from g 0 (batch_num_nodes g).

End Graph.

End DGL.

Notation "'let+' x ':=' m 'in' k" := (DGL.and_then m (fun x => k))
  (at level 10, x pattern, m at level 100, k at level 200).

Section EmbeddingConstruction2.

Context {F : Type}.
Variable F0 : F.
Variable torch_sum : list (list (list F)) -> list (list F).
Variable Fdiv : F -> F -> F.
Variable F_of_Z : Z -> F.
Variable torch_argsort : bool -> list Z -> list Z.

(** [word_emb_layer(input_tensor)] on a node feature: [nn.Embedding] takes
    indices only. *)
Definition word_emb_layer_call2 (layer : @word_emb_layer F)
    (input_tensor : @DGL.feature F) : result (list (list (list F))) :=
  match input_tensor with
  | DGL.LongTensor t => word_emb_layer_call layer t
  | DGL.FloatTensor _ =>
      match layer with
      | WordEmbedding _ _ =>
          Raise (RuntimeError "Expected tensor for argument #1 'indices' to have scalar type Long")
      | BertEmbedding _ =>
          Raise (TypeError "forward() takes 1 positional argument but 2 were given")
      end
  end.

(** Lines 250-258 of [forward2]: the item features, as in [forward]. *)
Definition forward2_feat (self : @EmbeddingConstruction F) (graph : @DGL.DGLGraph F)
    (feat_name : string) (item_size : list Z) : DGL.outcome (list (list F)) :=
  let+ input_tensor := DGL.get_ndata graph feat_name in
  DGL.lift
    (let* feat := for_each (fun layer => word_emb_layer_call2 layer input_tensor)
                    (word_emb_layers self) in
     let* feat := cat_list cat3_last feat in
     node_edge_emb F0 torch_sum Fdiv F_of_Z torch_argsort self feat item_size).

(** [each.ndata[out_feat_name]] as the float tensor line 260 has stored. *)
Definition float_ndata (each : @DGL.DGLGraph F) (name : string)
  : DGL.outcome (list (list F)) :=
  let+ x := DGL.get_ndata each name in
  match x with
  | DGL.FloatTensor t => DGL.Returns t
  | DGL.LongTensor _ =>
      DGL.Raises (DGL.Python (RuntimeError "expected scalar type Float but found Long"))
  end.

(** Lines 265-271: the block of each graph, padded with zero rows to
    [max_num_items] when it has fewer rows.  The zero rows are as wide as
    the block, [tmp_feat.shape[1]], which is the width [D] of the stored
    feature. *)
Definition forward2_blocks (graph_list : list (@DGL.DGLGraph F))
    (out_feat_name : string) (max_num_items : Z) (D : nat)
  : DGL.outcome (list (list (list F))) :=
  DGL.for_each_graph
    (fun each =>
       let+ tmp_feat := float_ndata each out_feat_name in
       DGL.Returns (if Z.of_nat (length tmp_feat) <? max_num_items
               then tmp_feat
                      ++ torch_zeros F0
                           (Z.to_nat (max_num_items - Z.of_nat (length tmp_feat))) D
               else tmp_feat))
    graph_list.

(** Lines 278-280: [new_feat[i][:num_items[i]]] for every row [i] of
    [new_feat]. *)
Definition rebatch2 (new_feat : list (list (list F))) (num_items : list Z)
  : result (list (list (list F))) :=
  for_each (fun i : nat =>
              let* block := index_row new_feat (Z.of_nat i) in
              let* n := index_row num_items (Z.of_nat i) in
              Ok (py_slice block 0 n))
           (seq 0 (length new_feat)).

(** Lines 262-282: the sequence encoder run over the graphs of the
    batch. *)
Definition forward2_encode (layer : @RNNEmbedding F) (graph : @DGL.DGLGraph F)
    (out_feat_name : string) (num_items : list Z) (D : nat)
  : DGL.outcome (list (list F)) :=
  let graph_list := DGL.dgl_unbatch graph in
  let+ max_num_items := DGL.lift (torch_max num_items) in
  let+ new_feat := forward2_blocks graph_list out_feat_name max_num_items D in
  DGL.lift
    (let* new_feat := torch_stack new_feat in
     let* new_feat := RNNEmbedding_forward F0 torch_argsort layer new_feat num_items in
     let new_feat := new_feat.1 in
     let* ret_feat := rebatch2 new_feat num_items in
     cat0 ret_feat).

(** [EmbeddingConstruction.forward2(graph, feat_name, item_size, num_items,
    out_feat_name)]: the state of [graph] after the call, and the outcome;
    on [Returns] the graph is what the call returns. *)
Definition EmbeddingConstruction_forward2 (self : @EmbeddingConstruction F)
    (graph : @DGL.DGLGraph F) (feat_name : string) (item_size num_items : list Z)
    (out_feat_name : string) : @DGL.DGLGraph F * DGL.outcome unit :=
  match forward2_feat self graph feat_name item_size with
  | DGL.Raises e => (graph, DGL.Raises e)
  | DGL.Returns feat =>
      match DGL.set_ndata graph out_feat_name (DGL.FloatTensor feat) with
      | DGL.Raises e => (graph, DGL.Raises e)
      | DGL.Returns graph =>
          match seq_info_encode_layer self with
          | None => (graph, DGL.Returns tt)
          | Some layer =>
              match forward2_encode layer graph out_feat_name num_items
                      (shape1 feat) with
              | DGL.Raises e => (graph, DGL.Raises e)
              | DGL.Returns ret_feat =>
                  match DGL.set_ndata graph out_feat_name (DGL.FloatTensor ret_feat) with
                  | DGL.Raises e => (graph, DGL.Raises e)
                  | DGL.Returns graph => (graph, DGL.Returns tt)
                  end
              end
          end
      end
  end.

End EmbeddingConstruction2.


(** * Properties of [MeanEmbedding] *)

Section MeanEmbeddingSpec.

Context {F : Type}.
Variable F0 : F.
Variable Fadd : F -> F -> F.
Variable torch_sum : list (list (list F)) -> list (list F).
Variable Fdiv : F -> F -> F.
Variable F_of_Z : Z -> F.

Lemma zip_with_lookup_total (f : F -> F -> F) (a b : list F) (d : nat) :
  length a = length b ->
  default F0 (zip_with f a b !! d)
  = if decide (d < length a)%nat
    then f (default F0 (a !! d)) (default F0 (b !! d))
    else F0.
Proof.
  revert b d. induction a as [|x a IH]; intros [|y b] d Hlen; simpl in *; try done.
  destruct d as [|d]; simpl.
  - done.
  - rewrite IH by lia. repeat case_decide; (done || lia).
Qed.

Lemma foldl_rows_length (rows : list (list F)) (acc : list F) (D : nat) :
  length acc = D -> Forall (fun r => length r = D) rows ->
  length (foldl (fun a r => zip_with Fadd a r) acc rows) = D.
Proof.
  intros Hacc Hrows. revert acc Hacc.
  induction Hrows as [|r rows Hr Hrows IH]; intros acc Hacc; simpl; [done|].
  apply IH. rewrite length_zip_with. lia.
Qed.

(** Adding up the rows of one item: entry [d] of the running sum. *)
Lemma foldl_rows_at (rows : list (list F)) (acc : list F) (D d : nat) :
  length acc = D -> Forall (fun r => length r = D) rows -> (d < D)%nat ->
  default F0 (foldl (fun a r => zip_with Fadd a r) acc rows !! d)
  = foldl (fun a r => Fadd a (default F0 (r !! d))) (default F0 (acc !! d)) rows.
Proof.
  intros Hacc Hrows Hd. revert acc Hacc.
  induction Hrows as [|r rows Hr Hrows IH]; intros acc Hacc; simpl; [done|].
  rewrite IH by (rewrite length_zip_with; lia). f_equal.
  rewrite zip_with_lookup_total by lia.
  case_decide; [done | lia].
Qed.




(** ** Sums in some order *)

Lemma reduces_to_snoc (l : list F) (a x : F) :
  reduces_to F0 Fadd l a -> reduces_to F0 Fadd (l ++ [x]) (Fadd a x).
Proof. intros Hl. apply reduces_app; [done | apply reduces_one]. Qed.

(** Adding one number after another is one of the orders. *)
Lemma reduces_to_foldl (pre l : list F) (acc : F) :
  reduces_to F0 Fadd pre acc -> reduces_to F0 Fadd (pre ++ l) (foldl Fadd acc l).
Proof.
  revert pre acc. induction l as [|x l IH]; intros pre acc Hpre; simpl.
  - by rewrite app_nil_r.
  - replace (pre ++ x :: l) with ((pre ++ [x]) ++ l) by (by rewrite <- app_assoc).
    apply IH. by apply reduces_to_snoc.
Qed.

Section Exact.

Hypothesis Fadd_0_l : forall x, Fadd F0 x = x.
Hypothesis Fadd_comm : forall x y, Fadd x y = Fadd y x.
Hypothesis Fadd_assoc : forall x y z, Fadd x (Fadd y z) = Fadd (Fadd x y) z.




End Exact.

(** ** The layer *)

Lemma expand_as_unsqueeze (len_ : list Z) (other : list (list F)) :
  length len_ = length other ->
  expand_as (unsqueeze1 len_) other
  = Ok (zip_with (fun n (o : list F) => replicate (length o) n) len_ other).
Proof.
  intros Hlen. unfold expand_as, unsqueeze1.
  rewrite length_fmap, Hlen, Nat.eqb_refl. f_equal.
  clear Hlen. revert other.
  induction len_ as [|n len_ IH]; intros [|o other]; simpl; try done.
  by rewrite IH.
Qed.

(** [forward] returns as soon as [len_] has one entry per item. *)
Lemma MeanEmbedding_forward_ok (emb : list (list (list F))) (len_ : list Z) :
  length len_ = length (torch_sum emb) ->
  MeanEmbedding_forward torch_sum Fdiv F_of_Z emb len_
  = Ok (zip_with (fun (s : list F) n => (fun x => Fdiv x (F_of_Z n)) <$> s)
          (torch_sum emb) len_).
Proof.
  intros Hlen. unfold MeanEmbedding_forward.
  rewrite expand_as_unsqueeze by done.
  simpl. f_equal. unfold tensor_div, to_float.
  generalize (torch_sum emb) as sums. clear Hlen.
  induction len_ as [|n len_ IH]; intros [|s sums]; simpl; try done.
  rewrite IH. f_equal.
  clear. induction s as [|x s IH]; [done|].
  cbn [length replicate fmap list_fmap zip_with]. f_equal. exact IH.
Qed.



(** The sum in sequence order has the shape and the entries [torch.sum]
    promises, in any arithmetic. *)
Lemma torch_sum_dim1_spec : sum_spec F0 Fadd (torch_sum_dim1 F0 Fadd).
Proof.
  intros emb N L D [[HN Hitems] HLD].
  assert (Hrow : forall i item, emb !! i = Some item ->
            shape1 item = D /\ Forall (fun r : list F => length r = D) item).
  { intros i item Hitem. rewrite Forall_lookup in Hitems.
    destruct (Hitems i item Hitem) as [HL Hrows]. split; [|done].
    destruct item as [|r item]; simpl in *.
    - symmetry. apply HLD. lia.
    - by inversion Hrows. }
  split.
  - split; [unfold torch_sum_dim1; by rewrite length_fmap|].
    apply Forall_lookup. intros i row Hi. unfold torch_sum_dim1 in Hi.
    rewrite list_lookup_fmap in Hi.
    destruct (emb !! i) as [item|] eqn:Hitem; [|done]. injection Hi as <-.
    destruct (Hrow i item Hitem) as [-> Hrows].
    apply foldl_rows_length; [apply length_replicate | done].
  - intros i d Hi Hd.
    destruct (lookup_lt_is_Some_2 emb i) as [item Hitem]; [lia|].
    destruct (Hrow i item Hitem) as [Hw Hrows].
    unfold at2, torch_sum_dim1, column. rewrite list_lookup_fmap, Hitem. simpl.
    rewrite Hw.
    rewrite (foldl_rows_at item (replicate D F0) D d);
      [| apply length_replicate | done | done].
    rewrite (lookup_replicate_2 D F0 d) by done. simpl.
    rewrite <- (foldl_fmap Fadd F0 item (fun row : list F => default F0 (row !! d))).
    apply (reduces_to_foldl [] _ F0). apply reduces_nil.
Qed.

Lemma torch_sum_dim1_length (emb : list (list (list F))) :
  length (torch_sum_dim1 F0 Fadd emb) = length emb.
Proof. unfold torch_sum_dim1. by rewrite length_fmap. Qed.

End MeanEmbeddingSpec.

(** ** Exact arithmetic: the rationals *)





Example MeanEmbedding_run_rationals :
  MeanEmbedding_forward (torch_sum_dim1 0%Q Qplus) Qdiv inject_Z
    [[[1%Q; 2%Q]; [3%Q; 4%Q]; [0%Q; 0%Q]]] [2]
  = Ok [[(4 # 2)%Q; (6 # 2)%Q]].
Proof. vm_compute. reflexivity. Qed.

(** A single length is spread over all items, as [expand_as] broadcasts a
    dimension of size one. *)
Example MeanEmbedding_run_one_length :
  MeanEmbedding_forward (torch_sum_dim1 0%Q Qplus) Qdiv inject_Z
    [[[2%Q]]; [[4%Q]; [4%Q]]] [2]
  = Ok [[(2 # 2)%Q]; [(8 # 2)%Q]].
Proof. vm_compute. reflexivity. Qed.

(** ** Rounding, in single precision *)

Section TwoNumbers.

Context {F : Type}.
Variable F0 : F.
Variable Fadd : F -> F -> F.
Variables a b : F.

(** Two numbers whose sum rounds back to the first. *)
Hypothesis add_00 : Fadd F0 F0 = F0.
Hypothesis add_a0 : Fadd a F0 = a.
Hypothesis add_0a : Fadd F0 a = a.
Hypothesis add_b0 : Fadd b F0 = b.
Hypothesis add_0b : Fadd F0 b = b.
Hypothesis add_ab : Fadd a b = a.
Hypothesis add_ba : Fadd b a = a.


End TwoNumbers.



(** * Division by a zero length, in single precision *)

Lemma Float32_div_zero (x : spec_float) :
  Float32.is_finite (Float32.div x (Float32.of_Z 0)) = false.
Proof. by destruct x. Qed.

(** C7. [MeanEmbedding.forward] checks nothing about [len_]: it returns
    whenever there is one length per item, and where [len_[i]] is [0] the
    division is by zero, so that every entry of row [i] of the result is an
    infinity or a NaN. *)
Theorem MeanEmbedding_forward_zero_length
    (emb : list (list (list spec_float))) (len_ : list Z) (i : nat) :
  length len_ = length emb -> len_ !! i = Some 0 ->
  exists out row,
    Float32.MeanEmbedding_forward emb len_ = Ok out
    /\ out !! i = Some row
    /\ length row = length (default [] (torch_sum_dim1 Float32.zero Float32.add emb !! i))
    /\ Forall (fun x => Float32.is_finite x = false) row.
Proof.
  intros Hlen Hi. unfold Float32.MeanEmbedding_forward.
  rewrite MeanEmbedding_forward_ok by (by rewrite torch_sum_dim1_length).
  assert (is_Some (torch_sum_dim1 Float32.zero Float32.add emb !! i)) as [s Hs].
  { apply lookup_lt_is_Some. rewrite torch_sum_dim1_length, <- Hlen.
    by apply lookup_lt_Some in Hi. }
  eexists _, _. split; [done|].
  split; [rewrite lookup_zip_with, Hs; simpl; rewrite Hi; done|].
  rewrite Hs. simpl. split; [by rewrite length_fmap|].
  apply Forall_fmap, Forall_forall. intros x _. simpl.
  apply Float32_div_zero.
Qed.

(** The single item [[1.0]] with length [0]. *)
Lemma MeanEmbedding_forward_zero_length_witness :
  exists out row,
    Float32.MeanEmbedding_forward [[[S754_finite false 8388608 (-23)]]] [0] = Ok out
    /\ out !! 0%nat = Some row
    /\ length row = 1%nat
    /\ Forall (fun x => Float32.is_finite x = false) row.
Proof.
  exact (MeanEmbedding_forward_zero_length
           [[[S754_finite false 8388608 (-23)]]] [0] 0 eq_refl eq_refl).
Defined.

Example MeanEmbedding_forward_one_over_zero :
  Float32.MeanEmbedding_forward [[[S754_finite false 8388608 (-23)]]] [0]
  = Ok [[S754_infinity false]].
Proof. reflexivity. Qed.

Example MeanEmbedding_forward_zero_over_zero :
  Float32.MeanEmbedding_forward [[[S754_zero false]]] [0] = Ok [[S754_nan]].
Proof. reflexivity. Qed.


(** * Indexing by a permutation and by its inverse *)

Section Gather.

Context {A : Type}.
Implicit Types (t : list A) (indx : list Z).

Lemma gather_length (d : A) t indx : length (gather d t indx) = length indx.
Proof. unfold gather. by rewrite length_fmap. Qed.

Lemma gather_lookup (d : A) t indx (k : nat) (j : Z) :
  indx !! k = Some j -> gather d t indx !! k = Some (default d (t !! Z.to_nat j)).
Proof. intros H. unfold gather. by rewrite list_lookup_fmap, H. Qed.

Lemma gather_arange (d : A) t : gather d t (arange (length t)) = t.
Proof.
  apply list_eq. intros i. unfold gather, arange.
  rewrite !list_lookup_fmap.
  destruct (decide (i < length t)%nat) as [Hi|Hi].
  - rewrite lookup_seq_lt by done. simpl. rewrite Nat2Z.id.
    destruct (lookup_lt_is_Some_2 t i Hi) as [x Hx]. by rewrite Hx.
  - rewrite lookup_seq_ge by lia. simpl.
    symmetry. apply lookup_ge_None. lia.
Qed.

Lemma gather_fmap {B : Type} (f : A -> B) (d : A) t indx :
  f <$> gather d t indx = gather (f d) (f <$> t) indx.
Proof.
  unfold gather. rewrite <- list_fmap_compose. apply list_fmap_ext.
  intros _ j _. simpl. rewrite list_lookup_fmap.
  by destruct (t !! Z.to_nat j).
Qed.

(** Every position of a permutation of [arange n] lies in [0, n). *)
Lemma arange_perm_range indx (n : nat) :
  indx ≡ₚ arange n -> Forall (fun j => 0 <= j < Z.of_nat n) indx.
Proof.
  intros Hp. rewrite Hp. unfold arange.
  apply Forall_fmap, Forall_forall. intros i Hi%elem_of_seq. simpl. lia.
Qed.

Lemma gather_perm (d : A) t indx :
  indx ≡ₚ arange (length t) -> gather d t indx ≡ₚ t.
Proof.
  intros Hp. rewrite <- (gather_arange d t) at 2.
  unfold gather. by apply fmap_Permutation.
Qed.

(** Indexing twice is indexing by the composed positions. *)
Lemma gather_gather (d : A) t indx inv :
  Forall (fun k => 0 <= k < Z.of_nat (length indx)) inv ->
  gather d (gather d t indx) inv = gather d t (gather 0 indx inv).
Proof.
  intros Hinv. unfold gather at 1 3 4. rewrite <- list_fmap_compose.
  apply Forall_fmap_ext_1. eapply Forall_impl; [exact Hinv|].
  intros k Hk. simpl in *.
  destruct (lookup_lt_is_Some_2 indx (Z.to_nat k)) as [j Hj]; [lia|].
  rewrite (gather_lookup d t indx _ j Hj), Hj. done.
Qed.

(** [t[indx]] returns when the positions lie in [t]. *)
Lemma index_rows_ok (d : A) t indx :
  Forall (fun j => 0 <= j < Z.of_nat (length t)) indx ->
  index_rows t indx = Ok (gather d t indx).
Proof.
  unfold index_rows, gather.
  induction 1 as [|j indx Hj _ IH]; simpl; [done|].
  rewrite IH. unfold index_row.
  assert ((j <? 0) = false) as -> by lia.
  assert (((0 <=? j) && (j <? Z.of_nat (length t))) = true) as -> by lia.
  destruct (lookup_lt_is_Some_2 t (Z.to_nat j)) as [x Hx]; [lia|].
  rewrite Hx. done.
Qed.

End Gather.

Lemma arange_sorted (n : nat) : Sorted Z.le (arange n).
Proof.
  unfold arange. generalize 0%nat as k.
  induction n as [|n IH]; intros k; simpl; [constructor|].
  constructor; [apply IH|].
  destruct n; simpl; constructor. lia.
Qed.

(** Sorting the positions of a permutation yields its inverse: read in that
    order, the permutation counts up from zero. *)
Lemma argsort_inverse (argsort : bool -> list Z -> list Z) (indx : list Z) (n : nat) :
  argsort_spec argsort -> indx ≡ₚ arange n ->
  argsort false indx ≡ₚ arange n
  /\ gather 0 indx (argsort false indx) = arange n.
Proof.
  intros Hspec Hp.
  destruct (Hspec false indx) as [Hperm Hsorted].
  assert (Hn : length indx = n).
  { rewrite Hp. unfold arange. by rewrite length_fmap, length_seq. }
  rewrite Hn in Hperm. split; [done|].
  apply (Sorted_unique Z.le); [done | apply arange_sorted |].
  etrans; [|exact Hp]. apply gather_perm. by rewrite Hn.
Qed.

(** Indexing by a permutation, then by its sorted positions, is the
    identity on rows. *)
Lemma gather_argsort_inverse {A : Type} (argsort : bool -> list Z -> list Z)
    (d : A) (t : list A) (indx : list Z) :
  argsort_spec argsort -> indx ≡ₚ arange (length t) ->
  gather d (gather d t indx) (argsort false indx) = t.
Proof.
  intros Hspec Hp.
  destruct (argsort_inverse argsort indx (length t) Hspec Hp) as [Hperm Hinv].
  assert (Hn : length indx = length t).
  { rewrite Hp. unfold arange. by rewrite length_fmap, length_seq. }
  rewrite gather_gather.
  - rewrite Hinv. apply gather_arange.
  - rewrite Hn. by apply arange_perm_range.
Qed.

(** * Loops that may raise *)

Section ForEach.

Context {A B : Type}.
Implicit Types (f : A -> result B).

Lemma for_each_lookup f (l : list A) (r : list B) :
  for_each f l = Ok r ->
  length r = length l
  /\ forall i x, l !! i = Some x -> exists y, r !! i = Some y /\ f x = Ok y.
Proof.
  revert r. induction l as [|a l IH]; intros r Hr; simpl in Hr.
  - injection Hr as <-. split; [done|]. intros i x Hx. done.
  - destruct (f a) as [b|e] eqn:Hfa; simpl in Hr; [|done].
    destruct (for_each f l) as [bs|e] eqn:Hl; simpl in Hr; [|done].
    injection Hr as <-. destruct (IH bs eq_refl) as [Hlen Hlook].
    split; [simpl; lia|].
    intros [|i] x Hx; simpl in *.
    + injection Hx as <-. eauto.
    + eauto.
Qed.

Lemma for_each_ok f (g : A -> B) (l : list A) :
  Forall (fun x => f x = Ok (g x)) l -> for_each f l = Ok (g <$> l).
Proof.
  induction 1 as [|a l Ha _ IH]; simpl; [done|].
  by rewrite Ha, IH.
Qed.

(** Running the loop over [t[indx]] is indexing the results of the loop
    over [t]. *)
Lemma for_each_gather f (da : A) (db : B) (t : list A) (r : list B) (indx : list Z) :
  for_each f t = Ok r ->
  Forall (fun j => 0 <= j < Z.of_nat (length t)) indx ->
  for_each f (gather da t indx) = Ok (gather db r indx).
Proof.
  intros Hr Hin. destruct (for_each_lookup f t r Hr) as [Hlen Hlook].
  unfold gather.
  induction Hin as [|j indx Hj _ IH]; csimpl; [done|].
  destruct (lookup_lt_is_Some_2 t (Z.to_nat j)) as [a Ha]; [lia|].
  destruct (Hlook _ _ Ha) as (b & Hb & Hfa).
  rewrite Ha, Hb. csimpl. rewrite Hfa. csimpl.
  by rewrite IH.
Qed.

End ForEach.

Lemma zip_with_gather {A B C : Type} (f : A -> B -> C) (da : A) (db : B)
    (l1 : list A) (l2 : list B) (indx : list Z) :
  zip_with f (gather da l1 indx) (gather db l2 indx)
  = (fun j => f (default da (l1 !! Z.to_nat j)) (default db (l2 !! Z.to_nat j)))
      <$> indx.
Proof. unfold gather. induction indx as [|j indx IH]; csimpl; [done|]. by rewrite IH. Qed.

Lemma foldr_max_perm (l1 l2 : list nat) :
  l1 ≡ₚ l2 -> foldr Nat.max 0%nat l1 = foldr Nat.max 0%nat l2.
Proof.
  induction 1 as [|x l1 l2 _ IH|x y l|l1 l2 l3 _ IH1 _ IH2]; simpl; lia.
Qed.

Lemma existsb_false {A : Type} (f : A -> bool) (l : list A) :
  Forall (fun x => f x = false) l -> existsb f l = false.
Proof. induction 1 as [|x l Hx _ IH]; simpl; [done|]. by rewrite Hx, IH. Qed.

Lemma arange_length (n : nat) : length (arange n) = n.
Proof. unfold arange. by rewrite length_fmap, length_seq. Qed.

(** * Packing, running and padding a sorted batch *)

Section Packing.

Context {F : Type}.
Variable F0 : F.
Implicit Types (x : list (list (list F))) (x_len indx : list Z).

Lemma sorted_desc_Sorted (l : list Z) :
  Sorted (fun a b => b <= a) l -> sorted_desc l = true.
Proof.
  induction 1 as [|a l Hs IH Hhd]; [done|].
  destruct Hhd as [|b l Hab]; simpl in *; [done|].
  rewrite IH. apply andb_true_intro. split; [lia | done].
Qed.

Lemma valid_batch_length x x_len :
  valid_batch x x_len -> length x_len = length x /\ (0 < length x)%nat.
Proof.
  intros [Hne Hall]. split; [by eapply Forall2_length|].
  destruct x; [done | simpl; lia].
Qed.

(** Every position of a permutation names a sequence of the batch and its
    length. *)
Lemma valid_batch_at x x_len indx :
  valid_batch x x_len -> indx ≡ₚ arange (length x_len) ->
  Forall (fun j => exists n s,
            x_len !! Z.to_nat j = Some n /\ x !! Z.to_nat j = Some s
            /\ 0 < n <= Z.of_nat (length s)) indx.
Proof.
  intros Hv Hp. destruct Hv as [_ Hall].
  eapply Forall_impl; [exact (arange_perm_range indx _ Hp)|].
  intros j Hj. simpl in Hj.
  destruct (lookup_lt_is_Some_2 x_len (Z.to_nat j)) as [n Hn]; [lia|].
  destruct (Forall2_lookup_l _ _ _ _ _ Hall Hn) as (s & Hs & Hns).
  eauto.
Qed.

Lemma pack_padded_sequence_sorted x x_len indx :
  valid_batch x x_len -> indx ≡ₚ arange (length x_len) ->
  Sorted (fun a b => b <= a) (gather 0 x_len indx) ->
  pack_padded_sequence (gather [] x indx) (gather 0 x_len indx)
  = Ok (gather [] (sequences x x_len) indx).
Proof.
  intros Hv Hp Hsorted.
  destruct (valid_batch_length x x_len Hv) as [Hlen Hpos].
  assert (Hat := valid_batch_at x x_len indx Hv Hp).
  assert (Hn : length indx = length x).
  { rewrite Hp, arange_length. done. }
  unfold pack_padded_sequence.
  rewrite !gather_length, Hn.
  assert ((length x =? 0)%nat = false) as -> by (apply Nat.eqb_neq; lia).
  rewrite Nat.eqb_refl. simpl.
  rewrite existsb_false; cycle 1.
  { unfold gather. apply Forall_fmap. eapply Forall_impl; [exact Hat|].
    intros j (n & s & Hjn & Hjs & Hns). simpl. rewrite Hjn. simpl. lia. }
  rewrite sorted_desc_Sorted by done. simpl.
  rewrite (existsb_false _ (zip (gather 0 x_len indx) (gather [] x indx))); cycle 1.
  { rewrite (zip_with_gather pair 0 [] x_len x indx).
    apply Forall_fmap. eapply Forall_impl; [exact Hat|].
    intros j (n & s & Hjn & Hjs & Hns). simpl. rewrite Hjn, Hjs. simpl. lia. }
  f_equal. rewrite zip_with_gather. unfold gather.
  apply Forall_fmap_ext_1. eapply Forall_impl; [exact Hat|].
  intros j (n & s & Hjn & Hjs & Hns). simpl.
  unfold sequences. rewrite lookup_zip_with, Hjn, Hjs. done.
Qed.

(** The lengths of the sequences of a valid batch. *)
Lemma sequences_length x x_len :
  valid_batch x x_len -> length (sequences x x_len) = length x.
Proof.
  intros Hv. destruct (valid_batch_length x x_len Hv) as [Hlen _].
  unfold sequences. rewrite length_zip_with. lia.
Qed.

End Packing.

Lemma gather_default {A : Type} (d d' : A) (t : list A) (indx : list Z) :
  Forall (fun j => 0 <= j < Z.of_nat (length t)) indx ->
  gather d t indx = gather d' t indx.
Proof.
  intros Hin. unfold gather. apply Forall_fmap_ext_1.
  eapply Forall_impl; [exact Hin|]. intros j Hj. simpl in *.
  destruct (lookup_lt_is_Some_2 t (Z.to_nat j)) as [a Ha]; [lia|].
  by rewrite Ha.
Qed.

(** * [RNNEmbedding.forward] *)

Section RNNForward.

Context {F : Type}.
Variable F0 : F.
Variable torch_argsort : bool -> list Z -> list Z.
Implicit Types (self : @RNNEmbedding F) (x : list (list (list F)))
  (x_len indx : list Z) (outs : list (list (list F) * list (list F))).

(** The final hidden states of a batch, for the layers whose branch of
    [forward] is complete. *)
Lemma packed_h_t_ok self outs :
  rnn_type self = "lstm" \/ bidirectional self = false ->
  (if String.eqb (rnn_type self) "lstm" then
     if num_directions self =? 2
     then cat_list cat2_last (final_states (num_directions self) outs)
     else Ok (squeeze0 (final_states (num_directions self) outs))
   else
     if num_directions self =? 2 then Raise (NameError "query_lengths")
     else Ok (squeeze0 (final_states (num_directions self) outs)))
  = Ok (final_row (num_directions self) <$> outs).
Proof.
  intros Hkind. unfold num_directions.
  assert (Hone : squeeze0 (final_states 1 outs) = final_row 1 <$> outs).
  { unfold squeeze0, final_states, final_row. simpl.
    apply list_fmap_ext. intros _ o _. simpl. by rewrite app_nil_r. }
  destruct (bidirectional self) eqn:Hbi; simpl.
  - destruct Hkind as [-> | ?]; [|done]. simpl.
    unfold final_states, cat2_last. simpl.
    rewrite !length_fmap, Nat.eqb_refl. simpl. f_equal.
    unfold final_row. simpl.
    clear Hone. induction outs as [|o outs IH]; csimpl; [done|].
    by rewrite IH, app_nil_r.
  - rewrite Hone. by destruct (String.eqb (rnn_type self) "lstm").
Qed.

(** Padding the hidden states of a permuted batch. *)
Lemma pad_packed_sequence_gather outs indx (H : nat) :
  indx ≡ₚ arange (length outs) -> outs <> [] ->
  Forall (fun o => o.1 <> [] /\ Forall (fun r : list F => length r = H) o.1) outs ->
  pad_packed_sequence F0 (fst <$> gather ([], []) outs indx)
  = gather []
      ((fun o => pad_to F0 (foldr Nat.max 0%nat ((fun o => length o.1) <$> outs)) H o.1)
         <$> outs) indx.
Proof.
  intros Hp Hne Hall.
  assert (Hin := arange_perm_range indx _ Hp).
  unfold pad_packed_sequence.
  assert (HT : foldr Nat.max 0%nat (length <$> (fst <$> gather ([], []) outs indx))
               = foldr Nat.max 0%nat ((fun o => length o.1) <$> outs)).
  { rewrite <- list_fmap_compose. apply foldr_max_perm.
    apply fmap_Permutation. by apply gather_perm. }
  assert (HH : shape1 (default [] (head (fst <$> gather ([], []) outs indx))) = H).
  { destruct indx as [|j indx'].
    - apply Permutation_length in Hp. rewrite arange_length in Hp.
      destruct outs; [done | simpl in Hp; lia].
    - csimpl. inversion Hin as [|? ? Hj _]; subst.
      destruct (lookup_lt_is_Some_2 outs (Z.to_nat j)) as [o Ho]; [lia|].
      rewrite Ho. simpl.
      rewrite Forall_lookup in Hall. destruct (Hall _ _ Ho) as [Hne' Hw].
      destruct o.1 as [|r rs]; [done|]. simpl. by inversion Hw. }
  rewrite HT, HH.
  rewrite <- list_fmap_compose, (gather_fmap _ ([], [])).
  apply gather_default. by rewrite length_fmap.
Qed.

(** The run of [forward] up to the network, on a valid batch. *)
Lemma RNNEmbedding_forward_packed self x x_len outs :
  argsort_spec torch_argsort -> valid_batch x x_len ->
  for_each (model self) (sequences x x_len) = Ok outs ->
  let indx := torch_argsort true x_len in
  indx ≡ₚ arange (length outs)
  /\ index_rows x indx = Ok (gather [] x indx)
  /\ pack_padded_sequence (gather [] x indx) (gather 0 x_len indx)
     = Ok (gather [] (sequences x x_len) indx)
  /\ for_each (model self) (gather [] (sequences x x_len) indx)
     = Ok (gather ([], []) outs indx).
Proof.
  intros Hsort Hv Houts indx.
  destruct (Hsort true x_len) as [Hp Hsorted]. fold indx in Hp, Hsorted.
  destruct (valid_batch_length x x_len Hv) as [Hlen Hpos].
  destruct (for_each_lookup _ _ _ Houts) as [Hlo _].
  rewrite (sequences_length x x_len Hv) in Hlo.
  assert (Hin := arange_perm_range indx _ Hp).
  split; [by rewrite Hlo, <- Hlen|].
  split; [apply index_rows_ok; by rewrite <- Hlen|].
  split; [by apply pack_padded_sequence_sorted|].
  apply for_each_gather; [done|].
  by rewrite (sequences_length x x_len Hv), <- Hlen.
Qed.

(** The whole of [forward] on a valid batch, for the layers whose branch is
    complete: the hidden states and final states of the sequences, in the
    order of the input. *)
Lemma RNNEmbedding_forward_run self x x_len outs (H : nat) :
  argsort_spec torch_argsort -> rnn_spec (model self) H -> valid_batch x x_len ->
  for_each (model self) (sequences x x_len) = Ok outs ->
  rnn_type self = "lstm" \/ bidirectional self = false ->
  RNNEmbedding_forward F0 torch_argsort self x x_len
  = Ok ((fun o => pad_to F0 (foldr Nat.max 0%nat ((fun o => length o.1) <$> outs)) H o.1)
          <$> outs,
        final_row (num_directions self) <$> outs).
Proof.
  intros Hsort Hrnn Hv Houts Hkind.
  destruct (RNNEmbedding_forward_packed self x x_len outs Hsort Hv Houts)
    as (Hp & H1 & H2 & H3).
  destruct (valid_batch_length x x_len Hv) as [Hlen Hpos].
  destruct (for_each_lookup _ _ _ Houts) as [Hlo Hlook].
  rewrite (sequences_length x x_len Hv) in Hlo.
  set (indx := torch_argsort true x_len) in *.
  assert (Hin := arange_perm_range indx _ Hp).
  assert (Hall : Forall (fun o => o.1 <> []
                          /\ Forall (fun r : list F => length r = H) o.1) outs).
  { apply Forall_lookup. intros i o Ho.
    destruct (lookup_lt_is_Some_2 (sequences x x_len) i) as [s Hs].
    { rewrite (sequences_length x x_len Hv), <- Hlo. by eapply lookup_lt_Some. }
    destruct (Hlook _ _ Hs) as (o' & Ho' & Hrun).
    assert (o' = o) as -> by congruence.
    destruct (Hrnn _ _ Hrun) as [Hsteps Hwidth]. split; [|done].
    unfold sequences in Hs.
    apply lookup_zip_with_Some in Hs as (n & s' & -> & Hn & Hs').
    destruct Hv as [_ Hv]. pose proof (Forall2_lookup_lr _ _ _ _ _ _ Hv Hn Hs') as Hns.
    simpl in Hns. rewrite length_take in Hsteps.
    intros Hnil. rewrite Hnil in Hsteps. simpl in Hsteps. lia. }
  assert (Hne : outs <> []) by (destruct outs; [simpl in Hlo; lia | done]).
  destruct (Hsort false indx) as [Hpinv _].
  assert (Hn : length indx = length outs).
  { rewrite Hp. apply arange_length. }
  assert (Hininv := arange_perm_range _ _ Hpinv).
  unfold RNNEmbedding_forward, torch_sort.
  change ((fun j => default 0 (x_len !! Z.to_nat j)) <$> torch_argsort true x_len)
    with (gather 0 x_len indx).
  fold indx. cbn beta iota zeta.
  rewrite H1. cbn [bind]. rewrite H2. cbn [bind]. rewrite H3. cbn [bind].
  rewrite packed_h_t_ok by done. cbn [bind].
  rewrite (pad_packed_sequence_gather outs indx H) by done.
  rewrite (gather_fmap _ ([], [])).
  rewrite (gather_default (final_row (num_directions self) ([], [])) []
             (final_row (num_directions self) <$> outs)) by (by rewrite length_fmap).
  rewrite (index_rows_ok []), (index_rows_ok []);
    [| by rewrite gather_length | by rewrite gather_length ].
  cbn [bind].
  rewrite !(gather_argsort_inverse torch_argsort) by (done || by rewrite length_fmap).
  done.
Qed.

End RNNForward.

(** * The stable sort meets what [torch.sort] promises *)

#[global] Instance key_le_total descending : Total (key_le descending).
Proof. intros p q. unfold key_le. destruct descending; lia. Qed.

Lemma zip_seq_lookup (t : list Z) (p : Z * nat) :
  p ∈ zip t (seq 0 (length t)) -> t !! p.2 = Some p.1.
Proof.
  intros (i & Hi)%list_elem_of_lookup.
  apply lookup_zip_with_Some in Hi as (v & k & -> & Hv & Hk).
  apply lookup_seq in Hk as [-> _]. done.
Qed.

Lemma argsort_stable_spec : argsort_spec argsort_stable.
Proof.
  intros descending t. unfold argsort_stable.
  set (l := zip t (seq 0 (length t))).
  assert (Hperm : merge_sort (key_le descending) l ≡ₚ l)
    by apply merge_sort_Permutation.
  split.
  - rewrite Hperm. unfold l, arange.
    change (fun p : Z * nat => Z.of_nat p.2) with (Z.of_nat ∘ (snd : Z * nat -> nat)).
    rewrite (list_fmap_compose snd Z.of_nat).
    rewrite snd_zip by (rewrite length_seq; lia). done.
  - assert (Hval : gather 0 t ((fun p : Z * nat => Z.of_nat p.2)
                                 <$> merge_sort (key_le descending) l)
                   = fst <$> merge_sort (key_le descending) l).
    { unfold gather. rewrite <- list_fmap_compose.
      apply Forall_fmap_ext_1, Forall_forall. intros p Hp. simpl.
      rewrite Nat2Z.id. rewrite Hperm in Hp.
      by rewrite (zip_seq_lookup t p Hp). }
    rewrite Hval.
    eapply Sorted_fmap; [|apply (Sorted_merge_sort (key_le descending))].
    intros p q. unfold key_le. by destruct descending.
Qed.

Lemma echo_fn_spec {F : Type} (input_size : Z) (bidirectional : bool) :
  rnn_spec (F := F) (echo_fn input_size bidirectional) (Z.to_nat input_size).
Proof.
  intros s o Ho. unfold echo_fn in Ho. destruct (forallb _ s) eqn:Hs; [|done].
  injection Ho as <-. simpl. split; [done|].
  apply Forall_forall. intros r Hr.
  rewrite forallb_forall in Hs. apply Nat.eqb_eq, Hs.
  by apply list_elem_of_In.
Qed.

(** * The branch of the bidirectional GRU *)

Section Bigru.

Context {F : Type}.
Variable F0 : F.
Variable torch_argsort : bool -> list Z -> list Z.
Implicit Types (self : @RNNEmbedding F) (x : list (list (list F))) (x_len : list Z).

(** Whatever the batch, a bidirectional layer that is not an LSTM returns
    nothing. *)
Lemma RNNEmbedding_forward_bigru_never_ok self x x_len r :
  String.eqb (rnn_type self) "lstm" = false -> bidirectional self = true ->
  RNNEmbedding_forward F0 torch_argsort self x x_len <> Ok r.
Proof.
  intros Hkind Hbi. unfold RNNEmbedding_forward, torch_sort, num_directions.
  cbn beta iota zeta. rewrite Hkind, Hbi.
  destruct (index_rows x _) as [x_indx|e]; [|done]. cbn [bind].
  destruct (pack_padded_sequence x_indx _) as [packed|e]; [|done]. cbn [bind].
  destruct (for_each (model self) packed) as [out|e]; done.
Qed.

(** On a valid batch it reaches the undefined name. *)
Lemma RNNEmbedding_forward_bigru_raises self x x_len :
  String.eqb (rnn_type self) "lstm" = false -> bidirectional self = true ->
  argsort_spec torch_argsort -> valid_batch x x_len ->
  is_ok (for_each (model self) (sequences x x_len)) = true ->
  RNNEmbedding_forward F0 torch_argsort self x x_len
  = Raise (NameError "query_lengths").
Proof.
  intros Hkind Hbi Hsort Hv Hrun.
  destruct (for_each (model self) (sequences x x_len)) as [outs|e] eqn:Houts; [|done].
  destruct (RNNEmbedding_forward_packed torch_argsort self x x_len outs Hsort Hv Houts)
    as (_ & H1 & H2 & H3).
  unfold RNNEmbedding_forward, torch_sort, num_directions.
  change ((fun j => default 0 (x_len !! Z.to_nat j)) <$> torch_argsort true x_len)
    with (gather 0 x_len (torch_argsort true x_len)).
  cbn beta iota zeta.
  rewrite H1. cbn [bind]. rewrite H2. cbn [bind]. rewrite H3. cbn [bind].
  by rewrite Hkind, Hbi.
Qed.

Variable nn_RNN : rnn_cell -> Z -> Z -> bool -> result (@rnn_fn F).

(** What [__init__] records. *)
Lemma RNNEmbedding_init_fields (input_size hidden_size : Z) (bidir : bool)
    (kind : string) self :
  RNNEmbedding_init nn_RNN input_size hidden_size bidir kind = Ok self ->
  rnn_type self = kind /\ bidirectional self = bidir.
Proof.
  unfold RNNEmbedding_init. intros Hinit.
  destruct (negb _); [done|].
  destruct (_ && _); [done|].
  destruct (nn_RNN _ _ _ _) as [m|e]; [|done].
  simpl in Hinit. by injection Hinit as <-.
Qed.

End Bigru.

(** * The order of the rows of [RNNEmbedding.forward] *)

Lemma outs_lengths {F : Type} (f : @rnn_fn F) (H : nat)
    (seqs : list (list (list F))) outs :
  rnn_spec f H -> for_each f seqs = Ok outs ->
  (fun o : list (list F) * list (list F) => length o.1) <$> outs = length <$> seqs.
Proof.
  intros Hrnn Houts. destruct (for_each_lookup _ _ _ Houts) as [Hlen Hlook].
  apply list_eq. intros i. rewrite !list_lookup_fmap.
  destruct (seqs !! i) as [s|] eqn:Hs.
  - destruct (Hlook _ _ Hs) as (o & Ho & Hrun). rewrite Ho. simpl.
    by destruct (Hrnn _ _ Hrun) as [-> _].
  - apply lookup_ge_None in Hs. rewrite lookup_ge_None_2 by lia. done.
Qed.

(** C9.  [forward] sorts the batch by decreasing length and indexes both
    results by the sorted positions of that permutation: on a valid batch,
    whatever order the sort chose among equal lengths, row [i] of each
    returned tensor is what the network computed for input sequence [i]
    (its hidden states padded to the longest sequence, and its final
    state).  The LSTM layers and the unidirectional GRU do return; the
    bidirectional GRU stops at the undefined name [query_lengths] before
    the order is restored, and returns no tensor at all. *)
Theorem RNNEmbedding_forward_restores_order {F : Type} (F0 : F)
    (torch_argsort : bool -> list Z -> list Z) (self : @RNNEmbedding F)
    (x : list (list (list F))) (x_len : list Z) (H : nat) :
  argsort_spec torch_argsort -> rnn_spec (model self) H -> valid_batch x x_len ->
  is_ok (for_each (model self) (sequences x x_len)) = true ->
  (forall hh ht,
     RNNEmbedding_forward F0 torch_argsort self x x_len = Ok (hh, ht) ->
     length hh = length x /\ length ht = length x
     /\ forall i s, sequences x x_len !! i = Some s ->
          exists o, model self s = Ok o
            /\ hh !! i
               = Some (pad_to F0 (foldr Nat.max 0%nat (length <$> sequences x x_len))
                         H o.1)
            /\ ht !! i = Some (final_row (num_directions self) o))
  /\ (rnn_type self = "lstm" \/ bidirectional self = false ->
      exists hh ht, RNNEmbedding_forward F0 torch_argsort self x x_len = Ok (hh, ht))
  /\ (rnn_type self = "gru" -> bidirectional self = true ->
      RNNEmbedding_forward F0 torch_argsort self x x_len
      = Raise (NameError "query_lengths")).
Proof.
  intros Hsort Hrnn Hv Hrun.
  split; [|split]; cycle 2.
  { intros Hgru Hbi. apply RNNEmbedding_forward_bigru_raises; try done.
    by rewrite Hgru. }
  all: destruct (for_each (model self) (sequences x x_len)) as [outs|e] eqn:Houts;
    [|done].
  2: { intros Hkind.
       rewrite (RNNEmbedding_forward_run F0 torch_argsort self x x_len outs H) by done.
       eauto. }
  intros hh ht Hret.
  assert (Hcases : (rnn_type self = "lstm" \/ bidirectional self = false)
                   \/ (String.eqb (rnn_type self) "lstm" = false
                       /\ bidirectional self = true)).
  { destruct (String.eqb (rnn_type self) "lstm") eqn:Hkind.
    - apply String.eqb_eq in Hkind. auto.
    - destruct (bidirectional self); auto. }
  destruct Hcases as [Hkind | [Hkind Hbi]];
    [|by apply RNNEmbedding_forward_bigru_never_ok in Hret].
  rewrite (RNNEmbedding_forward_run F0 torch_argsort self x x_len outs H)
    in Hret by done.
  injection Hret as <- <-.
  destruct (for_each_lookup _ _ _ Houts) as [Hlo Hlook].
  rewrite (sequences_length x x_len Hv) in Hlo.
  rewrite !length_fmap. do 2 (split; [done|]).
  intros i s Hs. destruct (Hlook _ _ Hs) as (o & Ho & Hmodel).
  exists o. split; [done|].
  rewrite !list_lookup_fmap, Ho. simpl.
  by rewrite (outs_lengths (model self) H (sequences x x_len) outs).
Qed.

(** Two sequences of lengths [1] and [3], which the sort exchanges, through
    a bidirectional GRU. *)
Lemma RNNEmbedding_forward_restores_order_witness :
  RNNEmbedding_forward 0 argsort_stable
    {| rnn_type := "gru"; bidirectional := true; hidden_size := 2;
       model := echo_fn 1 true |}
    [[[4]; [0]; [0]]; [[1]; [2]; [3]]] [1; 3]
  = Raise (NameError "query_lengths").
Proof.
  refine (proj2 (proj2 (RNNEmbedding_forward_restores_order 0 argsort_stable
                          {| rnn_type := "gru"; bidirectional := true;
                             hidden_size := 2; model := echo_fn 1 true |}
                          [[[4]; [0]; [0]]; [[1]; [2]; [3]]] [1; 3] 1 _ _ _ _))
            eq_refl eq_refl).
  - exact argsort_stable_spec.
  - exact (echo_fn_spec 1 true).
  - split; [done|]. repeat constructor; simpl; lia.
  - reflexivity.
Defined.

(** The same two sequences through a unidirectional LSTM: the rows come back
    in the order of the input. *)
Example RNNEmbedding_forward_run_lstm :
  RNNEmbedding_forward 0 argsort_stable
    {| rnn_type := "lstm"; bidirectional := false; hidden_size := 1;
       model := echo_fn 1 false |}
    [[[4]; [9]; [9]]; [[1]; [2]; [3]]] [1; 3]
  = Ok ([[[4]; [0]; [0]]; [[1]; [2]; [3]]], [[]; []]).
Proof. vm_compute. reflexivity. Qed.


(** * Cutting a batch into graphs and putting it back *)

Section Slices.

Context {A : Type}.
Implicit Types (l : list A).

Lemma py_slice_take_drop l (a n : Z) :
  0 <= a -> 0 <= n -> a + n <= Z.of_nat (length l) ->
  py_slice l a (a + n) = take (Z.to_nat n) (drop (Z.to_nat a) l).
Proof.
  intros Ha Hn Hlen. unfold py_slice, py_slice_bound.
  assert ((a <? 0) = false) as -> by lia.
  assert ((a + n <? 0) = false) as -> by lia.
  f_equal; [lia|]. f_equal. lia.
Qed.

Lemma py_slice_prefix l (n : Z) :
  0 <= n -> py_slice l 0 n = take (Z.to_nat n) l.
Proof.
  intros Hn. unfold py_slice, py_slice_bound.
  assert ((n <? 0) = false) as -> by lia.
  assert ((0 <? 0) = false) as -> by done.
  change (Z.to_nat 0) with 0%nat. rewrite Nat.min_0_l, Nat.sub_0_r, drop_0.
  destruct (decide (Z.to_nat n <= length l)%nat).
  - by rewrite Nat.min_l by lia.
  - rewrite Nat.min_r by lia.
    rewrite (take_ge l (length l)) by lia.
    by rewrite (take_ge l (Z.to_nat n)) by lia.
Qed.

Lemma cat_from_app (acc : list A) (ts : list (list A)) :
  cat_from (fun a b => Ok (a ++ b)) acc ts = Ok (acc ++ mjoin ts).
Proof.
  revert acc. induction ts as [|t ts IH]; intros acc; simpl.
  - by rewrite app_nil_r.
  - rewrite IH. by rewrite app_assoc.
Qed.

Lemma for_each_intro {B : Type} (f : A -> result B) (l : list A) (r : list B) :
  length r = length l ->
  (forall i x, l !! i = Some x -> exists y, r !! i = Some y /\ f x = Ok y) ->
  for_each f l = Ok r.
Proof.
  revert r. induction l as [|a l IH]; intros [|b r] Hlen Hlook; simpl in *; try done.
  destruct (Hlook 0%nat a eq_refl) as (y & Hy & Hfa). injection Hy as <-.
  rewrite Hfa. simpl. rewrite (IH r); [done | lia |].
  intros i x Hx. exact (Hlook (S i) x Hx).
Qed.

End Slices.

Lemma torch_max_ok (t : list Z) :
  t <> [] -> exists M, torch_max t = Ok M /\ Forall (fun n => n <= M) t.
Proof.
  destruct t as [|x t]; [done|]. intros _. simpl.
  eexists; split; [done|].
  assert (Hacc : forall acc, acc <= foldl Z.max acc t
                             /\ Forall (fun n => n <= foldl Z.max acc t) t).
  { induction t as [|y t IH]; intros acc; simpl; [by split|].
    destruct (IH (Z.max acc y)) as [Hle Hall].
    split; [lia|]. constructor; [lia | done]. }
  destruct (Hacc x). by constructor.
Qed.

Lemma sum_items_nonneg (num_items : list Z) :
  Forall (fun n => 0 < n) num_items -> 0 <= sum_items num_items.
Proof. induction 1; simpl; [done | unfold sum_items in *; simpl; lia]. Qed.

Section Unbatch.

Context {F : Type}.
Variable F0 : F.
Implicit Types (feat : list (list F)) (num_items : list Z).

Lemma graph_blocks_length feat num_items :
  length (graph_blocks feat num_items) = length num_items.
Proof.
  revert feat. induction num_items as [|n ns IH]; intros feat; simpl; [done|].
  by rewrite IH.
Qed.

(** Every block has as many rows as its graph has items. *)
Lemma graph_blocks_rows feat num_items :
  Forall (fun n => 0 < n) num_items ->
  sum_items num_items <= Z.of_nat (length feat) ->
  Forall2 (fun n (b : list (list F)) => length b = Z.to_nat n)
    num_items (graph_blocks feat num_items).
Proof.
  intros Hpos. revert feat.
  induction Hpos as [|n ns Hn Hns IH]; intros feat Hsum; simpl; constructor.
  - rewrite length_take. unfold sum_items in Hsum. simpl in Hsum.
    pose proof (sum_items_nonneg ns Hns). unfold sum_items in *. lia.
  - apply IH. rewrite length_drop. unfold sum_items in *. simpl in Hsum. lia.
Qed.

(** The rows of the blocks, one graph after the other, are the rows of the
    batch. *)
Lemma graph_blocks_join feat num_items :
  Forall (fun n => 0 < n) num_items ->
  sum_items num_items = Z.of_nat (length feat) ->
  mjoin (graph_blocks feat num_items) = feat.
Proof.
  intros Hpos. revert feat.
  induction Hpos as [|n ns Hn Hns IH]; intros feat Hsum; simpl.
  - unfold sum_items in Hsum. simpl in Hsum. destruct feat; [done | simpl in Hsum; lia].
  - rewrite IH; [apply take_drop|].
    rewrite length_drop. unfold sum_items in *. simpl in Hsum.
    pose proof (sum_items_nonneg ns Hns). unfold sum_items in *. lia.
Qed.

(** The unbatching loop pads every block with zero rows to
    [max_num_items]. *)
Lemma unbatch_pad feat (M start : Z) num_items :
  Forall (fun n => 0 < n <= M) num_items ->
  0 <= start ->
  start + sum_items num_items <= Z.of_nat (length feat) ->
  unbatch F0 feat M start num_items
  = pad_to F0 (Z.to_nat M) (shape1 feat)
      <$> graph_blocks (drop (Z.to_nat start) feat) num_items.
Proof.
  intros Hall. revert start.
  induction Hall as [|n ns Hn Hns IH]; intros start Hstart Hsum; [done|].
  assert (Hrest : 0 <= sum_items ns).
  { apply sum_items_nonneg. eapply Forall_impl; [exact Hns|]. simpl. lia. }
  unfold sum_items in *. simpl in Hsum.
  cbn [unbatch graph_blocks]. csimpl.
  rewrite IH by lia.
  rewrite py_slice_take_drop by lia.
  rewrite drop_drop.
  replace (Z.to_nat start + Z.to_nat n)%nat with (Z.to_nat (start + n)) by lia.
  f_equal. unfold pad_to.
  assert (Hlen : length (take (Z.to_nat n) (drop (Z.to_nat start) feat)) = Z.to_nat n).
  { rewrite length_take, length_drop. lia. }
  rewrite Hlen.
  destruct (n <? M) eqn:HnM.
  - f_equal. f_equal. lia.
  - replace (Z.to_nat M - Z.to_nat n)%nat with 0%nat by lia.
    simpl. by rewrite app_nil_r.
Qed.

End Unbatch.

(** * The sequence encoder over the graphs of a batch *)

Section SeqInfoEncode.

Context {F : Type}.
Variable F0 : F.
Variable torch_argsort : bool -> list Z -> list Z.
Implicit Types (layer : @RNNEmbedding F) (feat : list (list F))
  (num_items : list Z) (outs : list (list (list F) * list (list F))).

Lemma pad_to_length (T H : nat) (s : list (list F)) :
  length (pad_to F0 T H s) = Nat.max (length s) T.
Proof. unfold pad_to, torch_zeros. rewrite length_app, length_replicate. lia. Qed.

Lemma take_pad_to (T H n : nat) (s : list (list F)) :
  length s = n -> take n (pad_to F0 T H s) = s.
Proof. intros <-. unfold pad_to. apply take_app_length. Qed.

Lemma index_row_lookup {A : Type} (t : list A) (i : nat) (r : A) :
  t !! i = Some r -> index_row t (Z.of_nat i) = Ok r.
Proof.
  intros Hr. unfold index_row.
  pose proof (lookup_lt_Some _ _ _ Hr).
  assert ((Z.of_nat i <? 0) = false) as -> by lia.
  assert (((0 <=? Z.of_nat i) && (Z.of_nat i <? Z.of_nat (length t))) = true) as -> by lia.
  by rewrite Nat2Z.id, Hr.
Qed.

(** The stack handed to the encoder: every block padded to the largest
    graph. *)
Lemma torch_stack_unbatch feat num_items (M : Z) :
  num_items <> [] -> Forall (fun n => 0 < n <= M) num_items ->
  sum_items num_items <= Z.of_nat (length feat) ->
  torch_stack (unbatch F0 feat M 0 num_items)
  = Ok (pad_to F0 (Z.to_nat M) (shape1 feat) <$> graph_blocks feat num_items).
Proof.
  intros Hne Hall Hsum.
  rewrite unbatch_pad by (done || lia). simpl. rewrite drop_0.
  assert (Hrows : Forall2 (fun n (b : list (list F)) => length b = Z.to_nat n)
                    num_items (graph_blocks feat num_items)).
  { apply graph_blocks_rows; [|done]. eapply Forall_impl; [exact Hall|]. simpl. lia. }
  assert (Hlen : Forall (fun b : list (list F) => length b = Z.to_nat M)
                   (pad_to F0 (Z.to_nat M) (shape1 feat) <$> graph_blocks feat num_items)).
  { apply Forall_fmap, Forall_lookup. intros i b Hb. simpl.
    destruct (Forall2_lookup_r _ _ _ _ _ Hrows Hb) as (n & Hn & Hnb).
    rewrite Forall_lookup in Hall. pose proof (Hall _ _ Hn).
    rewrite pad_to_length. lia. }
  unfold torch_stack.
  destruct (pad_to _ _ _ <$> _) as [|b bs] eqn:Hbs.
  - apply (f_equal length) in Hbs. rewrite length_fmap, graph_blocks_length in Hbs.
    destruct num_items; done.
  - inversion Hlen as [|? ? Hb Hbs']; subst.
    rewrite (proj2 (forallb_forall _ _)); [done|].
    intros b' Hb'. apply Nat.eqb_eq. rewrite Hb.
    rewrite Forall_forall in Hbs'. apply Hbs'. by apply list_elem_of_In.
Qed.

(** The padded stack with the item counts is a valid batch, whose
    sequences are the blocks. *)
Lemma padded_blocks_batch feat num_items (M : Z) (D : nat) :
  num_items <> [] -> Forall (fun n => 0 < n <= M) num_items ->
  sum_items num_items <= Z.of_nat (length feat) ->
  valid_batch (pad_to F0 (Z.to_nat M) D <$> graph_blocks feat num_items) num_items
  /\ sequences (pad_to F0 (Z.to_nat M) D <$> graph_blocks feat num_items) num_items
     = graph_blocks feat num_items.
Proof.
  intros Hne Hall Hsum.
  assert (Hrows : Forall2 (fun n (b : list (list F)) => length b = Z.to_nat n)
                    num_items (graph_blocks feat num_items)).
  { apply graph_blocks_rows; [|done]. eapply Forall_impl; [exact Hall|]. simpl. lia. }
  split; [split|].
  - intros Hnil. apply (f_equal length) in Hnil.
    rewrite length_fmap, graph_blocks_length in Hnil. destruct num_items; done.
  - apply Forall2_fmap_r, Forall2_same_length_lookup.
    split; [by rewrite graph_blocks_length|].
    intros i n b Hn Hb. simpl.
    rewrite Forall_lookup in Hall. pose proof (Hall _ _ Hn).
    rewrite pad_to_length. lia.
  - unfold sequences. rewrite zip_with_fmap_r.
    clear Hne Hall Hsum.
    induction Hrows as [|n b ns bs Hb _ IH]; simpl; [done|].
    rewrite IH. f_equal. by apply take_pad_to.
Qed.

(** The batching loop cuts every padded block back to its own items. *)
Lemma rebatch_unpad outs num_items (T H : nat) :
  Forall2 (fun n o => 0 <= n /\ length o.1 = Z.to_nat n) num_items outs ->
  rebatch ((fun o => pad_to F0 T H o.1) <$> outs) num_items = Ok (fst <$> outs).
Proof.
  intros Hall. unfold rebatch. apply for_each_intro.
  - rewrite length_fmap, length_zip_with, length_seq.
    apply Forall2_length in Hall. lia.
  - intros i [k n] Hkn.
    apply lookup_zip_with_Some in Hkn as (k' & n' & [= <- <-] & Hk & Hn).
    apply lookup_seq in Hk as [-> _]. simpl.
    destruct (Forall2_lookup_l _ _ _ _ _ Hall Hn) as (o & Ho & Hn0 & Hlen).
    exists o.1. rewrite list_lookup_fmap, Ho. split; [done|].
    rewrite (index_row_lookup _ _ (pad_to F0 T H o.1))
      by (by rewrite list_lookup_fmap, Ho).
    simpl. rewrite py_slice_prefix by done.
    by rewrite take_pad_to.
Qed.

Lemma cat0_join (ts : list (list (list F))) :
  ts <> [] -> cat0 ts = Ok (mjoin ts).
Proof.
  destruct ts as [|t ts]; [done|]. intros _.
  unfold cat0, cat_list. apply cat_from_app.
Qed.

Lemma outs_rows (f : @rnn_fn F) (H : nat) (blocks : list (list (list F)))
    num_items outs :
  rnn_spec f H -> for_each f blocks = Ok outs ->
  Forall (fun n => 0 < n) num_items ->
  Forall2 (fun n (b : list (list F)) => length b = Z.to_nat n) num_items blocks ->
  Forall2 (fun n o => 0 <= n /\ length o.1 = Z.to_nat n) num_items outs.
Proof.
  intros Hrnn Houts Hpos Hrows.
  destruct (for_each_lookup _ _ _ Houts) as [Hlen Hlook].
  apply Forall2_same_length_lookup. split.
  - apply Forall2_length in Hrows. lia.
  - intros i n o Hn Ho.
    destruct (Forall2_lookup_l _ _ _ _ _ Hrows Hn) as (b & Hb & Hnb).
    destruct (Hlook _ _ Hb) as (o' & Ho' & Hrun).
    assert (o' = o) as -> by congruence.
    destruct (Hrnn _ _ Hrun) as [Hsteps _].
    rewrite Forall_lookup in Hpos. pose proof (Hpos _ _ Hn). simpl in *.
    split; [lia | congruence].
Qed.

Lemma join_rows num_items (ls : list (list (list F))) :
  Forall2 (fun n (l : list (list F)) => 0 <= n /\ length l = Z.to_nat n) num_items ls ->
  Z.of_nat (length (mjoin ls)) = sum_items num_items.
Proof.
  induction 1 as [|n l ns ls [Hn Hl] _ IH]; [done|].
  simpl. rewrite length_app. unfold sum_items in *. simpl. lia.
Qed.

(** The whole of lines 199-225 on a well-formed batch, for the layers
    whose branch of [RNNEmbedding.forward] is complete. *)
Lemma seq_info_encode_run layer feat num_items outs (H : nat) :
  argsort_spec torch_argsort -> rnn_spec (model layer) H ->
  rnn_type layer = "lstm" \/ bidirectional layer = false ->
  num_items <> [] -> Forall (fun n => 0 < n) num_items ->
  sum_items num_items <= Z.of_nat (length feat) ->
  for_each (model layer) (graph_blocks feat num_items) = Ok outs ->
  seq_info_encode F0 torch_argsort layer feat num_items = Ok (mjoin (fst <$> outs))
  /\ Z.of_nat (length (mjoin (fst <$> outs))) = sum_items num_items.
Proof.
  intros Hsort Hrnn Hkind Hne Hpos Hsum Houts.
  destruct (torch_max_ok num_items Hne) as (M & HM & HleM).
  assert (Hall : Forall (fun n => 0 < n <= M) num_items).
  { apply Forall_and. done. }
  destruct (padded_blocks_batch feat num_items M (shape1 feat) Hne Hall Hsum)
    as [Hv Hseqs].
  assert (Hrows := outs_rows _ _ _ _ _ Hrnn Houts Hpos
                     (graph_blocks_rows feat num_items Hpos Hsum)).
  split.
  - unfold seq_info_encode. rewrite HM. cbn [bind].
    rewrite torch_stack_unbatch by done. cbn [bind].
    rewrite (RNNEmbedding_forward_run F0 torch_argsort layer _ num_items outs H);
      [| done | done | done | by rewrite Hseqs | done].
    cbn [bind fst]. rewrite rebatch_unpad by done. cbn [bind].
    apply cat0_join.
    intros Hnil. apply (f_equal length) in Hnil. rewrite length_fmap in Hnil.
    apply Forall2_length in Hrows. destruct num_items; [done | simpl in *; lia].
  - apply join_rows. apply Forall2_fmap_r.
    eapply Forall2_impl; [exact Hrows|]. done.
Qed.

(** The same lines with the bidirectional GRU as encoder: the stack is
    built and handed over, and the encoder raises. *)
Lemma seq_info_encode_bigru_raises layer feat num_items :
  argsort_spec torch_argsort ->
  String.eqb (rnn_type layer) "lstm" = false -> bidirectional layer = true ->
  num_items <> [] -> Forall (fun n => 0 < n) num_items ->
  sum_items num_items <= Z.of_nat (length feat) ->
  is_ok (for_each (model layer) (graph_blocks feat num_items)) = true ->
  seq_info_encode F0 torch_argsort layer feat num_items
  = Raise (NameError "query_lengths").
Proof.
  intros Hsort Hkind Hbi Hne Hpos Hsum Hrun.
  destruct (torch_max_ok num_items Hne) as (M & HM & HleM).
  assert (Hall : Forall (fun n => 0 < n <= M) num_items) by (by apply Forall_and).
  destruct (padded_blocks_batch feat num_items M (shape1 feat) Hne Hall Hsum)
    as [Hv Hseqs].
  unfold seq_info_encode. rewrite HM. cbn [bind].
  rewrite torch_stack_unbatch by done. cbn [bind].
  rewrite (RNNEmbedding_forward_bigru_raises F0 torch_argsort layer); try done.
  by rewrite Hseqs.
Qed.

End SeqInfoEncode.

Lemma existsb_false_inv {A : Type} (f : A -> bool) (l : list A) :
  existsb f l = false -> Forall (fun x => f x = false) l.
Proof.
  induction l as [|x l IH]; simpl; [by constructor|].
  intros [Hx Hl]%orb_false_elim. constructor; auto.
Qed.

(** What a returning [RNNEmbedding.forward] tells about its call. *)
Lemma RNNEmbedding_forward_ok_inv {F : Type} (F0 : F)
    (torch_argsort : bool -> list Z -> list Z) (self : @RNNEmbedding F)
    (x : list (list (list F))) (x_len : list Z) r :
  argsort_spec torch_argsort ->
  RNNEmbedding_forward F0 torch_argsort self x x_len = Ok r ->
  Forall (fun n => 0 < n) x_len
  /\ (rnn_type self = "lstm" \/ bidirectional self = false).
Proof.
  intros Hsort Hret. split.
  - destruct (Hsort true x_len) as [Hp _].
    unfold RNNEmbedding_forward, torch_sort in Hret.
    change ((fun j => default 0 (x_len !! Z.to_nat j)) <$> torch_argsort true x_len)
      with (gather 0 x_len (torch_argsort true x_len)) in Hret.
    cbn beta iota zeta in Hret.
    destruct (index_rows x _) as [x_indx|e]; [|done]. cbn [bind] in Hret.
    destruct (pack_padded_sequence x_indx _) as [packed|e] eqn:Hpack; [|done].
    unfold pack_padded_sequence in Hpack.
    destruct (length x_indx =? 0)%nat; [done|].
    destruct (negb _); [done|].
    destruct (existsb (fun l => l <=? 0) _) eqn:Hpos; [done|].
    apply existsb_false_inv in Hpos.
    rewrite <- (gather_perm 0 x_len _ Hp).
    eapply Forall_impl; [exact Hpos|]. simpl. lia.
  - destruct (String.eqb (rnn_type self) "lstm") eqn:Hkind.
    + apply String.eqb_eq in Hkind. auto.
    + destruct (bidirectional self) eqn:Hbi; [|auto].
      by apply RNNEmbedding_forward_bigru_never_ok in Hret.
Qed.

Section Forward.

Context {F : Type}.
Variable F0 : F.
Variable torch_sum : list (list (list F)) -> list (list F).
Variable Fdiv : F -> F -> F.
Variable F_of_Z : Z -> F.
Variable torch_argsort : bool -> list Z -> list Z.
Implicit Types (self : @EmbeddingConstruction F) (layer : @RNNEmbedding F)
  (feat : list (list F)) (num_items : list Z).

(** What a returning run of lines 199-225 tells about its call. *)
Lemma seq_info_encode_ok_inv layer feat num_items ret :
  argsort_spec torch_argsort ->
  seq_info_encode F0 torch_argsort layer feat num_items = Ok ret ->
  num_items <> [] /\ Forall (fun n => 0 < n) num_items
  /\ (rnn_type layer = "lstm" \/ bidirectional layer = false).
Proof.
  intros Hsort Hret. unfold seq_info_encode in Hret.
  destruct num_items as [|n ns]; [done|]. split; [done|].
  destruct (torch_max (n :: ns)) as [M|e]; [|done]. cbn [bind] in Hret.
  destruct (torch_stack _) as [new_feat|e]; [|done]. cbn [bind] in Hret.
  destruct (RNNEmbedding_forward _ _ _ _ _) as [r|e] eqn:Hrun; [|done].
  exact (RNNEmbedding_forward_ok_inv _ _ _ _ _ _ Hsort Hrun).
Qed.

(** C1.  With a sequence encoder configured, [forward] cuts the item
    features into the graphs of the batch, pads every block with zero rows
    to the largest graph before the encoder sees the stack, and cuts every
    encoded block back to its own items: whenever it returns, its result is
    the encoder's hidden states of the unpadded blocks, graph after graph
    in batch order, [sum(num_items)] rows in all.  On graphs that have
    items it does return for the LSTM layers and the unidirectional GRU;
    with the bidirectional GRU as encoder it raises [NameError] instead. *)
Theorem EmbeddingConstruction_forward_pad_unpad self layer
    (input_tensor : list (list Z)) (item_size : list Z) num_items
    (feat0 : list (list (list F))) feat (H : nat) :
  argsort_spec torch_argsort ->
  seq_info_encode_layer self = Some layer -> rnn_spec (model layer) H ->
  embed_words self input_tensor = Ok feat0 ->
  node_edge_emb F0 torch_sum Fdiv F_of_Z torch_argsort self feat0 item_size = Ok feat ->
  sum_items num_items = Z.of_nat (length feat) ->
  is_ok (for_each (model layer) (graph_blocks feat num_items)) = true ->
  (forall ret,
     EmbeddingConstruction_forward F0 torch_sum Fdiv F_of_Z torch_argsort self
       input_tensor item_size num_items = Ok ret ->
     exists M outs,
       torch_max num_items = Ok M
       /\ torch_stack (unbatch F0 feat M 0 num_items)
          = Ok (pad_to F0 (Z.to_nat M) (shape1 feat) <$> graph_blocks feat num_items)
       /\ mjoin (graph_blocks feat num_items) = feat
       /\ for_each (model layer) (graph_blocks feat num_items) = Ok outs
       /\ ret = mjoin (fst <$> outs)
       /\ Forall2 (fun n o => length o.1 = Z.to_nat n) num_items outs
       /\ Z.of_nat (length ret) = sum_items num_items)
  /\ (rnn_type layer = "lstm" \/ bidirectional layer = false ->
      num_items <> [] -> Forall (fun n => 0 < n) num_items ->
      exists ret,
        EmbeddingConstruction_forward F0 torch_sum Fdiv F_of_Z torch_argsort self
          input_tensor item_size num_items = Ok ret)
  /\ (rnn_type layer = "gru" -> bidirectional layer = true ->
      num_items <> [] -> Forall (fun n => 0 < n) num_items ->
      EmbeddingConstruction_forward F0 torch_sum Fdiv F_of_Z torch_argsort self
        input_tensor item_size num_items = Raise (NameError "query_lengths")).
Proof.
  intros Hsort Hlayer Hrnn Hembed Hnode Hsum Hrun.
  assert (Hfwd : EmbeddingConstruction_forward F0 torch_sum Fdiv F_of_Z torch_argsort self
                   input_tensor item_size num_items
                 = seq_info_encode F0 torch_argsort layer feat num_items).
  { unfold EmbeddingConstruction_forward.
    rewrite Hembed. cbn [bind]. rewrite Hnode. cbn [bind]. by rewrite Hlayer. }
  rewrite Hfwd.
  split; [|split]; cycle 2.
  { intros Hgru Hbi Hne Hpos.
    apply seq_info_encode_bigru_raises; try done; [by rewrite Hgru | lia]. }
  all: destruct (for_each (model layer) (graph_blocks feat num_items)) as [outs|e]
         eqn:Houts; [|done].
  - intros ret Hret.
    destruct (seq_info_encode_ok_inv _ _ _ _ Hsort Hret) as (Hne & Hpos & Hkind).
    destruct (seq_info_encode_run F0 torch_argsort layer feat num_items outs H)
      as [Henc Hlen]; try done; [lia|].
    rewrite Henc in Hret. injection Hret as <-.
    destruct (torch_max_ok num_items Hne) as (M & HM & HleM).
    exists M, outs. split; [done|].
    split; [apply torch_stack_unbatch; [done | by apply Forall_and | lia]|].
    split; [by apply graph_blocks_join|].
    do 2 (split; [done|]). split; [|done].
    eapply Forall2_impl.
    + apply (outs_rows (model layer) H (graph_blocks feat num_items)); try done.
      apply graph_blocks_rows; [done | lia].
    + by intros n o [_ ?].
  - intros Hkind Hne Hpos.
    destruct (seq_info_encode_run F0 torch_argsort layer feat num_items outs H)
      as [Henc _]; try done; [lia|]. eauto.
Qed.

End Forward.

(** Three items in two graphs of one and two items, mean pooling of one
    token each, and the bidirectional GRU over the items of each graph. *)
Lemma EmbeddingConstruction_forward_pad_unpad_witness :
  EmbeddingConstruction_forward 0%Q (torch_sum_dim1 0%Q Qplus) Qdiv inject_Z argsort_stable
    {| node_edge_emb_strategy := "mean";
       seq_info_encode_strategy := "bigru";
       word_emb_layers := [WordEmbedding [[1%Q]; [2%Q]] true];
       node_edge_emb_layer := MeanLayer;
       seq_info_encode_layer :=
         Some {| rnn_type := "gru"; bidirectional := true; hidden_size := 1;
                 model := echo_fn 1 true |} |}
    [[0]; [1]; [1]] [1; 1; 1] [1; 2]
  = Raise (NameError "query_lengths").
Proof.
  refine (proj2 (proj2 (EmbeddingConstruction_forward_pad_unpad 0%Q (torch_sum_dim1 0%Q Qplus) Qdiv
                          inject_Z argsort_stable
                          {| node_edge_emb_strategy := "mean";
                             seq_info_encode_strategy := "bigru";
                             word_emb_layers := [WordEmbedding [[1%Q]; [2%Q]] true];
                             node_edge_emb_layer := MeanLayer;
                             seq_info_encode_layer :=
                               Some {| rnn_type := "gru"; bidirectional := true;
                                       hidden_size := 1; model := echo_fn 1 true |} |}
                          {| rnn_type := "gru"; bidirectional := true;
                             hidden_size := 1; model := echo_fn 1 true |}
                          [[0]; [1]; [1]] [1; 1; 1] [1; 2]
                          [[[1%Q]]; [[2%Q]]; [[2%Q]]] [[1%Q]; [2%Q]; [2%Q]] 1%nat
                          argsort_stable_spec eq_refl (echo_fn_spec 1 true)
                          eq_refl eq_refl eq_refl eq_refl))
            eq_refl eq_refl _ _).
  - done.
  - repeat constructor.
Defined.

(** The same batch with a unidirectional LSTM as encoder. *)
Example EmbeddingConstruction_forward_run_lstm :
  EmbeddingConstruction_forward 0%Q (torch_sum_dim1 0%Q Qplus) Qdiv inject_Z argsort_stable
    {| node_edge_emb_strategy := "mean";
       seq_info_encode_strategy := "lstm";
       word_emb_layers := [WordEmbedding [[1%Q]; [2%Q]] true];
       node_edge_emb_layer := MeanLayer;
       seq_info_encode_layer :=
         Some {| rnn_type := "lstm"; bidirectional := false; hidden_size := 1;
                 model := echo_fn 1 false |} |}
    [[0]; [1]; [1]] [1; 1; 1] [1; 2]
  = Ok [[1%Q]; [2%Q]; [2%Q]].
Proof. vm_compute. reflexivity. Qed.

(** * The 'bigru' strategy *)

Section BigruStrategy.

Context {F : Type}.
Variable F0 : F.
Variable torch_sum : list (list (list F)) -> list (list F).
Variable Fdiv : F -> F -> F.
Variable F_of_Z : Z -> F.
Variable torch_argsort : bool -> list Z -> list Z.
Variable nn_RNN : rnn_cell -> Z -> Z -> bool -> result (@rnn_fn F).

(** An [EmbeddingConstruction] one of whose layers is a bidirectional GRU
    returns no embedding. *)
Lemma EmbeddingConstruction_forward_bigru_never_ok
    (ec : @EmbeddingConstruction F) (r : @RNNEmbedding F)
    (input_tensor : list (list Z)) (item_size num_items : list Z) ret :
  String.eqb (rnn_type r) "lstm" = false -> bidirectional r = true ->
  node_edge_emb_layer ec = RNNLayer r \/ seq_info_encode_layer ec = Some r ->
  EmbeddingConstruction_forward F0 torch_sum Fdiv F_of_Z torch_argsort ec
    input_tensor item_size num_items <> Ok ret.
Proof.
  intros Hkind Hbi Hlayer Hret. unfold EmbeddingConstruction_forward in Hret.
  destruct (embed_words ec input_tensor) as [feat0|e]; [|done]. cbn [bind] in Hret.
  destruct (node_edge_emb _ _ _ _ _ _ _ _) as [feat|e] eqn:Hnode; [|done].
  cbn [bind] in Hret.
  destruct Hlayer as [Hne | Hse].
  - unfold node_edge_emb in Hnode. rewrite Hne in Hnode.
    destruct (RNNEmbedding_forward _ _ _ _ _) as [out|e] eqn:Hrun; [|done].
    by apply RNNEmbedding_forward_bigru_never_ok in Hrun.
  - rewrite Hse in Hret. unfold seq_info_encode in Hret.
    destruct (torch_max num_items) as [M|e]; [|done]. cbn [bind] in Hret.
    destruct (torch_stack _) as [new_feat|e]; [|done]. cbn [bind] in Hret.
    destruct (RNNEmbedding_forward _ _ _ _ _) as [out|e] eqn:Hrun; [|done].
    by apply RNNEmbedding_forward_bigru_never_ok in Hrun.
Qed.

(** C4, as the code has it.  On an instance constructed with
    [rnn_type='gru'] and [bidirectional=True], [forward] returns for no
    input batch; on every well-formed batch (not empty, every length
    positive and within its sequence) on which the framework's sort and
    network run, what it raises is the [NameError] of the undefined
    [query_lengths], while on another batch a framework call may raise
    before that line; hence an [EmbeddingConstruction] that holds such a
    layer, as the 'bigru' strategy makes it, returns no embedding. *)
Theorem RNNEmbedding_forward_bigru_NameError
    (input_size hidden_size : Z) (self : @RNNEmbedding F)
    (x : list (list (list F))) (x_len : list Z) :
  RNNEmbedding_init nn_RNN input_size hidden_size true "gru" = Ok self ->
  (forall r, RNNEmbedding_forward F0 torch_argsort self x x_len <> Ok r)
  /\ (argsort_spec torch_argsort -> valid_batch x x_len ->
      is_ok (for_each (model self) (sequences x x_len)) = true ->
      RNNEmbedding_forward F0 torch_argsort self x x_len
      = Raise (NameError "query_lengths"))
  /\ (forall (ec : @EmbeddingConstruction F) input_tensor item_size num_items ret,
        node_edge_emb_layer ec = RNNLayer self \/ seq_info_encode_layer ec = Some self ->
        EmbeddingConstruction_forward F0 torch_sum Fdiv F_of_Z torch_argsort ec
          input_tensor item_size num_items <> Ok ret).
Proof.
  intros Hinit.
  destruct (RNNEmbedding_init_fields _ _ _ _ _ _ Hinit) as [Hkind Hbi].
  assert (Hnot : String.eqb (rnn_type self) "lstm" = false) by (by rewrite Hkind).
  split; [|split].
  - intros r. by apply RNNEmbedding_forward_bigru_never_ok.
  - intros Hsort Hv Hrun. by apply RNNEmbedding_forward_bigru_raises.
  - intros ec input_tensor item_size num_items ret Hlayer.
    by apply (EmbeddingConstruction_forward_bigru_never_ok ec self).
Qed.

End BigruStrategy.

(** A bidirectional GRU of hidden size [2] on a batch of two sequences. *)
Lemma RNNEmbedding_forward_bigru_NameError_witness :
  RNNEmbedding_forward 0 argsort_stable
    {| rnn_type := "gru"; bidirectional := true; hidden_size := 1;
       model := echo_fn 1 true |}
    [[[5]; [0]]; [[7]; [8]]] [1; 2]
  = Raise (NameError "query_lengths").
Proof.
  refine (proj1 (proj2 (RNNEmbedding_forward_bigru_NameError 0 (torch_sum_dim1 0 Z.add) Z.div id
                          argsort_stable echo_rnn
                          1 2 _ [[[5]; [0]]; [[7]; [8]]] [1; 2] eq_refl)) _ _ _).
  - exact argsort_stable_spec.
  - split; [done|]. repeat constructor; simpl; lia.
  - reflexivity.
Defined.

(** A batch with an empty sequence: [pack_padded_sequence] raises its
    [RuntimeError] before the line of [query_lengths] is reached, so what
    the bidirectional GRU raises here is not the [NameError]. *)
Lemma RNNEmbedding_forward_bigru_zero_length_counterexample :
  RNNEmbedding_init (F := Z) echo_rnn 1 2 true "gru"
  = Ok {| rnn_type := "gru"; bidirectional := true; hidden_size := 1;
          model := echo_fn 1 true |}
  /\ RNNEmbedding_forward 0 argsort_stable
       {| rnn_type := "gru"; bidirectional := true; hidden_size := 1;
          model := echo_fn 1 true |}
       [[[5]; [0]; [0]]; [[7]; [8]; [9]]] [0; 3]
     = Raise (RuntimeError "Length of all samples has to be greater than 0, but found an element in 'lengths' that is <= 0")
  /\ RNNEmbedding_forward 0 argsort_stable
       {| rnn_type := "gru"; bidirectional := true; hidden_size := 1;
          model := echo_fn 1 true |}
       [[[5]; [0]; [0]]; [[7]; [8]; [9]]] [0; 3]
     <> Raise (NameError "query_lengths").
Proof.
  split; [reflexivity|]. split; [reflexivity|]. discriminate.
Qed.


(** * Word embedding layers and their concatenation *)

Section EmbedWords.

Context {F : Type}.
Implicit Types (self : @EmbeddingConstruction F) (t : list (list (list F)))
  (input_tensor : list (list Z)).

(** Concatenating two tensors of shapes [(N, L, D1)] and [(N, L, D2)] along
    the last dimension. *)
Lemma cat3_last_shape t1 t2 (N L D1 D2 : nat) :
  has_shape3 t1 N L D1 -> has_shape3 t2 N L D2 ->
  cat3_last t1 t2 = Ok (zip_with (zip_with app) t1 t2)
  /\ has_shape3 (zip_with (zip_with app) t1 t2) N L (D1 + D2).
Proof.
  intros [HN1 H1] [HN2 H2]. split.
  - unfold cat3_last. rewrite HN1, HN2, Nat.eqb_refl. simpl.
    rewrite (proj2 (forallb_forall _ _)); [done|].
    intros [a b] Hab%list_elem_of_In. simpl. apply Nat.eqb_eq.
    apply list_elem_of_lookup in Hab as [i Hi].
    apply lookup_zip_with_Some in Hi as (a' & b' & [= <- <-] & Ha & Hb).
    rewrite Forall_lookup in H1, H2.
    destruct (H1 _ _ Ha) as [-> _]. by destruct (H2 _ _ Hb) as [-> _].
  - split; [rewrite length_zip_with; lia|].
    apply Forall_lookup. intros i it Hit.
    apply lookup_zip_with_Some in Hit as (a & b & -> & Ha & Hb).
    rewrite Forall_lookup in H1, H2.
    destruct (H1 _ _ Ha) as [HLa Hra]. destruct (H2 _ _ Hb) as [HLb Hrb].
    split; [rewrite length_zip_with; lia|].
    apply Forall_lookup. intros l r Hr.
    apply lookup_zip_with_Some in Hr as (ra & rb & -> & Hra' & Hrb').
    rewrite Forall_lookup in Hra, Hrb.
    rewrite length_app, (Hra _ _ Hra'), (Hrb _ _ Hrb'). done.
Qed.

(** [torch.cat(feat, dim=-1)] over the outputs of the layers: the widths
    add up. *)
Lemma cat_list_shape t (ts : list (list (list (list F)))) (Ds : list nat)
    (N L : nat) :
  Forall2 (fun o D => has_shape3 o N L D) (t :: ts) Ds ->
  cat_list cat3_last (t :: ts) = Ok (foldl (zip_with (zip_with app)) t ts)
  /\ has_shape3 (foldl (zip_with (zip_with app)) t ts) N L (sum_list Ds).
Proof.
  intros Hall. inversion Hall as [|? D ? Ds' Ht Hts]; subst. clear Hall.
  simpl. revert t D Ht.
  induction Hts as [|t' D' ts Ds' Ht' _ IH]; intros t D Ht; simpl.
  - by rewrite Nat.add_0_r.
  - destruct (cat3_last_shape t t' N L D D' Ht Ht') as [-> Hshape]. cbn [bind].
    destruct (IH _ _ Hshape) as [-> Hfinal]. split; [done|].
    by rewrite Nat.add_assoc.
Qed.

(** The lookup table on indices inside the vocabulary. *)
Lemma WordEmbedding_forward_lookup (weight : list (list F)) input_tensor
    (V D N L : nat) :
  has_shape2 weight V D ->
  length input_tensor = N ->
  Forall (fun item : list Z =>
            length item = L /\ Forall (fun w => 0 <= w < Z.of_nat V) item)
    input_tensor ->
  WordEmbedding_forward weight input_tensor
  = Ok ((fun item : list Z => gather [] weight item) <$> input_tensor)
  /\ has_shape3 ((fun item : list Z => gather [] weight item) <$> input_tensor) N L D.
Proof.
  intros [HV HD] HN Hin. split.
  - unfold WordEmbedding_forward. apply for_each_ok.
    eapply Forall_impl; [exact Hin|]. intros item [_ Hitem]. simpl in *.
    apply for_each_ok. eapply Forall_impl; [exact Hitem|].
    intros w Hw. simpl in *. rewrite HV.
    assert (((0 <=? w) && (w <? Z.of_nat V)) = true) as -> by lia.
    destruct (lookup_lt_is_Some_2 weight (Z.to_nat w)) as [v Hv]; [lia|].
    by rewrite Hv.
  - split; [by rewrite length_fmap|].
    apply Forall_fmap. eapply Forall_impl; [exact Hin|].
    intros item [HL Hitem]. simpl. split; [by rewrite gather_length|].
    unfold gather. apply Forall_fmap. eapply Forall_impl; [exact Hitem|].
    intros w Hw. simpl in *.
    destruct (lookup_lt_is_Some_2 weight (Z.to_nat w)) as [v Hv]; [lia|].
    rewrite Hv. simpl. rewrite Forall_lookup in HD. by apply (HD _ _ Hv).
Qed.

(** A loop that meets a raising element raises. *)
Lemma for_each_raises {A B : Type} (f : A -> result B) (l : list A) (x : A) e :
  x ∈ l -> f x = Raise e -> forall r, for_each f l <> Ok r.
Proof.
  intros Hx Hfx r Hr. apply list_elem_of_lookup in Hx as [i Hi].
  destruct (for_each_lookup _ _ _ Hr) as [_ Hlook].
  destruct (Hlook _ _ Hi) as (y & _ & Hy). congruence.
Qed.

(** C8, as the code has it.  [forward] applies the word embedding layers
    in registration order and, when every layer returns, concatenates the
    outputs along the feature dimension, so that the feature width before
    the node/edge layer is the sum of the layers' widths.  The lookup table
    returns on indices inside the vocabulary; [BertEmbedding] never
    returns, so a configuration with ['bert'] in it raises on every
    input. *)
Theorem embed_words_concat self input_tensor :
  (forall t ts (Ds : list nat) (N L : nat),
     for_each (fun layer => word_emb_layer_call layer input_tensor)
       (word_emb_layers self) = Ok (t :: ts) ->
     Forall2 (fun o D => has_shape3 o N L D) (t :: ts) Ds ->
     embed_words self input_tensor = Ok (foldl (zip_with (zip_with app)) t ts)
     /\ has_shape3 (foldl (zip_with (zip_with app)) t ts) N L (sum_list Ds))
  /\ (forall (weight : list (list F)) fix_word_emb (V D N L : nat),
        word_emb_layers self = [WordEmbedding weight fix_word_emb] ->
        has_shape2 weight V D ->
        length input_tensor = N ->
        Forall (fun item : list Z =>
                  length item = L /\ Forall (fun w => 0 <= w < Z.of_nat V) item)
          input_tensor ->
        embed_words self input_tensor
        = Ok ((fun item : list Z => gather [] weight item) <$> input_tensor)
        /\ has_shape3 ((fun item : list Z => gather [] weight item) <$> input_tensor)
             N L D)
  /\ (forall fix_word_emb,
        BertEmbedding fix_word_emb ∈ word_emb_layers self ->
        forall feat, embed_words self input_tensor <> Ok feat).
Proof.
  split; [|split].
  - intros t ts Ds N L Houts Hshape. unfold embed_words.
    rewrite Houts. cbn [bind]. by apply cat_list_shape.
  - intros weight fix_word_emb V D N L Hlayers HW HN Hin.
    destruct (WordEmbedding_forward_lookup weight input_tensor V D N L HW HN Hin)
      as [Hrun Hshape].
    split; [|done].
    unfold embed_words. rewrite Hlayers. simpl. rewrite Hrun. done.
  - intros fix_word_emb Hbert feat Hret. unfold embed_words in Hret.
    destruct (for_each _ (word_emb_layers self)) as [outs|e] eqn:Houts; [|done].
    exact (for_each_raises (fun layer => word_emb_layer_call layer input_tensor)
             _ _ _ Hbert eq_refl outs Houts).
Qed.

End EmbedWords.

(** The lookup table alone, on a batch of two items of two words. *)
Lemma embed_words_concat_witness :
  embed_words
    {| node_edge_emb_strategy := "mean";
       seq_info_encode_strategy := "none";
       word_emb_layers := [WordEmbedding [[1; 2]; [3; 4]; [5; 6]] true];
       node_edge_emb_layer := MeanLayer;
       seq_info_encode_layer := None |}
    [[0; 2]; [1; 1]]
  = Ok [[[1; 2]; [5; 6]]; [[3; 4]; [3; 4]]].
Proof.
  refine (proj1 (proj1 (proj2 (embed_words_concat
                                 {| node_edge_emb_strategy := "mean";
                                    seq_info_encode_strategy := "none";
                                    word_emb_layers :=
                                      [WordEmbedding [[1; 2]; [3; 4]; [5; 6]] true];
                                    node_edge_emb_layer := MeanLayer;
                                    seq_info_encode_layer := None |}
                                 [[0; 2]; [1; 1]]))
                   [[1; 2]; [3; 4]; [5; 6]] true 3%nat 2%nat 2%nat 2%nat
                   eq_refl _ eq_refl _)).
  - split; [done|]. repeat constructor.
  - repeat constructor; simpl; lia.
Defined.

(** With both ['w2v'] and ['bert'] configured, as [__init__] registers
    them, no input gets its features. *)
Lemma embed_words_bert_counterexample :
  EmbeddingConstruction_init echo_rnn [[1; 2]; [3; 4]] (StrList ["w2v"; "bert"])
    "mean" "none" 2 true
  = Ok {| node_edge_emb_strategy := "mean";
          seq_info_encode_strategy := "none";
          word_emb_layers := [WordEmbedding [[1; 2]; [3; 4]] true; BertEmbedding true];
          node_edge_emb_layer := MeanLayer;
          seq_info_encode_layer := None |}
  /\ embed_words
       {| node_edge_emb_strategy := "mean";
          seq_info_encode_strategy := "none";
          word_emb_layers := [WordEmbedding [[1; 2]; [3; 4]] true; BertEmbedding true];
          node_edge_emb_layer := MeanLayer;
          seq_info_encode_layer := None |}
       [[0; 1]]
     = Raise (TypeError "forward() takes 1 positional argument but 2 were given")
  /\ ~ exists feat : list (list (list Z)),
         embed_words
           {| node_edge_emb_strategy := "mean";
              seq_info_encode_strategy := "none";
              word_emb_layers :=
                [WordEmbedding [[1; 2]; [3; 4]] true; BertEmbedding true];
              node_edge_emb_layer := MeanLayer;
              seq_info_encode_layer := None |}
           [[0; 1]]
         = Ok feat.
Proof.
  split; [reflexivity|]. split; [reflexivity|].
  intros [feat Hfeat]. discriminate Hfeat.
Qed.

(** Two lookup tables of widths one and two: the features are three wide. *)
Example embed_words_two_tables :
  embed_words
    {| node_edge_emb_strategy := "mean";
       seq_info_encode_strategy := "none";
       word_emb_layers :=
         [WordEmbedding [[1]; [2]] true; WordEmbedding [[3; 4]; [5; 6]] true];
       node_edge_emb_layer := MeanLayer;
       seq_info_encode_layer := None |}
    [[0; 1]]
  = Ok [[[1; 3; 4]; [2; 5; 6]]].
Proof. reflexivity. Qed.


(** * The constructor of [EmbeddingConstruction] *)

(** A strategy string is one of the five the chain tests, or fails all five
    tests. *)
Lemma strategy_cases (first s : string) :
  s = first \/ s = "lstm" \/ s = "bilstm" \/ s = "gru" \/ s = "bigru"
  \/ (String.eqb s first = false /\ String.eqb s "lstm" = false
      /\ String.eqb s "bilstm" = false /\ String.eqb s "gru" = false
      /\ String.eqb s "bigru" = false
      /\ bool_decide (s ∈ [first; "lstm"; "bilstm"; "gru"; "bigru"]) = false).
Proof.
  destruct (String.eqb s first) eqn:H0; [apply String.eqb_eq in H0; auto|].
  destruct (String.eqb s "lstm") eqn:H1; [apply String.eqb_eq in H1; auto|].
  destruct (String.eqb s "bilstm") eqn:H2; [apply String.eqb_eq in H2; auto|].
  destruct (String.eqb s "gru") eqn:H3; [apply String.eqb_eq in H3; auto 6|].
  destruct (String.eqb s "bigru") eqn:H4; [apply String.eqb_eq in H4; auto 6|].
  do 5 right. repeat split; try done.
  apply bool_decide_eq_false.
  apply String.eqb_neq in H0, H1, H2, H3, H4.
  rewrite !elem_of_cons, elem_of_nil. tauto.
Qed.

Section Init.

Context {F : Type}.
Variable nn_RNN : rnn_cell -> Z -> Z -> bool -> result (@rnn_fn F).

(** The layer of a recurrent strategy: the parity guard, then the
    framework. *)
Lemma RNNEmbedding_init_strategy (strategy : string) (input_size hidden : Z) :
  strategy ∈ rnn_strategies ->
  RNNEmbedding_init nn_RNN input_size hidden (is_bidirectional strategy)
    (strategy_rnn_type strategy)
  = if is_bidirectional strategy && negb (hidden mod 2 =? 0) then
      Raise (RuntimeError "hidden_size is expected to be even in the bidirectional mode!")
    else
      let* m := nn_RNN (strategy_cell strategy) input_size
                  (direction_size strategy hidden) (is_bidirectional strategy) in
      Ok {| rnn_type := strategy_rnn_type strategy;
            bidirectional := is_bidirectional strategy;
            hidden_size := direction_size strategy hidden;
            model := m |}.
Proof.
  unfold rnn_strategies. rewrite !elem_of_cons, elem_of_nil.
  intros [-> | [-> | [-> | [-> | []]]]]; reflexivity.
Qed.

(** The [node_edge_emb_strategy] chain. *)
Lemma init_node_edge_emb_layer_eq (embeddings : list (list F)) (node : string)
    (hidden : Z) :
  init_node_edge_emb_layer nn_RNN embeddings node hidden
  = if String.eqb node "mean" then Ok MeanLayer
    else if bool_decide (node ∈ rnn_strategies) then
      let* r := RNNEmbedding_init nn_RNN (emb_dim embeddings) hidden
                  (is_bidirectional node) (strategy_rnn_type node) in
      Ok (RNNLayer r)
    else Raise (RuntimeError ("Unknown node_edge_emb_strategy: " +:+ node)).
Proof.
  unfold init_node_edge_emb_layer.
  destruct (strategy_cases "mean" node)
    as [-> | [-> | [-> | [-> | [-> | (H0 & H1 & H2 & H3 & H4 & Hout)]]]]];
    try reflexivity.
  rewrite H0, H1, H2, H3, H4.
  rewrite bool_decide_eq_false_2; [done|].
  apply String.eqb_neq in H1, H2, H3, H4.
  unfold rnn_strategies. rewrite !elem_of_cons, elem_of_nil. tauto.
Qed.

(** The [seq_info_encode_strategy] chain. *)
Lemma init_seq_info_encode_layer_eq (embeddings : list (list F))
    (node seq : string) (hidden : Z) :
  init_seq_info_encode_layer nn_RNN embeddings node seq hidden
  = if String.eqb seq "none" then Ok None
    else if bool_decide (seq ∈ rnn_strategies) then
      let* r := RNNEmbedding_init nn_RNN (seq_input_size embeddings node hidden)
                  hidden (is_bidirectional seq) (strategy_rnn_type seq) in
      Ok (Some r)
    else Raise (RuntimeError ("Unknown seq_info_encode_strategy: " +:+ seq)).
Proof.
  unfold init_seq_info_encode_layer, seq_input_size. cbn zeta.
  destruct (strategy_cases "none" seq)
    as [-> | [-> | [-> | [-> | [-> | (H0 & H1 & H2 & H3 & H4 & Hout)]]]]];
    try reflexivity.
  rewrite H0, H1, H2, H3, H4.
  rewrite bool_decide_eq_false_2; [done|].
  apply String.eqb_neq in H1, H2, H3, H4.
  unfold rnn_strategies. rewrite !elem_of_cons, elem_of_nil. tauto.
Qed.

(** The two lists of strategies, through the recurrent ones. *)
Lemma node_edge_emb_strategies_rnn (node : string) :
  node ∈ node_edge_emb_strategies <-> node = "mean" \/ node ∈ rnn_strategies.
Proof.
  unfold node_edge_emb_strategies, rnn_strategies. by rewrite elem_of_cons.
Qed.

Lemma seq_info_encode_strategies_rnn (seq : string) :
  seq ∈ seq_info_encode_strategies <-> seq = "none" \/ seq ∈ rnn_strategies.
Proof.
  unfold seq_info_encode_strategies, rnn_strategies. by rewrite elem_of_cons.
Qed.

(** One chain, for a strategy that is [first] ('mean' or 'none'), recurrent,
    or unknown. *)
Lemma init_layer_cases {A : Type} (first strategy : string) (input_size hidden : Z)
    (plain : A) (wrap : @RNNEmbedding F -> A) (unknown : exn) :
  first ∉ rnn_strategies ->
  let chain :=
    if String.eqb strategy first then Ok plain
    else if bool_decide (strategy ∈ rnn_strategies) then
      let* r := RNNEmbedding_init nn_RNN input_size hidden
                  (is_bidirectional strategy) (strategy_rnn_type strategy) in
      Ok (wrap r)
    else Raise unknown in
  (strategy = first /\ chain = Ok plain)
  \/ (strategy ∈ rnn_strategies /\ strategy <> first
      /\ is_bidirectional strategy = true /\ hidden mod 2 <> 0
      /\ chain = Raise (RuntimeError
                          "hidden_size is expected to be even in the bidirectional mode!"))
  \/ (asked strategy hidden /\ strategy <> first
      /\ exists m,
           nn_RNN (strategy_cell strategy) input_size
             (direction_size strategy hidden) (is_bidirectional strategy) = Ok m
           /\ chain = Ok (wrap {| rnn_type := strategy_rnn_type strategy;
                                  bidirectional := is_bidirectional strategy;
                                  hidden_size := direction_size strategy hidden;
                                  model := m |}))
  \/ (asked strategy hidden /\ strategy <> first
      /\ exists e,
           nn_RNN (strategy_cell strategy) input_size
             (direction_size strategy hidden) (is_bidirectional strategy) = Raise e
           /\ chain = Raise e)
  \/ (strategy <> first /\ (strategy ∉ rnn_strategies) /\ chain = Raise unknown).
Proof.
  intros Hfirst chain. subst chain.
  destruct (String.eqb strategy first) eqn:Heq.
  { apply String.eqb_eq in Heq. by left. }
  apply String.eqb_neq in Heq.
  case_bool_decide as Hin; [|do 4 right; done].
  rewrite (RNNEmbedding_init_strategy strategy input_size hidden Hin).
  unfold asked.
  destruct (is_bidirectional strategy) eqn:Hbi; cbn [andb].
  - destruct (hidden mod 2 =? 0) eqn:Hpar; cbn [negb].
    + destruct (nn_RNN _ _ _ _) as [m|e] eqn:Hm; cbn [bind].
      * right; right; left. split; [split; [done|]; intros _; lia|].
        split; [done|]. by exists m.
      * right; right; right; left. split; [split; [done|]; intros _; lia|].
        split; [done|]. by exists e.
    + right; left. repeat split; try done. lia.
  - destruct (nn_RNN _ _ _ _) as [m|e] eqn:Hm; cbn [bind].
    + right; right; left. split; [by split|]. split; [done|]. by exists m.
    + right; right; right; left. split; [by split|]. split; [done|]. by exists e.
Qed.

Lemma init_accepts_true (node seq : string) (hidden : Z) :
  init_accepts node seq hidden = true <->
  node ∈ node_edge_emb_strategies /\ seq ∈ seq_info_encode_strategies
  /\ (is_bidirectional node = true -> hidden mod 2 = 0)
  /\ (is_bidirectional seq = true -> hidden mod 2 = 0).
Proof.
  unfold init_accepts.
  rewrite !andb_true_iff, !bool_decide_eq_true.
  destruct (is_bidirectional node), (is_bidirectional seq); cbn [orb implb];
    rewrite ?Z.eqb_eq; intuition (try done).
Qed.

(** C3, as the code has it.  [__init__] returns only when
    [node_edge_emb_strategy] is one of 'mean', 'lstm', 'bilstm', 'gru',
    'bigru', [seq_info_encode_strategy] is one of 'none', 'lstm', 'bilstm',
    'gru', 'bigru', and [hidden_size] is even if either strategy is
    bidirectional; the object then holds the mean or recurrent layer of each
    strategy.  Given that the framework builds the recurrent layers asked
    of it (none with 'mean' and 'none'), [__init__] returns in all those
    cases and raises [RuntimeError] in every other.  An exception of the
    framework on a layer asked of it is the exception of [__init__]. *)
Theorem EmbeddingConstruction_init_accepts (embeddings : list (list F))
    (word_emb_type : str_or_list) (node seq : string) (hidden_size : Z)
    (fix_word_emb : bool) :
  (forall self,
     EmbeddingConstruction_init nn_RNN embeddings word_emb_type node seq
       hidden_size fix_word_emb = Ok self ->
     init_accepts node seq hidden_size = true
     /\ node_edge_emb_strategy self = node
     /\ seq_info_encode_strategy self = seq
     /\ match node_edge_emb_layer self with
        | MeanLayer => node = "mean"
        | RNNLayer r => node <> "mean" /\ layer_for node r
        end
     /\ match seq_info_encode_layer self with
        | None => seq = "none"
        | Some r => seq <> "none" /\ layer_for seq r
        end)
  /\ (layers_built nn_RNN embeddings node seq hidden_size ->
      if init_accepts node seq hidden_size then
        exists self,
          EmbeddingConstruction_init nn_RNN embeddings word_emb_type node seq
            hidden_size fix_word_emb = Ok self
      else
        exists msg,
          EmbeddingConstruction_init nn_RNN embeddings word_emb_type node seq
            hidden_size fix_word_emb = Raise (RuntimeError msg))
  /\ (forall e,
        asked node hidden_size ->
        nn_RNN (strategy_cell node) (emb_dim embeddings)
          (direction_size node hidden_size) (is_bidirectional node) = Raise e ->
        EmbeddingConstruction_init nn_RNN embeddings word_emb_type node seq
          hidden_size fix_word_emb = Raise e)
  /\ (forall e layer,
        init_node_edge_emb_layer nn_RNN embeddings node hidden_size = Ok layer ->
        asked seq hidden_size ->
        nn_RNN (strategy_cell seq) (seq_input_size embeddings node hidden_size)
          (direction_size seq hidden_size) (is_bidirectional seq) = Raise e ->
        EmbeddingConstruction_init nn_RNN embeddings word_emb_type node seq
          hidden_size fix_word_emb = Raise e).
Proof.
  assert (Hmean : "mean" ∉ rnn_strategies).
  { unfold rnn_strategies. rewrite !elem_of_cons, elem_of_nil.
    intros [H | [H | [H | [H | []]]]]; discriminate H. }
  assert (Hnone : "none" ∉ rnn_strategies).
  { unfold rnn_strategies. rewrite !elem_of_cons, elem_of_nil.
    intros [H | [H | [H | [H | []]]]]; discriminate H. }
  assert (Hbi_mean : is_bidirectional "mean" = false) by reflexivity.
  assert (Hbi_none : is_bidirectional "none" = false) by reflexivity.
  pose proof (init_layer_cases "mean" node (emb_dim embeddings) hidden_size
                MeanLayer RNNLayer
                (RuntimeError ("Unknown node_edge_emb_strategy: " +:+ node)) Hmean)
    as Hnode.
  pose proof (init_layer_cases "none" seq
                (seq_input_size embeddings node hidden_size) hidden_size
                None Some
                (RuntimeError ("Unknown seq_info_encode_strategy: " +:+ seq)) Hnone)
    as Hseq.
  cbn zeta in Hnode, Hseq.
  rewrite <- init_node_edge_emb_layer_eq in Hnode.
  rewrite <- init_seq_info_encode_layer_eq in Hseq.
  unfold EmbeddingConstruction_init. cbn zeta.
  split; [|split; [|split]].
  - intros self.
    destruct Hnode as [(-> & ->) | [(_ & _ & _ & _ & ->) | [([Hn Hnpar] & Hnm & mn & _ & ->)
                      | [(_ & _ & e & _ & ->) | (_ & _ & ->)]]]];
      cbn [bind]; try done.
    + destruct Hseq as [(-> & ->) | [(_ & _ & _ & _ & ->)
                       | [([Hs Hspar] & Hsm & ms & _ & ->)
                       | [(_ & _ & e & _ & ->) | (_ & _ & ->)]]]];
        cbn [bind]; try done; intros [= <-]; cbn.
      * repeat split; try done.
      * split; [|repeat split; try done].
        apply init_accepts_true. rewrite Hbi_mean.
        rewrite node_edge_emb_strategies_rnn, seq_info_encode_strategies_rnn.
        repeat split; auto. done.
    + destruct Hseq as [(-> & ->) | [(_ & _ & _ & _ & ->)
                       | [([Hs Hspar] & Hsm & ms & _ & ->)
                       | [(_ & _ & e & _ & ->) | (_ & _ & ->)]]]];
        cbn [bind]; try done; intros [= <-]; cbn.
      * split; [|repeat split; try done].
        apply init_accepts_true. rewrite Hbi_none.
        rewrite node_edge_emb_strategies_rnn, seq_info_encode_strategies_rnn.
        repeat split; auto. done.
      * split; [|repeat split; try done].
        apply init_accepts_true.
        rewrite node_edge_emb_strategies_rnn, seq_info_encode_strategies_rnn.
        repeat split; auto.
  - intros [Hbn Hbs].
    destruct (init_accepts node seq hidden_size) eqn:Hacc.
    + apply init_accepts_true in Hacc as (Hn & Hs & Hnpar & Hspar).
      apply node_edge_emb_strategies_rnn in Hn.
      apply seq_info_encode_strategies_rnn in Hs.
      assert (Hprem : node = "mean" \/ asked node hidden_size).
      { destruct Hn; [by left | by right]. }
      destruct Hnode as [(_ & ->) | [(_ & _ & Hbi & Hodd & _)
                        | [(_ & _ & mn & _ & ->)
                        | [(Hask & _ & e & He & _) | (Hne & Hnot & _)]]]];
        cbn [bind].
      * destruct Hseq as [(_ & ->) | [(_ & _ & Hbi & Hodd & _)
                         | [(_ & _ & ms & _ & ->)
                         | [(Hask & _ & e & He & _) | (Hne & Hnot & _)]]]];
          cbn [bind]; eauto.
        -- exfalso. apply Hodd. auto.
        -- rewrite He in Hbs. by specialize (Hbs Hprem Hask).
        -- exfalso. destruct Hs; done.
      * exfalso. apply Hodd. auto.
      * destruct Hseq as [(_ & ->) | [(_ & _ & Hbi & Hodd & _)
                         | [(_ & _ & ms & _ & ->)
                         | [(Hask & _ & e & He & _) | (Hne & Hnot & _)]]]];
          cbn [bind]; eauto.
        -- exfalso. apply Hodd. auto.
        -- rewrite He in Hbs. by specialize (Hbs Hprem Hask).
        -- exfalso. destruct Hs; done.
      * rewrite He in Hbn. by specialize (Hbn Hask).
      * exfalso. destruct Hn; done.
    + destruct Hnode as [(Hn & ->) | [(_ & _ & _ & _ & ->)
                        | [([Hn Hnpar] & _ & mn & _ & ->)
                        | [(Hask & _ & e & He & _) | (_ & _ & ->)]]]];
        cbn [bind]; eauto.
      * destruct Hseq as [(Hs & ->) | [(_ & _ & _ & _ & ->)
                         | [([Hs Hspar] & _ & ms & _ & ->)
                         | [(Hask & _ & e & He & _) | (_ & _ & ->)]]]];
          cbn [bind]; eauto.
        -- exfalso. subst. done.
        -- exfalso. subst node.
           assert (init_accepts "mean" seq hidden_size = true); [|congruence].
           apply init_accepts_true.
           rewrite node_edge_emb_strategies_rnn, seq_info_encode_strategies_rnn.
           repeat split; auto. done.
        -- rewrite He in Hbs. by specialize (Hbs (or_introl Hn) Hask).
      * destruct Hseq as [(Hs & ->) | [(_ & _ & _ & _ & ->)
                         | [([Hs Hspar] & _ & ms & _ & ->)
                         | [(Hask & _ & e & He & _) | (_ & _ & ->)]]]];
          cbn [bind]; eauto.
        -- exfalso. subst seq.
           assert (init_accepts node "none" hidden_size = true); [|congruence].
           apply init_accepts_true.
           rewrite node_edge_emb_strategies_rnn, seq_info_encode_strategies_rnn.
           repeat split; auto. done.
        -- exfalso.
           assert (init_accepts node seq hidden_size = true); [|congruence].
           apply init_accepts_true.
           rewrite node_edge_emb_strategies_rnn, seq_info_encode_strategies_rnn.
           repeat split; auto.
        -- rewrite He in Hbs. by specialize (Hbs (or_intror (conj Hn Hnpar)) Hask).
      * rewrite He in Hbn. by specialize (Hbn Hask).
  - intros e [Hn Hnpar] He.
    destruct Hnode as [(-> & _) | [(_ & _ & Hbi & Hodd & _)
                      | [(_ & _ & mn & Hm & _)
                      | [(_ & _ & e' & He' & ->) | (_ & Hnot & _)]]]];
      try done.
    + exfalso. apply Hodd. auto.
    + congruence.
    + cbn [bind]. congruence.
  - intros e layer Hlayer [Hs Hspar] He. rewrite Hlayer. cbn [bind].
    destruct Hseq as [(-> & _) | [(_ & _ & Hbi & Hodd & _)
                     | [(_ & _ & ms & Hm & _)
                     | [(_ & _ & e' & He' & ->) | (_ & Hnot & _)]]]];
      try done.
    + exfalso. apply Hodd. auto.
    + congruence.
    + cbn [bind]. congruence.
Qed.

End Init.

(** A bidirectional LSTM over the words and a GRU over the items, with an
    even hidden size, on a framework that builds no layer of hidden size
    zero. *)
Lemma EmbeddingConstruction_init_accepts_witness :
  exists self,
    EmbeddingConstruction_init (F := Z) strict_rnn [[1; 2]] (Str "w2v")
      "bilstm" "gru" 4 true = Ok self
    /\ init_accepts "bilstm" "gru" 4 = true
    /\ node_edge_emb_strategy self = "bilstm"
    /\ seq_info_encode_strategy self = "gru"
    /\ match node_edge_emb_layer self with
       | MeanLayer => "bilstm" = "mean"
       | RNNLayer r => "bilstm" <> "mean" /\ layer_for "bilstm" r
       end
    /\ match seq_info_encode_layer self with
       | None => "gru" = "none"
       | Some r => "gru" <> "none" /\ layer_for "gru" r
       end.
Proof.
  assert (Hbuilt : layers_built (F := Z) strict_rnn [[1; 2]] "bilstm" "gru" 4).
  { split; [intros _ | intros _ _]; reflexivity. }
  destruct (proj1 (proj2 (EmbeddingConstruction_init_accepts (F := Z) strict_rnn
                            [[1; 2]] (Str "w2v") "bilstm" "gru" 4 true)) Hbuilt)
    as [self Hself].
  exists self. split; [exact Hself|].
  exact (proj1 (EmbeddingConstruction_init_accepts (F := Z) strict_rnn
                  [[1; 2]] (Str "w2v") "bilstm" "gru" 4 true) self Hself).
Defined.

(** Both strategies are among the accepted ones, and the constructor
    raises: the hidden size is odd and the node/edge layer bidirectional. *)
Lemma EmbeddingConstruction_init_odd_hidden_counterexample :
  "bilstm" ∈ node_edge_emb_strategies
  /\ "none" ∈ seq_info_encode_strategies
  /\ EmbeddingConstruction_init (F := Z) echo_rnn [[1; 2]] (Str "w2v")
       "bilstm" "none" 3 true
     = Raise (RuntimeError "hidden_size is expected to be even in the bidirectional mode!")
  /\ ~ exists self,
         EmbeddingConstruction_init (F := Z) echo_rnn [[1; 2]] (Str "w2v")
           "bilstm" "none" 3 true = Ok self.
Proof.
  split; [by apply (bool_decide_unpack _)|].
  split; [by apply (bool_decide_unpack _)|].
  split; [reflexivity|].
  intros [self Hself]. discriminate Hself.
Qed.

Example EmbeddingConstruction_init_unknown_strategy :
  EmbeddingConstruction_init (F := Z) echo_rnn [[1; 2]] (Str "w2v")
    "cnn" "none" 4 true
  = Raise (RuntimeError "Unknown node_edge_emb_strategy: cnn").
Proof. reflexivity. Qed.

(** A hidden size the framework rejects: the strategies and the parity are
    accepted, and the framework's exception is the constructor's. *)
Example EmbeddingConstruction_init_zero_hidden :
  init_accepts "lstm" "none" 0 = true
  /\ EmbeddingConstruction_init (F := Z) strict_rnn [[1; 2]] (Str "w2v")
       "lstm" "none" 0 true
     = Raise (FrameworkError "hidden_size must be greater than zero").
Proof. split; reflexivity. Qed.

(** With 'mean' and 'none' no recurrent layer is asked of the framework. *)
Example layers_built_mean_none (nn_RNN : rnn_cell -> Z -> Z -> bool -> result (@rnn_fn Z))
    (hidden_size : Z) :
  layers_built nn_RNN [[1; 2]] "mean" "none" hidden_size.
Proof.
  split; [intros [Hin _] | intros _ [Hin _]]; exfalso; revert Hin;
    unfold rnn_strategies; rewrite !elem_of_cons, elem_of_nil;
    intros [H | [H | [H | [H | []]]]]; discriminate H.
Qed.


(** * Further properties of the constructors *)

Section RNNEmbeddingInit.

Context {F : Type}.
Variable nn_RNN : rnn_cell -> Z -> Z -> bool -> result (@rnn_fn F).

(** When [__init__] returns, and what it then holds. *)
Lemma RNNEmbedding_init_returns (input_size hidden : Z) (bidir : bool)
    (kind : string) (self : @RNNEmbedding F) :
  RNNEmbedding_init nn_RNN input_size hidden bidir kind = Ok self <->
  (kind = "lstm" \/ kind = "gru")
  /\ (bidir = true -> hidden mod 2 = 0)
  /\ nn_RNN (if String.eqb kind "lstm" then nn_LSTM else nn_GRU) input_size
       (if bidir then hidden / 2 else hidden) bidir
     = Ok (model self)
  /\ rnn_type self = kind
  /\ bidirectional self = bidir
  /\ hidden_size self = (if bidir then hidden / 2 else hidden).
Proof.
  assert (Hmem : kind ∈ ["lstm"; "gru"] <-> kind = "lstm" \/ kind = "gru").
  { rewrite !elem_of_cons, elem_of_nil. tauto. }
  unfold RNNEmbedding_init. split.
  - case_bool_decide as Hk; [|done].
    apply Hmem in Hk. simpl.
    destruct (bidir && negb (hidden mod 2 =? 0)) eqn:Hpar; [done|].
    destruct (nn_RNN _ _ _ _) as [m|e] eqn:Hm; [|done]. simpl.
    intros [= <-]. simpl. repeat split; try done.
    intros ->. simpl in Hpar. apply negb_false_iff in Hpar. lia.
  - intros (Hk & Hpar & Hm & Hkind & Hbi & Hhid).
    rewrite bool_decide_eq_true_2 by (by apply Hmem). simpl.
    assert (bidir && negb (hidden mod 2 =? 0) = false) as ->.
    { destruct bidir; [|done]. simpl. apply negb_false_iff.
      specialize (Hpar eq_refl). lia. }
    rewrite Hm. simpl. destruct self. simpl in *. by subst.
Qed.

(** X2.  The two directions of a bidirectional layer share the hidden size that
    was asked for: the width of the hidden states is [hidden_size] in both
    modes. *)
Theorem RNNEmbedding_init_width (input_size hidden : Z) (bidir : bool)
    (kind : string) (self : @RNNEmbedding F) :
  RNNEmbedding_init nn_RNN input_size hidden bidir kind = Ok self ->
  hidden_size self * num_directions self = hidden.
Proof.
  intros Hinit.
  apply RNNEmbedding_init_returns in Hinit as (_ & Hpar & _ & _ & Hbi & Hhid).
  unfold num_directions. rewrite Hhid, Hbi.
  destruct bidir; [|lia].
  specialize (Hpar eq_refl).
  rewrite (Z.div_mod hidden 2) at 2 by lia. lia.
Qed.

End RNNEmbeddingInit.

Lemma RNNEmbedding_init_width_witness :
  hidden_size
    {| rnn_type := "gru"; bidirectional := true; hidden_size := 3;
       model := echo_fn (F := Z) 5 true |}
  * num_directions
      {| rnn_type := "gru"; bidirectional := true; hidden_size := 3;
         model := echo_fn (F := Z) 5 true |}
  = 6.
Proof.
  exact (RNNEmbedding_init_width echo_rnn 5 6 true "gru" _ eq_refl).
Defined.

Section EmbeddingConstructionInit.

Context {F : Type}.
Variable nn_RNN : rnn_cell -> Z -> Z -> bool -> result (@rnn_fn F).

(** The parts of the object [__init__] returns. *)
Lemma EmbeddingConstruction_init_parts (embeddings : list (list F))
    (word_emb_type : str_or_list) (node seq : string) (hidden : Z)
    (fix_word_emb : bool) (self : @EmbeddingConstruction F) :
  EmbeddingConstruction_init nn_RNN embeddings word_emb_type node seq hidden
    fix_word_emb = Ok self ->
  word_emb_layers self
  = (if bool_decide ("w2v" ∈ word_emb_types word_emb_type)
     then [WordEmbedding embeddings fix_word_emb] else [])
    ++ (if bool_decide ("bert" ∈ word_emb_types word_emb_type)
        then [BertEmbedding fix_word_emb] else [])
  /\ init_node_edge_emb_layer nn_RNN embeddings node hidden
     = Ok (node_edge_emb_layer self)
  /\ init_seq_info_encode_layer nn_RNN embeddings node seq hidden
     = Ok (seq_info_encode_layer self).
Proof.
  unfold EmbeddingConstruction_init. cbn zeta.
  destruct (init_node_edge_emb_layer _ _ _ _) as [ne|e]; [|done]. cbn [bind].
  destruct (init_seq_info_encode_layer _ _ _ _ _) as [se|e]; [|done]. cbn [bind].
  intros [= <-]. simpl. by destruct word_emb_type.
Qed.

(** X3.  Only the presence of 'w2v' and 'bert' in [word_emb_type] counts: the
    lookup table is registered before the BERT layer whatever the order of
    the list, each at most once, and any other name is ignored. *)
Theorem EmbeddingConstruction_init_word_emb_layers (embeddings : list (list F))
    (word_emb_type : str_or_list) (node seq : string) (hidden : Z)
    (fix_word_emb : bool) (self : @EmbeddingConstruction F) :
  EmbeddingConstruction_init nn_RNN embeddings word_emb_type node seq hidden
    fix_word_emb = Ok self ->
  (WordEmbedding embeddings fix_word_emb ∈ word_emb_layers self
   <-> "w2v" ∈ word_emb_types word_emb_type)
  /\ (BertEmbedding fix_word_emb ∈ word_emb_layers self
      <-> "bert" ∈ word_emb_types word_emb_type)
  /\ word_emb_layers self
       `sublist_of` [WordEmbedding embeddings fix_word_emb; BertEmbedding fix_word_emb].
Proof.
  intros Hinit.
  destruct (EmbeddingConstruction_init_parts _ _ _ _ _ _ _ Hinit) as (-> & _ & _).
  do 2 case_bool_decide; simpl; (split; [|split]).
  - split; [done|]. intros _. apply elem_of_cons. by left.
  - split; [done|]. intros _. apply elem_of_cons. right. apply elem_of_cons. by left.
  - done.
  - split; [done|]. intros _. apply elem_of_cons. by left.
  - split; [|done]. intros [? | []%elem_of_nil]%elem_of_cons. done.
  - apply sublist_skip, sublist_nil_l.
  - split; [|done]. intros [? | []%elem_of_nil]%elem_of_cons. done.
  - split; [done|]. intros _. apply elem_of_cons. by left.
  - by apply sublist_cons.
  - split; [|done]. by intros ?%elem_of_nil.
  - split; [|done]. by intros ?%elem_of_nil.
  - apply sublist_nil_l.
Qed.

(** X4.  A [word_emb_type] that names neither 'w2v' nor 'bert' is accepted by
    [__init__], which then holds no word embedding layer, and [forward]
    raises on every input: [torch.cat] is given an empty list. *)
Theorem EmbeddingConstruction_forward_no_word_emb
    (F0 : F) (torch_sum : list (list (list F)) -> list (list F))
    (Fdiv : F -> F -> F) (F_of_Z : Z -> F)
    (torch_argsort : bool -> list Z -> list Z)
    (embeddings : list (list F)) (word_emb_type : str_or_list)
    (node seq : string) (hidden : Z) (fix_word_emb : bool)
    (self : @EmbeddingConstruction F)
    (input_tensor : list (list Z)) (item_size num_items : list Z) :
  EmbeddingConstruction_init nn_RNN embeddings word_emb_type node seq hidden
    fix_word_emb = Ok self ->
  "w2v" ∉ word_emb_types word_emb_type -> "bert" ∉ word_emb_types word_emb_type ->
  word_emb_layers self = []
  /\ exists e,
       EmbeddingConstruction_forward F0 torch_sum Fdiv F_of_Z torch_argsort self
         input_tensor item_size num_items = Raise e.
Proof.
  intros Hinit Hw Hb.
  destruct (EmbeddingConstruction_init_parts _ _ _ _ _ _ _ Hinit) as (Hlayers & _ & _).
  rewrite !bool_decide_eq_false_2 in Hlayers by done.
  split; [done|].
  unfold EmbeddingConstruction_forward, embed_words. rewrite Hlayers.
  by eexists.
Qed.

(** X5.  The strategies are looked at in turn: an unknown node/edge strategy is
    reported by its name whatever the other arguments are, and the sequence
    strategy is only looked at once the node/edge layer is built. *)
Theorem EmbeddingConstruction_init_unknown_strategy_error
    (embeddings : list (list F)) (word_emb_type : str_or_list)
    (node seq : string) (hidden : Z) (fix_word_emb : bool) :
  (node ∉ node_edge_emb_strategies ->
   EmbeddingConstruction_init nn_RNN embeddings word_emb_type node seq hidden
     fix_word_emb
   = Raise (RuntimeError ("Unknown node_edge_emb_strategy: " +:+ node)))
  /\ (forall layer,
        init_node_edge_emb_layer nn_RNN embeddings node hidden = Ok layer ->
        seq ∉ seq_info_encode_strategies ->
        EmbeddingConstruction_init nn_RNN embeddings word_emb_type node seq hidden
          fix_word_emb
        = Raise (RuntimeError ("Unknown seq_info_encode_strategy: " +:+ seq)))
  /\ (forall e,
        init_node_edge_emb_layer nn_RNN embeddings node hidden = Raise e ->
        EmbeddingConstruction_init nn_RNN embeddings word_emb_type node seq hidden
          fix_word_emb = Raise e).
Proof.
  split; [|split].
  - intros Hnode. unfold EmbeddingConstruction_init, init_node_edge_emb_layer.
    cbn zeta.
    destruct (strategy_cases "mean" node)
      as [-> | [-> | [-> | [-> | [-> | (H0 & H1 & H2 & H3 & H4 & _)]]]]];
      try (exfalso; apply Hnode; unfold node_edge_emb_strategies;
           rewrite !elem_of_cons; tauto).
    by rewrite H0, H1, H2, H3, H4.
  - intros layer Hlayer Hseq.
    unfold EmbeddingConstruction_init. cbn zeta. rewrite Hlayer. cbn [bind].
    unfold init_seq_info_encode_layer. cbn zeta.
    destruct (strategy_cases "none" seq)
      as [-> | [-> | [-> | [-> | [-> | (H0 & H1 & H2 & H3 & H4 & _)]]]]];
      try (exfalso; apply Hseq; unfold seq_info_encode_strategies;
           rewrite !elem_of_cons; tauto).
    by rewrite H0, H1, H2, H3, H4.
  - intros e He. unfold EmbeddingConstruction_init. cbn zeta. by rewrite He.
Qed.

End EmbeddingConstructionInit.

(** 'bert' is listed before 'w2v', with a name in between that is not a
    word embedding type. *)
Lemma EmbeddingConstruction_init_word_emb_layers_witness :
  word_emb_layers
    {| node_edge_emb_strategy := "mean";
       seq_info_encode_strategy := "none";
       word_emb_layers := [WordEmbedding [[1; 2]] true; BertEmbedding true];
       node_edge_emb_layer := MeanLayer;
       seq_info_encode_layer := None |}
    `sublist_of` [WordEmbedding [[1; 2]] true; BertEmbedding true].
Proof.
  exact (proj2 (proj2 (EmbeddingConstruction_init_word_emb_layers (F := Z) echo_rnn
                         [[1; 2]] (StrList ["bert"; "glove"; "w2v"; "bert"])
                         "mean" "none" 0 true _ eq_refl))).
Defined.

(** The type 'glove' is not one the constructor knows. *)
Lemma EmbeddingConstruction_forward_no_word_emb_witness :
  word_emb_layers
    {| node_edge_emb_strategy := "mean";
       seq_info_encode_strategy := "none";
       word_emb_layers := @nil (@word_emb_layer Z);
       node_edge_emb_layer := MeanLayer;
       seq_info_encode_layer := None |} = []
  /\ exists e,
       EmbeddingConstruction_forward 0 (torch_sum_dim1 0 Z.add) Z.div id argsort_stable
         {| node_edge_emb_strategy := "mean";
            seq_info_encode_strategy := "none";
            word_emb_layers := [];
            node_edge_emb_layer := MeanLayer;
            seq_info_encode_layer := None |}
         [[0; 1]] [2] [1] = Raise e.
Proof.
  refine (EmbeddingConstruction_forward_no_word_emb (F := Z) echo_rnn 0 (torch_sum_dim1 0 Z.add) Z.div id
            argsort_stable [[1; 2]; [3; 4]] (Str "glove") "mean" "none" 0 true
            _ [[0; 1]] [2] [1] eq_refl _ _);
    apply (proj1 (bool_decide_eq_false _)); reflexivity.
Defined.

(** Both strategies are unknown: the node/edge strategy is the one
    reported. *)
Lemma EmbeddingConstruction_init_unknown_strategy_error_witness :
  EmbeddingConstruction_init (F := Z) echo_rnn [[1; 2]] (Str "w2v") "cnn" "attn" 3 true
  = Raise (RuntimeError "Unknown node_edge_emb_strategy: cnn").
Proof.
  refine (proj1 (EmbeddingConstruction_init_unknown_strategy_error (F := Z) echo_rnn
                   [[1; 2]] (Str "w2v") "cnn" "attn" 3 true) _).
  apply (proj1 (bool_decide_eq_false _)). reflexivity.
Defined.

(** * [EmbeddingConstruction.forward] with the lookup table and the mean *)

Section ForwardMean.

Context {F : Type}.
Variable F0 : F.
Variable Fadd : F -> F -> F.
Variable torch_sum : list (list (list F)) -> list (list F).
Variable Fdiv : F -> F -> F.
Variable F_of_Z : Z -> F.
Variable torch_argsort : bool -> list Z -> list Z.
Variable nn_RNN : rnn_cell -> Z -> Z -> bool -> result (@rnn_fn F).

(** With one layer registered, [torch.cat] returns that layer's output. *)
Lemma embed_words_single (self : @EmbeddingConstruction F)
    (layer : word_emb_layer) (input_tensor : list (list Z)) :
  word_emb_layers self = [layer] ->
  embed_words self input_tensor = word_emb_layer_call layer input_tensor.
Proof.
  intros Hl. unfold embed_words. rewrite Hl. simpl.
  by destruct (word_emb_layer_call layer input_tensor).
Qed.

(** The column of a looked-up item: the table entries of its words. *)
Lemma column_gather (embeddings : list (list F)) (input_tensor : list (list Z))
    (i d : nat) (item : list Z) :
  input_tensor !! i = Some item ->
  column F0 ((fun item : list Z => gather [] embeddings item) <$> input_tensor) i d
  = (fun w => at2 F0 embeddings (Z.to_nat w) d) <$> item.
Proof.
  intros Hitem. unfold column. rewrite list_lookup_fmap, Hitem. simpl.
  unfold gather. rewrite <- list_fmap_compose.
  apply list_fmap_ext. intros k w _. simpl. unfold at2.
  by destruct (embeddings !! Z.to_nat w).
Qed.

(** The entries of the mean embedding, through the sums of the framework. *)
Lemma MeanEmbedding_forward_entries (emb : list (list (list F))) (len_ : list Z)
    (N L D : nat) :
  sum_spec F0 Fadd torch_sum -> tensor3 emb N L D -> length len_ = N ->
  exists out,
    MeanEmbedding_forward torch_sum Fdiv F_of_Z emb len_ = Ok out
    /\ has_shape2 out N D
    /\ forall (i d : nat) (n : Z),
         len_ !! i = Some n -> (d < D)%nat ->
         at2 F0 out i d = Fdiv (at2 F0 (torch_sum emb) i d) (F_of_Z n).
Proof.
  intros Hsum Hshape Hlen.
  destruct (Hsum emb N L D Hshape) as [[HsN HsD] _].
  rewrite MeanEmbedding_forward_ok by lia.
  eexists; split; [done|].
  assert (Hrow : forall (i : nat) (n : Z),
             len_ !! i = Some n ->
             exists s, torch_sum emb !! i = Some s
               /\ zip_with (fun (s : list F) n =>
                              (fun x => Fdiv x (F_of_Z n)) <$> s)
                    (torch_sum emb) len_ !! i
                  = Some ((fun x => Fdiv x (F_of_Z n)) <$> s)
               /\ length s = D).
  { intros i n Hn.
    destruct (lookup_lt_is_Some_2 (torch_sum emb) i) as [s Hs].
    { apply lookup_lt_Some in Hn. lia. }
    exists s. split; [done|]. split.
    - rewrite lookup_zip_with, Hs. simpl. by rewrite Hn.
    - rewrite Forall_lookup in HsD. exact (HsD i s Hs). }
  split.
  - split.
    + rewrite length_zip_with. lia.
    + apply Forall_lookup. intros i row Hi.
      assert (is_Some (len_ !! i)) as [n Hn].
      { apply lookup_lt_is_Some. apply lookup_lt_Some in Hi.
        rewrite length_zip_with in Hi. lia. }
      destruct (Hrow i n Hn) as (s & _ & Hs & HsW).
      rewrite Hs in Hi. injection Hi as <-. by rewrite length_fmap.
  - intros i d n Hn Hd.
    destruct (Hrow i n Hn) as (s & Hs0 & Hs & HsW).
    unfold at2. rewrite Hs, Hs0. simpl. rewrite list_lookup_fmap.
    destruct (s !! d) as [x|] eqn:Hx; [done|].
    apply lookup_ge_None in Hx. lia.
Qed.

(** The layers [__init__] builds for 'w2v', 'mean' and no sequence
    encoder. *)
Lemma EmbeddingConstruction_init_w2v_mean (embeddings : list (list F))
    (word_emb_type : str_or_list) (hidden : Z) (fix_word_emb : bool)
    (self : @EmbeddingConstruction F) :
  EmbeddingConstruction_init nn_RNN embeddings word_emb_type "mean" "none" hidden
    fix_word_emb = Ok self ->
  "w2v" ∈ word_emb_types word_emb_type -> "bert" ∉ word_emb_types word_emb_type ->
  word_emb_layers self = [WordEmbedding embeddings fix_word_emb]
  /\ node_edge_emb_layer self = MeanLayer
  /\ seq_info_encode_layer self = None.
Proof.
  intros Hinit Hw Hb.
  destruct (EmbeddingConstruction_init_parts _ _ _ _ _ _ _ _ Hinit)
    as (Hlayers & Hne & Hse).
  rewrite bool_decide_eq_true_2, bool_decide_eq_false_2 in Hlayers by done.
  split; [done|]. split.
  - unfold init_node_edge_emb_layer in Hne. simpl in Hne. congruence.
  - unfold init_seq_info_encode_layer in Hse. simpl in Hse. congruence.
Qed.

(** X7.  Built with 'w2v', 'mean' and no sequence encoder, [forward] returns
    for every in-vocabulary input one row per item as wide as the table;
    each entry is a sum, in the order and grouping of the framework's
    [torch.sum], of the table entries of the words at all [L] positions of
    the item (padding included), divided by [item_size]; [num_items] plays
    no part. *)
Theorem EmbeddingConstruction_forward_w2v_mean (embeddings : list (list F))
    (word_emb_type : str_or_list) (hidden : Z) (fix_word_emb : bool)
    (self : @EmbeddingConstruction F)
    (input_tensor : list (list Z)) (item_size num_items : list Z)
    (V D N L : nat) :
  sum_spec F0 Fadd torch_sum ->
  EmbeddingConstruction_init nn_RNN embeddings word_emb_type "mean" "none" hidden
    fix_word_emb = Ok self ->
  "w2v" ∈ word_emb_types word_emb_type -> "bert" ∉ word_emb_types word_emb_type ->
  has_shape2 embeddings V D ->
  length input_tensor = N -> length item_size = N -> (0 < L)%nat ->
  Forall (fun item : list Z =>
            length item = L /\ Forall (fun w => 0 <= w < Z.of_nat V) item)
    input_tensor ->
  exists out,
    EmbeddingConstruction_forward F0 torch_sum Fdiv F_of_Z torch_argsort self
      input_tensor item_size num_items = Ok out
    /\ has_shape2 out N D
    /\ forall (i d : nat) (item : list Z) (n : Z),
         input_tensor !! i = Some item -> item_size !! i = Some n -> (d < D)%nat ->
         exists s,
           reduces_to F0 Fadd
             ((fun w => at2 F0 embeddings (Z.to_nat w) d) <$> item) s
           /\ at2 F0 out i d = Fdiv s (F_of_Z n).
Proof.
  intros Hsum Hinit Hw Hb Hemb HN Hsize HL Hin.
  destruct (EmbeddingConstruction_init_w2v_mean _ _ _ _ _ Hinit Hw Hb)
    as (Hlayers & Hne & Hse).
  destruct (WordEmbedding_forward_lookup embeddings input_tensor V D N L Hemb HN Hin)
    as [Hfeat Hshape].
  set (emb := (fun item : list Z => gather [] embeddings item) <$> input_tensor)
    in Hfeat, Hshape.
  assert (Ht3 : tensor3 emb N L D) by (split; [done | lia]).
  destruct (MeanEmbedding_forward_entries emb item_size N L D Hsum Ht3 Hsize)
    as (out & Hout & Hout_shape & Hentries).
  unfold EmbeddingConstruction_forward.
  rewrite (embed_words_single self _ input_tensor Hlayers). simpl.
  rewrite Hfeat. cbn [bind]. unfold node_edge_emb. rewrite Hne, Hse.
  rewrite Hout. cbn [bind].
  exists out. split; [done|]. split; [done|].
  intros i d item n Hitem Hn Hd.
  assert (Hi : (i < N)%nat) by (apply lookup_lt_Some in Hn; lia).
  exists (at2 F0 (torch_sum emb) i d). split.
  - rewrite <- (column_gather embeddings input_tensor i d item Hitem).
    by apply (proj2 (Hsum emb N L D Ht3)).
  - by apply Hentries.
Qed.

End ForwardMean.

Lemma EmbeddingConstruction_forward_w2v_mean_witness :
  exists out,
    EmbeddingConstruction_forward 0%Q (torch_sum_dim1 0%Q Qplus) Qdiv inject_Z argsort_stable
      {| node_edge_emb_strategy := "mean";
         seq_info_encode_strategy := "none";
         word_emb_layers := [WordEmbedding [[0%Q; 0%Q]; [1%Q; 2%Q]; [3%Q; 4%Q]] true];
         node_edge_emb_layer := MeanLayer;
         seq_info_encode_layer := None |}
      [[1; 2; 0]; [2; 0; 0]] [2; 1] [5] = Ok out
    /\ has_shape2 out 2 2.
Proof.
  destruct (EmbeddingConstruction_forward_w2v_mean 0%Q Qplus
              (torch_sum_dim1 0%Q Qplus) Qdiv inject_Z
              argsort_stable echo_rnn [[0%Q; 0%Q]; [1%Q; 2%Q]; [3%Q; 4%Q]]
              (Str "w2v") 4 true _ [[1; 2; 0]; [2; 0; 0]] [2; 1] [5]
              3 2 2 3 (torch_sum_dim1_spec 0%Q Qplus) eq_refl)
    as (out & Hout & Hshape & _).
  - apply (proj1 (bool_decide_eq_true _)). reflexivity.
  - apply (proj1 (bool_decide_eq_false _)). reflexivity.
  - split; [reflexivity|]. repeat constructor.
  - reflexivity.
  - reflexivity.
  - lia.
  - repeat constructor; lia.
  - exists out. split; [exact Hout | exact Hshape].
Defined.

(** * Further properties of [RNNEmbedding.forward] *)

Section RNNForwardMore.

Context {F : Type}.
Variable F0 : F.
Variable torch_argsort : bool -> list Z -> list Z.
Implicit Types (self : @RNNEmbedding F) (x : list (list (list F))) (x_len : list Z).

Lemma for_each_is_ok {A B : Type} (f : A -> result B) (l : list A) :
  is_ok (for_each f l) = true <-> Forall (fun a => is_ok (f a) = true) l.
Proof.
  induction l as [|a l IH]; simpl; [by split|].
  rewrite Forall_cons, <- IH.
  destruct (f a); simpl; [|by split; [|intros []]].
  destruct (for_each f l); simpl; by split; [|intros []].
Qed.

Lemma for_each_perm_ok {A B : Type} (f : A -> result B) (l l' : list A) r :
  l ≡ₚ l' -> for_each f l = Ok r -> exists r', for_each f l' = Ok r'.
Proof.
  intros Hp Hr.
  assert (H : is_ok (for_each f l') = true).
  { apply for_each_is_ok. rewrite <- Hp. apply for_each_is_ok. by rewrite Hr. }
  destruct (for_each f l') as [r'|]; [by exists r'|done].
Qed.

(** On a valid batch [forward] runs the network on the sequences cut to
    their lengths, longest first: the first three lines in closed form. *)
Lemma RNNEmbedding_forward_head self x x_len :
  argsort_spec torch_argsort -> valid_batch x x_len ->
  let indx := torch_argsort true x_len in
  indx ≡ₚ arange (length x)
  /\ index_rows x indx = Ok (gather [] x indx)
  /\ pack_padded_sequence (gather [] x indx) (gather 0 x_len indx)
     = Ok (gather [] (sequences x x_len) indx).
Proof.
  intros Hsort Hv indx.
  destruct (Hsort true x_len) as [Hp Hsorted]. fold indx in Hp, Hsorted.
  destruct (valid_batch_length x x_len Hv) as [Hlen Hpos].
  assert (Hin := arange_perm_range indx _ Hp).
  split; [by rewrite <- Hlen|].
  split; [apply index_rows_ok; by rewrite <- Hlen|].
  by apply pack_padded_sequence_sorted.
Qed.

(** A run of [forward] that returns has run the network on every
    sequence. *)
Lemma RNNEmbedding_forward_ok_model self x x_len r :
  argsort_spec torch_argsort -> valid_batch x x_len ->
  RNNEmbedding_forward F0 torch_argsort self x x_len = Ok r ->
  exists outs, for_each (model self) (sequences x x_len) = Ok outs.
Proof.
  intros Hsort Hv Hret.
  destruct (RNNEmbedding_forward_head self x x_len Hsort Hv) as (Hp & H1 & H2).
  unfold RNNEmbedding_forward, torch_sort in Hret.
  change ((fun j => default 0 (x_len !! Z.to_nat j)) <$> torch_argsort true x_len)
    with (gather 0 x_len (torch_argsort true x_len)) in Hret.
  cbn beta iota zeta in Hret.
  rewrite H1 in Hret. cbn [bind] in Hret. rewrite H2 in Hret. cbn [bind] in Hret.
  destruct (for_each (model self) (gather _ _ _)) as [outs|e] eqn:Houts; [|done].
  apply (for_each_perm_ok _ _ _ _ (gather_perm [] (sequences x x_len) _
           ltac:(by rewrite (sequences_length x x_len Hv))) Houts).
Qed.

(** X8.  What lies beyond the length of a sequence never reaches the network:
    two valid batches that agree on the sequences cut to their lengths
    give the same result, whether [forward] returns or raises. *)
Theorem RNNEmbedding_forward_padding_irrelevant self x x' x_len :
  argsort_spec torch_argsort ->
  valid_batch x x_len -> valid_batch x' x_len ->
  sequences x x_len = sequences x' x_len ->
  RNNEmbedding_forward F0 torch_argsort self x x_len
  = RNNEmbedding_forward F0 torch_argsort self x' x_len.
Proof.
  intros Hsort Hv Hv' Hseq.
  destruct (RNNEmbedding_forward_head self x x_len Hsort Hv) as (_ & H1 & H2).
  destruct (RNNEmbedding_forward_head self x' x_len Hsort Hv') as (_ & H1' & H2').
  unfold RNNEmbedding_forward, torch_sort.
  change ((fun j => default 0 (x_len !! Z.to_nat j)) <$> torch_argsort true x_len)
    with (gather 0 x_len (torch_argsort true x_len)).
  cbn beta iota zeta.
  rewrite H1, H1'. cbn [bind]. rewrite H2, H2'. cbn [bind]. by rewrite Hseq.
Qed.

Lemma to_nat_foldl_max (l : list Z) (a : Z) :
  Z.to_nat (foldl Z.max a l)
  = Nat.max (Z.to_nat a) (foldr Nat.max 0%nat (Z.to_nat <$> l)).
Proof.
  revert a. induction l as [|n l IH]; intros a; csimpl; [lia|].
  rewrite IH, Z2Nat.inj_max. lia.
Qed.

Lemma sequences_lengths x x_len :
  valid_batch x x_len -> length <$> sequences x x_len = Z.to_nat <$> x_len.
Proof.
  intros [_ Hv]. unfold sequences.
  induction Hv as [|n s x_len x Hn _ IH]; csimpl; [done|].
  rewrite IH, length_take. f_equal. lia.
Qed.

(** X9.  The hidden states [forward] returns have one row per sequence, as many
    time steps as the longest length in [x_len], which may be fewer than
    the padded length of [x], and the width of the network's output; the
    final states have one row per sequence. *)
Theorem RNNEmbedding_forward_shape self x x_len (H : nat) hh ht :
  argsort_spec torch_argsort -> rnn_spec (model self) H -> valid_batch x x_len ->
  RNNEmbedding_forward F0 torch_argsort self x x_len = Ok (hh, ht) ->
  exists M,
    torch_max x_len = Ok M
    /\ has_shape3 hh (length x) (Z.to_nat M) H
    /\ length ht = length x.
Proof.
  intros Hsort Hrnn Hv Hret.
  destruct (RNNEmbedding_forward_ok_model self x x_len _ Hsort Hv Hret) as [outs Houts].
  destruct (RNNEmbedding_forward_ok_inv F0 torch_argsort self x x_len _ Hsort Hret)
    as [_ Hkind].
  rewrite (RNNEmbedding_forward_run F0 torch_argsort self x x_len outs H
             Hsort Hrnn Hv Houts Hkind) in Hret.
  injection Hret as <- <-.
  destruct (valid_batch_length x x_len Hv) as [Hlen Hpos].
  destruct (for_each_lookup _ _ _ Houts) as [Hlo Hlook].
  rewrite (sequences_length x x_len Hv) in Hlo.
  rewrite (outs_lengths (model self) H _ outs Hrnn Houts), (sequences_lengths x x_len Hv).
  destruct x_len as [|n x_len]; [simpl in Hlen; lia|].
  exists (foldl Z.max n x_len). split; [done|].
  assert (HT : foldr Nat.max 0%nat (Z.to_nat <$> n :: x_len)
               = Z.to_nat (foldl Z.max n x_len)).
  { rewrite to_nat_foldl_max. done. }
  rewrite HT. split; [|by rewrite length_fmap].
  split; [by rewrite length_fmap|].
  apply Forall_fmap, Forall_lookup. intros i o Ho. simpl.
  assert (Hs : exists s, sequences x (n :: x_len) !! i = Some s /\ model self s = Ok o).
  { destruct (lookup_lt_is_Some_2 (sequences x (n :: x_len)) i) as [s Hs].
    - rewrite (sequences_length x _ Hv). apply lookup_lt_Some in Ho. lia.
    - exists s. split; [done|]. destruct (Hlook i s Hs) as (o' & Ho' & Hm). congruence. }
  destruct Hs as (s & Hs & Hm).
  destruct (Hrnn s o Hm) as [Hol HoH].
  assert (Hle : (length o.1 <= Z.to_nat (foldl Z.max n x_len))%nat).
  { rewrite Hol, <- HT, <- (sequences_lengths x _ Hv).
    assert (Hin : length s ∈ length <$> sequences x (n :: x_len)).
    { apply list_elem_of_fmap. exists s. split; [done|].
      by apply list_elem_of_lookup; exists i. }
    revert Hin. generalize (length <$> sequences x (n :: x_len)) (length s).
    intros l m. induction l as [|k l IH]; [by intros ?%elem_of_nil|].
    intros [->|Hin]%elem_of_cons; simpl; [lia|]. specialize (IH Hin). lia. }
  split.
  - rewrite pad_to_length. lia.
  - unfold pad_to, torch_zeros. apply Forall_app. split; [done|].
    apply Forall_replicate. apply length_replicate.
Qed.

Lemma index_row_ok_inv {A : Type} (t : list A) (j : Z) (r : A) :
  0 <= j -> index_row t j = Ok r -> t !! Z.to_nat j = Some r.
Proof.
  intros Hj. unfold index_row.
  destruct (j <? 0) eqn:Hneg; [lia|].
  destruct ((0 <=? j) && (j <? Z.of_nat (length t))); [|done].
  by destruct (t !! Z.to_nat j); [intros [= ->]|].
Qed.

(** X10.  [forward] returns on valid batches only: when it returns, there is at
    least one length, every length is positive and within the padded
    length of its sequence, and [x] has a sequence for every length.
    Sequences of [x] beyond the lengths given are left aside. *)
Theorem RNNEmbedding_forward_ok_valid_batch self x x_len r :
  argsort_spec torch_argsort ->
  RNNEmbedding_forward F0 torch_argsort self x x_len = Ok r ->
  valid_batch (take (length x_len) x) x_len.
Proof.
  intros Hsort Hret.
  destruct (RNNEmbedding_forward_ok_inv F0 torch_argsort self x x_len _ Hsort Hret)
    as [Hpos _].
  destruct (Hsort true x_len) as [Hp _].
  unfold RNNEmbedding_forward, torch_sort in Hret.
  change ((fun j => default 0 (x_len !! Z.to_nat j)) <$> torch_argsort true x_len)
    with (gather 0 x_len (torch_argsort true x_len)) in Hret.
  cbn beta iota zeta in Hret.
  set (indx := torch_argsort true x_len) in *.
  destruct (index_rows x indx) as [x_indx|e] eqn:Hidx; [|done]. cbn [bind] in Hret.
  destruct (pack_padded_sequence x_indx _) as [packed|e] eqn:Hpack; [|done].
  clear Hret. unfold pack_padded_sequence in Hpack.
  destruct (length x_indx =? 0)%nat eqn:H0; [done|].
  destruct (negb _); [done|].
  destruct (existsb (fun l => l <=? 0) _); [done|].
  destruct (negb _); [done|].
  destruct (existsb _ (zip _ _)) eqn:Hfit; [done|]. clear Hpack.
  apply Nat.eqb_neq in H0. apply existsb_false_inv in Hfit.
  destruct (for_each_lookup _ _ _ Hidx) as [Hl Hlook].
  assert (Hn : length indx = length x_len) by (by rewrite Hp, arange_length).
  assert (Hrange := arange_perm_range indx _ Hp).
  assert (Hat : forall (i : nat) (n : Z), x_len !! i = Some n ->
            exists s, x !! i = Some s /\ n <= Z.of_nat (length s)).
  { intros i n Hi.
    assert (Hin : Z.of_nat i ∈ indx).
    { rewrite Hp. unfold arange. apply list_elem_of_fmap. exists i. split; [done|].
      apply elem_of_seq. apply lookup_lt_Some in Hi. lia. }
    apply list_elem_of_lookup in Hin as [k Hk].
    destruct (Hlook k _ Hk) as (s & Hs & Hrow).
    apply index_row_ok_inv in Hrow; [|lia]. rewrite Nat2Z.id in Hrow.
    exists s. split; [done|].
    assert (Hg := gather_lookup 0 x_len indx k _ Hk).
    rewrite Nat2Z.id, Hi in Hg. simpl in Hg.
    assert (Hz : zip (gather 0 x_len indx) x_indx !! k = Some (n, s)).
    { apply lookup_zip_with_Some. by exists n, s. }
    rewrite Forall_lookup in Hfit. specialize (Hfit k _ Hz). simpl in Hfit. lia. }
  assert (Hle : (length x_len <= length x)%nat).
  { destruct (decide (length x_len = 0%nat)) as [->|Hne]; [lia|].
    destruct (lookup_lt_is_Some_2 x_len (length x_len - 1)) as [n Hi]; [lia|].
    destruct (Hat _ n Hi) as (s & Hs & _). apply lookup_lt_Some in Hs. lia. }
  split.
  - intros Hnil. apply (f_equal length) in Hnil. rewrite length_take in Hnil.
    simpl in Hnil. lia.
  - apply Forall2_same_length_lookup. split; [rewrite length_take; lia|].
    intros i n s Hi Hs.
    rewrite lookup_take_Some in Hs. destruct Hs as [Hs _].
    destruct (Hat i n Hi) as (s' & Hs' & Hfits).
    rewrite Forall_lookup in Hpos. specialize (Hpos i n Hi). simpl in Hpos.
    assert (s' = s) by congruence. subst. lia.
Qed.

End RNNForwardMore.

(** Two batches that differ beyond the lengths only. *)
Lemma RNNEmbedding_forward_padding_irrelevant_witness :
  RNNEmbedding_forward 0 argsort_stable
    {| rnn_type := "lstm"; bidirectional := false; hidden_size := 1;
       model := echo_fn 1 false |}
    [[[4]; [9]; [9]]; [[1]; [2]; [3]]] [1; 3]
  = RNNEmbedding_forward 0 argsort_stable
      {| rnn_type := "lstm"; bidirectional := false; hidden_size := 1;
         model := echo_fn 1 false |}
      [[[4]; [0]; [7]]; [[1]; [2]; [3]]] [1; 3].
Proof.
  apply RNNEmbedding_forward_padding_irrelevant.
  - apply argsort_stable_spec.
  - split; [done|]. repeat constructor; simpl; lia.
  - split; [done|]. repeat constructor; simpl; lia.
  - reflexivity.
Defined.

(** A batch padded to four steps whose longest sequence has three. *)
Lemma RNNEmbedding_forward_shape_witness :
  exists M,
    torch_max [1; 3] = Ok M
    /\ has_shape3 [[[4]; [0]; [0]]; [[1]; [2]; [3]]] 2 (Z.to_nat M) 1
    /\ length ([[]; []] : list (list Z)) = 2%nat.
Proof.
  refine (RNNEmbedding_forward_shape 0 argsort_stable
            {| rnn_type := "lstm"; bidirectional := false; hidden_size := 1;
               model := echo_fn 1 false |}
            [[[4]; [9]; [9]; [9]]; [[1]; [2]; [3]; [9]]] [1; 3] 1
            [[[4]; [0]; [0]]; [[1]; [2]; [3]]] [[]; []]
            argsort_stable_spec (echo_fn_spec 1 false) _ eq_refl).
  split; [done|]. repeat constructor; simpl; lia.
Defined.

(** Three sequences and two lengths: [forward] returns, and the two
    sequences that have a length form a valid batch. *)
Lemma RNNEmbedding_forward_ok_valid_batch_witness :
  valid_batch (take (length [1; 3]) [[[4]; [9]; [9]]; [[1]; [2]; [3]]; [[5]; [6]; [7]]])
    [1; 3].
Proof.
  exact (RNNEmbedding_forward_ok_valid_batch 0 argsort_stable
           {| rnn_type := "lstm"; bidirectional := false; hidden_size := 1;
              model := echo_fn 1 false |}
           [[[4]; [9]; [9]]; [[1]; [2]; [3]]; [[5]; [6]; [7]]] [1; 3]
           ([[[4]; [0]; [0]]; [[1]; [2]; [3]]], [[]; []])
           argsort_stable_spec eq_refl).
Defined.

(** * Further properties of the sequence encoder of [forward] *)

Section SeqInfoEncodeMore.

Context {F : Type}.
Variable F0 : F.
Variable torch_argsort : bool -> list Z -> list Z.
Implicit Types (layer : @RNNEmbedding F) (feat : list (list F)) (num_items : list Z).

(** A returning run of lines 199-225 has run the encoder on the block of
    every graph. *)
Lemma seq_info_encode_ok_model layer feat num_items ret :
  argsort_spec torch_argsort ->
  sum_items num_items <= Z.of_nat (length feat) ->
  seq_info_encode F0 torch_argsort layer feat num_items = Ok ret ->
  exists outs, for_each (model layer) (graph_blocks feat num_items) = Ok outs.
Proof.
  intros Hsort Hsum Hret.
  destruct (seq_info_encode_ok_inv F0 torch_argsort layer feat num_items ret Hsort Hret)
    as (Hne & Hpos & _).
  destruct (torch_max_ok num_items Hne) as (M & HM & HleM).
  assert (Hall : Forall (fun n => 0 < n <= M) num_items) by (by apply Forall_and).
  destruct (padded_blocks_batch F0 feat num_items M (shape1 feat) Hne Hall Hsum)
    as [Hv Hseqs].
  unfold seq_info_encode in Hret. rewrite HM in Hret. cbn [bind] in Hret.
  rewrite (torch_stack_unbatch F0) in Hret by done. cbn [bind] in Hret.
  destruct (RNNEmbedding_forward _ _ _ _ _) as [r|e] eqn:Hrun; [|done].
  destruct (RNNEmbedding_forward_ok_model F0 torch_argsort layer _ _ _ Hsort Hv Hrun)
    as [outs Houts].
  exists outs. by rewrite <- Hseqs.
Qed.

Lemma graph_blocks_take feat num_items :
  Forall (fun n => 0 < n) num_items ->
  graph_blocks (take (Z.to_nat (sum_items num_items)) feat) num_items
  = graph_blocks feat num_items.
Proof.
  intros Hpos. revert feat.
  induction Hpos as [|n num_items Hn Hpos IH]; intros feat; [done|].
  assert (H0 := sum_items_nonneg num_items Hpos).
  change (sum_items (n :: num_items)) with (n + sum_items num_items).
  simpl. f_equal.
  - rewrite take_take. f_equal. lia.
  - rewrite <- (IH (drop (Z.to_nat n) feat)). f_equal.
    rewrite skipn_firstn_comm. f_equal. lia.
Qed.

(** X11.  The encoded rows of a graph do not depend on the other graphs of the
    batch: whenever the batched run returns, so does the run on each graph
    alone, and the batched result is the results of the graphs one after
    another. *)
Theorem seq_info_encode_per_graph layer feat num_items ret (H : nat) :
  argsort_spec torch_argsort -> rnn_spec (model layer) H ->
  sum_items num_items <= Z.of_nat (length feat) ->
  seq_info_encode F0 torch_argsort layer feat num_items = Ok ret ->
  exists rets,
    Forall2 (fun (bn : list (list F) * Z) r =>
               seq_info_encode F0 torch_argsort layer bn.1 [bn.2] = Ok r)
      (zip (graph_blocks feat num_items) num_items) rets
    /\ ret = mjoin rets.
Proof.
  intros Hsort Hrnn Hsum Hret.
  destruct (seq_info_encode_ok_inv F0 torch_argsort layer feat num_items ret Hsort Hret)
    as (Hne & Hpos & Hkind).
  destruct (seq_info_encode_ok_model layer feat num_items ret Hsort Hsum Hret)
    as [outs Houts].
  destruct (seq_info_encode_run F0 torch_argsort layer feat num_items outs H
              Hsort Hrnn Hkind Hne Hpos Hsum Houts) as [Hrun _].
  exists (fst <$> outs). split; [|congruence].
  destruct (for_each_lookup _ _ _ Houts) as [Hlen Hlook].
  assert (Hrows := graph_blocks_rows feat num_items Hpos Hsum).
  rewrite graph_blocks_length in Hlen.
  apply Forall2_same_length_lookup. split.
  - rewrite length_fmap, length_zip_with, graph_blocks_length. lia.
  - intros i [b n] r Hbn Hr. simpl.
    apply lookup_zip_with_Some in Hbn as (b' & n' & [= <- <-] & Hb & Hn).
    rewrite list_lookup_fmap in Hr.
    destruct (Hlook i b Hb) as (o & Ho & Hm).
    rewrite Ho in Hr. injection Hr as <-.
    destruct (Forall2_lookup_l _ _ _ _ _ Hrows Hn) as (b' & Hb' & Hbn).
    assert (b' = b) as -> by congruence.
    rewrite Forall_lookup in Hpos. pose proof (Hpos _ _ Hn) as Hn0. simpl in Hn0.
    destruct (seq_info_encode_run F0 torch_argsort layer b [n] [o] H
                Hsort Hrnn Hkind) as [Hone _].
    + done.
    + by constructor.
    + unfold sum_items. simpl. lia.
    + simpl. rewrite take_ge by lia. by rewrite Hm.
    + rewrite Hone. simpl. by rewrite app_nil_r.
Qed.

(** X12.  Item rows beyond [sum(num_items)] are left aside: the outcome is that
    of the first [sum(num_items)] rows alone. *)
Theorem seq_info_encode_trailing_items layer feat num_items :
  Forall (fun n => 0 < n) num_items ->
  sum_items num_items <= Z.of_nat (length feat) ->
  seq_info_encode F0 torch_argsort layer feat num_items
  = seq_info_encode F0 torch_argsort layer
      (take (Z.to_nat (sum_items num_items)) feat) num_items.
Proof.
  intros Hpos Hsum.
  destruct num_items as [|n ns]; [done|].
  assert (Hne : n :: ns <> []) by done.
  destruct (torch_max_ok (n :: ns) Hne) as (M & HM & HleM).
  assert (Hall : Forall (fun n => 0 < n <= M) (n :: ns)) by (by apply Forall_and).
  assert (H0 : 0 < sum_items (n :: ns)).
  { inversion Hpos; subst. pose proof (sum_items_nonneg ns ltac:(done)).
    change (sum_items (n :: ns)) with (n + sum_items ns). lia. }
  unfold seq_info_encode. rewrite HM. cbn [bind].
  rewrite !(unbatch_pad F0) by (try done; try lia; rewrite ?length_take; lia).
  change (Z.to_nat 0) with 0%nat. rewrite !drop_0, graph_blocks_take by done.
  replace (shape1 (take (Z.to_nat (sum_items (n :: ns))) feat)) with (shape1 feat);
    [done|].
  destruct feat as [|row feat]; [cbn [length] in Hsum; lia|].
  destruct (Z.to_nat (sum_items (n :: ns))) eqn:Hk; [lia|done].
Qed.

End SeqInfoEncodeMore.

(** A batch of two graphs, of one and two items. *)
Lemma seq_info_encode_per_graph_witness :
  exists rets,
    Forall2 (fun (bn : list (list Z) * Z) r =>
               seq_info_encode 0 argsort_stable
                 {| rnn_type := "lstm"; bidirectional := false; hidden_size := 1;
                    model := echo_fn 1 false |} bn.1 [bn.2] = Ok r)
      (zip (graph_blocks [[1]; [2]; [3]] [1; 2]) [1; 2]) rets
    /\ [[1]; [2]; [3]] = mjoin rets.
Proof.
  refine (seq_info_encode_per_graph 0 argsort_stable
            {| rnn_type := "lstm"; bidirectional := false; hidden_size := 1;
               model := echo_fn 1 false |}
            [[1]; [2]; [3]] [1; 2] [[1]; [2]; [3]] 1
            argsort_stable_spec (echo_fn_spec 1 false) _ eq_refl).
  vm_compute. discriminate.
Defined.

(** Four item rows, three of them in graphs. *)
Lemma seq_info_encode_trailing_items_witness :
  seq_info_encode 0 argsort_stable
    {| rnn_type := "gru"; bidirectional := false; hidden_size := 1;
       model := echo_fn 1 false |} [[1]; [2]; [3]; [7]] [1; 2]
  = seq_info_encode 0 argsort_stable
      {| rnn_type := "gru"; bidirectional := false; hidden_size := 1;
         model := echo_fn 1 false |}
      (take (Z.to_nat (sum_items [1; 2])) [[1]; [2]; [3]; [7]]) [1; 2].
Proof.
  apply seq_info_encode_trailing_items.
  - repeat constructor.
  - vm_compute. discriminate.
Defined.

(** * Further properties of [EmbeddingConstruction.forward] *)

Section ForwardMore.

Context {F : Type}.
Variable F0 : F.
Variable torch_sum : list (list (list F)) -> list (list F).
Variable Fdiv : F -> F -> F.
Variable F_of_Z : Z -> F.
Variable torch_argsort : bool -> list Z -> list Z.
Implicit Types (self : @EmbeddingConstruction F).

(** The steps of a returning run of [forward]. *)
Lemma EmbeddingConstruction_forward_ok_steps self
    (input_tensor : list (list Z)) (item_size num_items : list Z) ret :
  EmbeddingConstruction_forward F0 torch_sum Fdiv F_of_Z torch_argsort self
    input_tensor item_size num_items = Ok ret ->
  exists feat0 feat,
    embed_words self input_tensor = Ok feat0
    /\ node_edge_emb F0 torch_sum Fdiv F_of_Z torch_argsort self feat0 item_size = Ok feat
    /\ match seq_info_encode_layer self with
       | None => ret = feat
       | Some layer => seq_info_encode F0 torch_argsort layer feat num_items = Ok ret
       end.
Proof.
  unfold EmbeddingConstruction_forward. intros Hret.
  destruct (embed_words self input_tensor) as [feat0|e]; [|done]. cbn [bind] in Hret.
  destruct (node_edge_emb _ _ _ _ _ _ _ _) as [feat|e] eqn:Hnode; [|done].
  cbn [bind] in Hret.
  exists feat0, feat. split; [done|]. split; [done|].
  destruct (seq_info_encode_layer self); [done|]. by injection Hret.
Qed.

(** X13.  The recurrent layers take no empty sequence: when [forward] returns,
    every item has at least one word if the node/edge layer is recurrent,
    and if a sequence encoder is configured the batch has at least one
    graph and every graph at least one item. *)
Theorem EmbeddingConstruction_forward_ok_sizes self
    (input_tensor : list (list Z)) (item_size num_items : list Z) ret :
  argsort_spec torch_argsort ->
  EmbeddingConstruction_forward F0 torch_sum Fdiv F_of_Z torch_argsort self
    input_tensor item_size num_items = Ok ret ->
  (forall r, node_edge_emb_layer self = RNNLayer r -> Forall (fun n => 0 < n) item_size)
  /\ (forall layer, seq_info_encode_layer self = Some layer ->
        num_items <> [] /\ Forall (fun n => 0 < n) num_items).
Proof.
  intros Hsort Hret.
  destruct (EmbeddingConstruction_forward_ok_steps _ _ _ _ _ Hret)
    as (feat0 & feat & _ & Hnode & Hseq).
  split.
  - intros r Hr. unfold node_edge_emb in Hnode. rewrite Hr in Hnode.
    destruct (RNNEmbedding_forward _ _ _ _ _) as [res|e] eqn:Hrun; [|done].
    by destruct (RNNEmbedding_forward_ok_inv _ _ _ _ _ _ Hsort Hrun).
  - intros layer Hl. rewrite Hl in Hseq.
    destruct (seq_info_encode_ok_inv _ _ _ _ _ _ Hsort Hseq) as (? & ? & _). done.
Qed.

Lemma sequences_gather (weight : list (list F)) (input_tensor : list (list Z))
    (item_size : list Z) :
  sequences ((fun item : list Z => gather [] weight item) <$> input_tensor) item_size
  = zip_with (fun n (item : list Z) => gather [] weight (take (Z.to_nat n) item))
      item_size input_tensor.
Proof.
  unfold sequences. revert input_tensor.
  induction item_size as [|n item_size IH]; intros [|item input_tensor]; csimpl;
    try done.
  rewrite IH. f_equal. unfold gather. by rewrite fmap_take.
Qed.

Lemma gather_zip_with_take (weight : list (list F)) (input_tensor : list (list Z))
    (item_size : list Z) :
  zip_with (fun n (item : list Z) => gather [] weight (take (Z.to_nat n) item))
    item_size input_tensor
  = gather [] weight
      <$> zip_with (fun n (item : list Z) => take (Z.to_nat n) item)
            item_size input_tensor.
Proof.
  revert input_tensor.
  induction item_size as [|n item_size IH]; intros [|item input_tensor]; csimpl;
    try done.
  by rewrite IH.
Qed.

(** X14.  With the lookup table and a recurrent node/edge layer, the words of an
    item beyond its [item_size] play no part: two inputs that agree on the
    first [item_size[i]] words of every item give the same outcome. *)
Theorem EmbeddingConstruction_forward_rnn_item_size self r
    (weight : list (list F)) (fix_word_emb : bool)
    (input_tensor input_tensor' : list (list Z)) (item_size num_items : list Z)
    (V D L : nat) :
  argsort_spec torch_argsort ->
  word_emb_layers self = [WordEmbedding weight fix_word_emb] ->
  node_edge_emb_layer self = RNNLayer r ->
  has_shape2 weight V D ->
  Forall (fun item : list Z =>
            length item = L /\ Forall (fun w => 0 <= w < Z.of_nat V) item)
    input_tensor ->
  Forall (fun item : list Z =>
            length item = L /\ Forall (fun w => 0 <= w < Z.of_nat V) item)
    input_tensor' ->
  item_size <> [] ->
  length input_tensor = length item_size ->
  length input_tensor' = length item_size ->
  Forall (fun n => 0 < n <= Z.of_nat L) item_size ->
  zip_with (fun n (item : list Z) => take (Z.to_nat n) item) item_size input_tensor
  = zip_with (fun n (item : list Z) => take (Z.to_nat n) item) item_size input_tensor' ->
  EmbeddingConstruction_forward F0 torch_sum Fdiv F_of_Z torch_argsort self
    input_tensor item_size num_items
  = EmbeddingConstruction_forward F0 torch_sum Fdiv F_of_Z torch_argsort self
      input_tensor' item_size num_items.
Proof.
  intros Hsort Hlayers Hnode Hw Hin Hin' Hne Hlen Hlen' Hsize Hagree.
  destruct (WordEmbedding_forward_lookup weight input_tensor V D _ L Hw eq_refl Hin)
    as [Hfeat Hshape].
  destruct (WordEmbedding_forward_lookup weight input_tensor' V D _ L Hw eq_refl Hin')
    as [Hfeat' Hshape'].
  assert (Hvalid : forall input : list (list Z),
            length input = length item_size ->
            Forall (fun item : list Z =>
                      length item = L /\ Forall (fun w => 0 <= w < Z.of_nat V) item)
              input ->
            valid_batch ((fun item : list Z => gather [] weight item) <$> input)
              item_size).
  { intros input Hl Hi. split.
    - intros Hnil. apply (f_equal length) in Hnil. rewrite length_fmap in Hnil.
      destruct item_size; [done | simpl in *; lia].
    - apply Forall2_same_length_lookup. split; [by rewrite length_fmap|].
      intros i n s Hn Hs. rewrite list_lookup_fmap in Hs.
      destruct (input !! i) as [item|] eqn:Hitem; [|done]. injection Hs as <-.
      rewrite gather_length.
      rewrite Forall_lookup in Hi. destruct (Hi i item Hitem) as [-> _].
      rewrite Forall_lookup in Hsize. exact (Hsize i n Hn). }
  unfold EmbeddingConstruction_forward.
  rewrite !(embed_words_single self _ _ Hlayers). simpl.
  rewrite Hfeat, Hfeat'. cbn [bind]. unfold node_edge_emb. rewrite Hnode.
  destruct (RNNEmbedding_forward_head torch_argsort r _ item_size Hsort
              (Hvalid _ Hlen Hin)) as (_ & H1 & H2).
  destruct (RNNEmbedding_forward_head torch_argsort r _ item_size Hsort
              (Hvalid _ Hlen' Hin')) as (_ & H1' & H2').
  unfold RNNEmbedding_forward, torch_sort.
  change ((fun j => default 0 (item_size !! Z.to_nat j))
            <$> torch_argsort true item_size)
    with (gather 0 item_size (torch_argsort true item_size)).
  cbn beta iota zeta.
  rewrite H1, H1'. cbn [bind]. rewrite H2, H2'. cbn [bind].
  by rewrite !sequences_gather, !gather_zip_with_take, Hagree.
Qed.

End ForwardMore.

(** A run that returns, with recurrent layers at both places. *)
Lemma EmbeddingConstruction_forward_ok_sizes_witness :
  Forall (fun n => 0 < n) [2; 1; 1]
  /\ [1; 2] <> [] /\ Forall (fun n => 0 < n) [1; 2].
Proof.
  destruct (EmbeddingConstruction_forward_ok_sizes 0 (torch_sum_dim1 0 Z.add) Z.div id argsort_stable
              {| node_edge_emb_strategy := "lstm";
                 seq_info_encode_strategy := "lstm";
                 word_emb_layers := [WordEmbedding [[0]; [1]; [2]] true];
                 node_edge_emb_layer :=
                   RNNLayer {| rnn_type := "lstm"; bidirectional := false;
                               hidden_size := 1; model := echo_fn 1 false |};
                 seq_info_encode_layer :=
                   Some {| rnn_type := "lstm"; bidirectional := false;
                           hidden_size := 1; model := echo_fn 0 false |} |}
              [[1; 2]; [2; 0]; [1; 0]] [2; 1; 1] [1; 2] [[]; []; []]
              argsort_stable_spec eq_refl) as [Hnode Hseq].
  split.
  - exact (Hnode _ eq_refl).
  - exact (Hseq _ eq_refl).
Defined.

(** Two inputs that differ beyond the item sizes only. *)
Lemma EmbeddingConstruction_forward_rnn_item_size_witness :
  EmbeddingConstruction_forward 0 (torch_sum_dim1 0 Z.add) Z.div id argsort_stable
    {| node_edge_emb_strategy := "gru";
       seq_info_encode_strategy := "none";
       word_emb_layers := [WordEmbedding [[0]; [1]; [2]] true];
       node_edge_emb_layer :=
         RNNLayer {| rnn_type := "gru"; bidirectional := false; hidden_size := 1;
                     model := echo_fn 1 false |};
       seq_info_encode_layer := None |}
    [[1; 2; 0]; [2; 0; 0]] [2; 1] [2]
  = EmbeddingConstruction_forward 0 (torch_sum_dim1 0 Z.add) Z.div id argsort_stable
      {| node_edge_emb_strategy := "gru";
         seq_info_encode_strategy := "none";
         word_emb_layers := [WordEmbedding [[0]; [1]; [2]] true];
         node_edge_emb_layer :=
           RNNLayer {| rnn_type := "gru"; bidirectional := false; hidden_size := 1;
                       model := echo_fn 1 false |};
         seq_info_encode_layer := None |}
      [[1; 2; 1]; [2; 1; 2]] [2; 1] [2].
Proof.
  refine (EmbeddingConstruction_forward_rnn_item_size 0 (torch_sum_dim1 0 Z.add) Z.div id argsort_stable
            {| node_edge_emb_strategy := "gru";
               seq_info_encode_strategy := "none";
               word_emb_layers := [WordEmbedding [[0]; [1]; [2]] true];
               node_edge_emb_layer :=
                 RNNLayer {| rnn_type := "gru"; bidirectional := false;
                             hidden_size := 1; model := echo_fn 1 false |};
               seq_info_encode_layer := None |}
            _ [[0]; [1]; [2]] true [[1; 2; 0]; [2; 0; 0]] [[1; 2; 1]; [2; 1; 2]]
            [2; 1] [2] 3 1 3 argsort_stable_spec eq_refl eq_refl _ _ _ _ eq_refl
            eq_refl _ eq_refl).
  - split; [reflexivity|]. repeat constructor.
  - repeat constructor; lia.
  - repeat constructor; lia.
  - done.
  - repeat constructor; lia.
Defined.

(** * Words outside the vocabulary *)

Section OutOfVocabulary.

Context {F : Type}.
Variable F0 : F.
Variable torch_sum : list (list (list F)) -> list (list F).
Variable Fdiv : F -> F -> F.
Variable F_of_Z : Z -> F.
Variable torch_argsort : bool -> list Z -> list Z.

Lemma for_each_raise_uniform {A B : Type} (f : A -> result B) (l : list A)
    (x : A) (e : exn) :
  (forall y e', f y = Raise e' -> e' = e) ->
  x ∈ l -> f x = Raise e -> for_each f l = Raise e.
Proof.
  intros Hu Hx Hf. induction l as [|a l IH]; [by apply elem_of_nil in Hx|].
  simpl. destruct (f a) as [b|e'] eqn:Ha.
  - apply elem_of_cons in Hx as [->|Hx]; [congruence|].
    cbn [bind]. by rewrite (IH Hx).
  - cbn [bind]. by rewrite (Hu a e' Ha).
Qed.

Lemma WordEmbedding_forward_raises (weight : list (list F))
    (input_tensor : list (list Z)) (item : list Z) (w : Z) :
  item ∈ input_tensor -> w ∈ item ->
  ~ (0 <= w < Z.of_nat (length weight)) ->
  WordEmbedding_forward weight input_tensor = Raise IndexError.
Proof.
  intros Hitem Hw Hout.
  set (look := fun w : Z =>
                 if (0 <=? w) && (w <? Z.of_nat (length weight))
                 then match weight !! Z.to_nat w with
                      | Some v => Ok v
                      | None => Raise IndexError
                      end
                 else Raise IndexError).
  assert (Hword : forall y e1, look y = Raise e1 -> e1 = IndexError).
  { intros y e1. unfold look. destruct (_ && _); [|congruence].
    destruct (weight !! Z.to_nat y); congruence. }
  assert (Hrow : forall (it : list Z) e1,
            for_each look it = Raise e1 -> e1 = IndexError).
  { intros it e1. induction it as [|y it IH]; [done|]. simpl.
    destruct (look y) as [v|e2] eqn:Hy.
    - cbn [bind]. destruct (for_each look it) as [vs|e3] eqn:Hit; [done|].
      cbn [bind]. intros [= <-]. by apply IH.
    - cbn [bind]. intros [= <-]. by apply (Hword y). }
  change (WordEmbedding_forward weight input_tensor)
    with (for_each (for_each look) input_tensor).
  apply (for_each_raise_uniform _ input_tensor item IndexError Hrow Hitem).
  apply (for_each_raise_uniform _ item w IndexError Hword Hw).
  unfold look.
  destruct (0 <=? w) eqn:H0, (w <? Z.of_nat (length weight)) eqn:H1; simpl; try done.
  lia.
Qed.

(** X15.  The lookup table has no entry for a word index outside
    [0 .. vocabulary size - 1], negative ones included: with the table as
    first word embedding layer, [forward] raises [IndexError] on every
    input that holds such an index, whatever the other layers are. *)
Theorem EmbeddingConstruction_forward_out_of_vocabulary
    (self : @EmbeddingConstruction F) (weight : list (list F)) (fix_word_emb : bool)
    (rest : list word_emb_layer) (input_tensor : list (list Z))
    (item_size num_items : list Z) (item : list Z) (w : Z) :
  word_emb_layers self = WordEmbedding weight fix_word_emb :: rest ->
  item ∈ input_tensor -> w ∈ item ->
  ~ (0 <= w < Z.of_nat (length weight)) ->
  EmbeddingConstruction_forward F0 torch_sum Fdiv F_of_Z torch_argsort self
    input_tensor item_size num_items = Raise IndexError.
Proof.
  intros Hlayers Hitem Hw Hout.
  unfold EmbeddingConstruction_forward, embed_words. rewrite Hlayers.
  cbn [for_each word_emb_layer_call].
  by rewrite (WordEmbedding_forward_raises weight input_tensor item w Hitem Hw Hout).
Qed.

End OutOfVocabulary.

(** A vocabulary of two words, and the index 2; then the index -1. *)
Lemma EmbeddingConstruction_forward_out_of_vocabulary_witness :
  EmbeddingConstruction_forward 0 (torch_sum_dim1 0 Z.add) Z.div id argsort_stable
    {| node_edge_emb_strategy := "mean";
       seq_info_encode_strategy := "none";
       word_emb_layers := [WordEmbedding [[1]; [2]] true];
       node_edge_emb_layer := MeanLayer;
       seq_info_encode_layer := None |}
    [[0; 1]; [1; 2]] [2; 2] [2] = Raise IndexError
  /\ EmbeddingConstruction_forward 0 (torch_sum_dim1 0 Z.add) Z.div id argsort_stable
       {| node_edge_emb_strategy := "mean";
          seq_info_encode_strategy := "none";
          word_emb_layers := [WordEmbedding [[1]; [2]] true];
          node_edge_emb_layer := MeanLayer;
          seq_info_encode_layer := None |}
       [[0; -1]] [2] [1] = Raise IndexError.
Proof.
  split.
  - match goal with
    | |- EmbeddingConstruction_forward _ _ _ _ _ ?s _ _ _ = _ =>
        refine (EmbeddingConstruction_forward_out_of_vocabulary 0 (torch_sum_dim1 0 Z.add) Z.div id
                  argsort_stable s [[1]; [2]] true [] [[0; 1]; [1; 2]] [2; 2] [2]
                  [1; 2] 2 eq_refl _ _ _)
    end.
    + apply elem_of_cons. right. apply elem_of_cons. by left.
    + apply elem_of_cons. right. apply elem_of_cons. by left.
    + simpl. lia.
  - match goal with
    | |- EmbeddingConstruction_forward _ _ _ _ _ ?s _ _ _ = _ =>
        refine (EmbeddingConstruction_forward_out_of_vocabulary 0 (torch_sum_dim1 0 Z.add) Z.div id
                  argsort_stable s [[1]; [2]] true [] [[0; -1]] [2] [1]
                  [0; -1] (-1) eq_refl _ _ _)
    end.
    + apply elem_of_cons. by left.
    + apply elem_of_cons. right. apply elem_of_cons. by left.
    + lia.
Defined.

(** * [EmbeddingConstruction.forward2] *)

Section Forward2.

Context {F : Type}.
Variable F0 : F.
Variable torch_sum : list (list (list F)) -> list (list F).
Variable Fdiv : F -> F -> F.
Variable F_of_Z : Z -> F.
Variable torch_argsort : bool -> list Z -> list Z.
Implicit Types (self : @EmbeddingConstruction F) (graph : @DGL.DGLGraph F)
  (layer : @RNNEmbedding F) (feat : list (list F)) (num_items : list Z).

(** Lines 250-258 on a graph that holds word indices under [feat_name]. *)
Lemma forward2_feat_long self graph (feat_name : string)
    (input_tensor : list (list Z)) (item_size : list Z) :
  DGL.ndata graph !! feat_name = Some (DGL.LongTensor input_tensor) ->
  forward2_feat F0 torch_sum Fdiv F_of_Z torch_argsort self graph feat_name item_size
  = DGL.lift (let* emb := embed_words self input_tensor in
              node_edge_emb F0 torch_sum Fdiv F_of_Z torch_argsort self emb item_size).
Proof.
  intros Hin. unfold forward2_feat, DGL.get_ndata, embed_words. rewrite Hin.
  cbn [DGL.and_then word_emb_layer_call2].
  by destruct (for_each _ (word_emb_layers self)).
Qed.

(** The blocks [forward2] reads off the unbatched graphs are the blocks
    [forward] cuts out of the features by [num_items]. *)
Lemma forward2_blocks_unbatch graph (out_feat_name : string) feat (M : Z)
    (start : nat) (sizes : list Z) :
  DGL.ndata graph !! out_feat_name = Some (DGL.FloatTensor feat) ->
  Forall (fun n => 0 <= n) sizes ->
  Z.of_nat start + sum_items sizes <= Z.of_nat (length feat) ->
  forward2_blocks F0 (DGL.unbatch_from graph start sizes) out_feat_name M (shape1 feat)
  = DGL.Returns (unbatch F0 feat M (Z.of_nat start) sizes).
Proof.
  intros Hout Hpos. revert start.
  induction Hpos as [|n sizes Hn Hpos IH]; intros start Hsum; [done|].
  change (sum_items (n :: sizes)) with (n + sum_items sizes) in Hsum.
  assert (H0 := Forall_impl _ _ _ Hpos (fun n (H : 0 <= n) => H)).
  assert (Hrest : 0 <= sum_items sizes).
  { clear -Hpos. induction Hpos; [done|]. unfold sum_items in *. simpl. lia. }
  unfold forward2_blocks in *. cbn [DGL.unbatch_from DGL.for_each_graph unbatch].
  unfold float_ndata at 1, DGL.get_ndata. cbn [DGL.ndata].
  rewrite lookup_fmap, Hout. cbn [fmap option_fmap option_map DGL.slice_rows DGL.and_then].
  replace (DGL.unbatch_from graph (start + Z.to_nat n) sizes)
    with (DGL.unbatch_from graph (start + Z.to_nat n)%nat sizes) by done.
  rewrite (IH (start + Z.to_nat n)%nat) by lia. cbn [DGL.and_then].
  rewrite py_slice_take_drop by lia.
  rewrite Nat2Z.id.
  assert (Hlen : Z.of_nat (length (take (Z.to_nat n) (drop start feat))) = n).
  { rewrite length_take, length_drop. lia. }
  rewrite Hlen.
  replace (Z.of_nat start + n) with (Z.of_nat (start + Z.to_nat n)) by lia.
  done.
Qed.

Lemma for_each_ext_lookup {A B C : Type} (f : A -> result C) (g : B -> result C)
    (l1 : list A) (l2 : list B) :
  length l1 = length l2 ->
  (forall i x y, l1 !! i = Some x -> l2 !! i = Some y -> f x = g y) ->
  for_each f l1 = for_each g l2.
Proof.
  revert l2. induction l1 as [|x l1 IH]; intros [|y l2] Hlen Hfg; try done.
  simpl. rewrite (Hfg 0%nat x y eq_refl eq_refl).
  rewrite (IH l2); [done | by simplify_eq/= |].
  intros i x' y' Hx Hy. exact (Hfg (S i) x' y' Hx Hy).
Qed.

(** The loop of lines 278-280 runs over the rows of [new_feat]; with one
    row per graph it is the loop of [forward]. *)
Lemma rebatch2_rebatch (new_feat : list (list (list F))) num_items :
  length new_feat = length num_items ->
  rebatch2 new_feat num_items = rebatch new_feat num_items.
Proof.
  intros Hlen. unfold rebatch2, rebatch. symmetry.
  apply for_each_ext_lookup.
  - rewrite length_zip_with, !length_seq. lia.
  - intros i [k n] j Hkn Hj.
    apply lookup_zip_with_Some in Hkn as (k' & n' & [= <- <-] & Hk & Hn).
    apply lookup_seq in Hk as [-> _]. apply lookup_seq in Hj as [-> _]. simpl.
    by rewrite (index_row_lookup num_items i n Hn).
Qed.

(** [forward] returns one sequence of hidden states per length. *)
Lemma RNNEmbedding_forward_length layer (x : list (list (list F))) (x_len : list Z) r :
  argsort_spec torch_argsort ->
  RNNEmbedding_forward F0 torch_argsort layer x x_len = Ok r ->
  length r.1 = length x_len.
Proof.
  intros Hsort Hret.
  destruct (Hsort true x_len) as [Hp _].
  destruct (Hsort false (torch_argsort true x_len)) as [Hq _].
  unfold RNNEmbedding_forward, torch_sort in Hret. cbn beta iota zeta in Hret.
  destruct (index_rows x _) as [x_indx|e]; [|done]. cbn [bind] in Hret.
  destruct (pack_padded_sequence x_indx _) as [packed|e]; [|done]. cbn [bind] in Hret.
  destruct (for_each (model layer) packed) as [out|e]; [|done]. cbn [bind] in Hret.
  destruct (if String.eqb (rnn_type layer) "lstm" then _ else _) as [ht|e]; [|done].
  cbn [bind] in Hret.
  destruct (index_rows (pad_packed_sequence F0 _) _) as [hh|e] eqn:Hhh; [|done].
  cbn [bind] in Hret.
  destruct (index_rows ht _) as [ht'|e]; [|done]. cbn [bind] in Hret.
  injection Hret as <-. simpl.
  destruct (for_each_lookup _ _ _ Hhh) as [-> _].
  by rewrite Hq, arange_length, Hp, arange_length.
Qed.

(** Lines 262-282 on the graph that holds [feat] under [out_feat_name]:
    the outcome of lines 199-225 of [forward] on [feat]. *)
Lemma forward2_encode_seq_info_encode layer graph (out_feat_name : string)
    feat num_items :
  argsort_spec torch_argsort ->
  DGL.ndata graph !! out_feat_name = Some (DGL.FloatTensor feat) ->
  DGL.batch_num_nodes graph = num_items ->
  Forall (fun n => 0 <= n) num_items ->
  sum_items num_items <= Z.of_nat (length feat) ->
  forward2_encode F0 torch_argsort layer graph out_feat_name num_items (shape1 feat)
  = DGL.lift (seq_info_encode F0 torch_argsort layer feat num_items).
Proof.
  intros Hsort Hout Hbatch Hpos Hsum.
  unfold forward2_encode, seq_info_encode, DGL.dgl_unbatch. rewrite Hbatch.
  destruct (torch_max num_items) as [M|e]; [|done]. cbn [DGL.lift DGL.and_then bind].
  rewrite (forward2_blocks_unbatch graph out_feat_name feat M 0 num_items Hout Hpos)
    by (simpl; lia).
  cbn [DGL.and_then]. change (Z.of_nat 0) with 0.
  destruct (torch_stack _) as [stack|e]; [|done]. cbn [bind].
  destruct (RNNEmbedding_forward _ _ _ _ _) as [r|e] eqn:Hrun; [|done]. cbn [bind].
  by rewrite (rebatch2_rebatch r.1 num_items
                (RNNEmbedding_forward_length layer _ _ r Hsort Hrun)).
Qed.

(** X21.  On a graph whose batch sizes are [num_items] and which holds the word
    indices under [feat_name], [forward2] stores under [out_feat_name]
    what [forward] returns, and returns the graph.  When the sequence
    encoder raises, [forward2] raises the same exception, and the graph is
    left with the features of the node/edge layer under [out_feat_name]. *)
Theorem EmbeddingConstruction_forward2_forward self graph
    (feat_name out_feat_name : string) (input_tensor : list (list Z))
    (item_size : list Z) num_items (feat0 : list (list (list F))) feat (H : nat) :
  argsort_spec torch_argsort ->
  DGL.ndata graph !! feat_name = Some (DGL.LongTensor input_tensor) ->
  DGL.batch_num_nodes graph = num_items ->
  Forall (fun n => 0 <= n) num_items ->
  embed_words self input_tensor = Ok feat0 ->
  node_edge_emb F0 torch_sum Fdiv F_of_Z torch_argsort self feat0 item_size = Ok feat ->
  Z.of_nat (length feat) = sum_items num_items ->
  (forall layer, seq_info_encode_layer self = Some layer -> rnn_spec (model layer) H) ->
  EmbeddingConstruction_forward2 F0 torch_sum Fdiv F_of_Z torch_argsort self graph
    feat_name item_size num_items out_feat_name
  = match EmbeddingConstruction_forward F0 torch_sum Fdiv F_of_Z torch_argsort self
            input_tensor item_size num_items with
    | Ok ret =>
        ({| DGL.ndata := <[out_feat_name := DGL.FloatTensor ret]> (DGL.ndata graph);
            DGL.batch_num_nodes := num_items |},
         DGL.Returns tt)
    | Raise e =>
        ({| DGL.ndata := <[out_feat_name := DGL.FloatTensor feat]> (DGL.ndata graph);
            DGL.batch_num_nodes := num_items |},
         DGL.Raises (DGL.Python e))
    end.
Proof.
  intros Hsort Hin Hbatch Hpos Hfeat0 Hfeat Hsum Hrnn.
  unfold EmbeddingConstruction_forward2, EmbeddingConstruction_forward.
  rewrite (forward2_feat_long self graph feat_name input_tensor item_size Hin).
  rewrite Hfeat0. cbn [bind]. rewrite Hfeat. cbn [bind DGL.lift].
  unfold DGL.set_ndata at 1, DGL.num_nodes. cbn [DGL.rows]. rewrite Hbatch.
  rewrite (proj2 (Z.eqb_eq _ _) Hsum).
  destruct (seq_info_encode_layer self) as [layer|] eqn:Hlayer; [|done].
  rewrite (forward2_encode_seq_info_encode layer _ out_feat_name feat num_items Hsort);
    [| cbn [DGL.ndata]; apply lookup_insert_eq | done | done | lia].
  destruct (seq_info_encode F0 torch_argsort layer feat num_items) as [ret|e] eqn:Hret;
    [|done].
  cbn [DGL.lift].
  destruct (seq_info_encode_ok_inv F0 torch_argsort layer feat num_items ret Hsort Hret)
    as (Hne & Hpos' & Hkind).
  assert (Hle : sum_items num_items <= Z.of_nat (length feat)) by lia.
  destruct (seq_info_encode_ok_model F0 torch_argsort layer feat num_items ret
              Hsort Hle Hret) as [outs Houts].
  destruct (seq_info_encode_run F0 torch_argsort layer feat num_items outs H
              Hsort (Hrnn layer eq_refl) Hkind Hne Hpos' Hle Houts) as [Hrun Hrows].
  assert (ret = mjoin (fst <$> outs)) as -> by congruence.
  unfold DGL.set_ndata, DGL.num_nodes. cbn [DGL.rows DGL.batch_num_nodes DGL.ndata].
  rewrite (proj2 (Z.eqb_eq _ _) Hrows).
  by rewrite insert_insert_eq.
Qed.

(** X22.  [forward2] touches the graph at [out_feat_name] only: whatever the
    outcome, the batch sizes and every node feature under another name are
    as before, the input feature included. *)
Theorem EmbeddingConstruction_forward2_frame self graph
    (feat_name out_feat_name : string) (item_size : list Z) num_items (k : string) :
  k <> out_feat_name ->
  DGL.batch_num_nodes
    (EmbeddingConstruction_forward2 F0 torch_sum Fdiv F_of_Z torch_argsort self graph
       feat_name item_size num_items out_feat_name).1
  = DGL.batch_num_nodes graph
  /\ DGL.ndata
       (EmbeddingConstruction_forward2 F0 torch_sum Fdiv F_of_Z torch_argsort self graph
          feat_name item_size num_items out_feat_name).1 !! k
     = DGL.ndata graph !! k.
Proof.
  intros Hk.
  assert (Hset : forall (g : @DGL.DGLGraph F) x g',
            DGL.set_ndata g out_feat_name x = DGL.Returns g' ->
            DGL.batch_num_nodes g' = DGL.batch_num_nodes g
            /\ DGL.ndata g' !! k = DGL.ndata g !! k).
  { intros g x g'. unfold DGL.set_ndata. destruct (_ =? _); [|done].
    intros [= <-]. simpl. split; [done|]. by apply lookup_insert_ne. }
  unfold EmbeddingConstruction_forward2.
  destruct (forward2_feat _ _ _ _ _ _ _ _ _) as [feat|e]; [|done].
  destruct (DGL.set_ndata graph _ _) as [g1|e] eqn:H1; [|done].
  destruct (Hset _ _ _ H1) as [Hb1 Hd1].
  destruct (seq_info_encode_layer self) as [layer|]; [|done].
  destruct (forward2_encode _ _ _ _ _ _ _) as [ret|e]; [|done].
  destruct (DGL.set_ndata g1 _ _) as [g2|e] eqn:H2; [|done].
  destruct (Hset _ _ _ H2) as [Hb2 Hd2]. simpl. split; congruence.
Qed.

End Forward2.

(** The bidirectional GRU as sequence encoder: [forward2] raises, and the
    graph holds the mean embeddings under 'node_feat'. *)
Lemma EmbeddingConstruction_forward2_forward_witness :
  EmbeddingConstruction_forward2 0 (torch_sum_dim1 0 Z.add) Z.div id argsort_stable
    {| node_edge_emb_strategy := "mean";
       seq_info_encode_strategy := "bigru";
       word_emb_layers := [WordEmbedding [[1]; [2]] true];
       node_edge_emb_layer := MeanLayer;
       seq_info_encode_layer :=
         Some {| rnn_type := "gru"; bidirectional := true; hidden_size := 1;
                 model := echo_fn 1 true |} |}
    {| DGL.ndata := {[ "token_id" := DGL.LongTensor [[0]; [1]; [1]] ]};
       DGL.batch_num_nodes := [1; 2] |}
    "token_id" [1; 1; 1] [1; 2] "node_feat"
  = ({| DGL.ndata :=
          <["node_feat" := DGL.FloatTensor [[1]; [2]; [2]]]>
            {[ "token_id" := DGL.LongTensor [[0]; [1]; [1]] ]};
        DGL.batch_num_nodes := [1; 2] |},
     DGL.Raises (DGL.Python (NameError "query_lengths"))).
Proof.
  refine (EmbeddingConstruction_forward2_forward 0 (torch_sum_dim1 0 Z.add) Z.div id argsort_stable
            {| node_edge_emb_strategy := "mean";
               seq_info_encode_strategy := "bigru";
               word_emb_layers := [WordEmbedding [[1]; [2]] true];
               node_edge_emb_layer := MeanLayer;
               seq_info_encode_layer :=
                 Some {| rnn_type := "gru"; bidirectional := true; hidden_size := 1;
                         model := echo_fn 1 true |} |}
            {| DGL.ndata := {[ "token_id" := DGL.LongTensor [[0]; [1]; [1]] ]};
               DGL.batch_num_nodes := [1; 2] |}
            "token_id" "node_feat" [[0]; [1]; [1]] [1; 1; 1] [1; 2]
            [[[1]]; [[2]]; [[2]]] [[1]; [2]; [2]] 1
            argsort_stable_spec eq_refl eq_refl _ eq_refl eq_refl eq_refl _).
  - repeat constructor; lia.
  - intros layer [= <-]. apply (echo_fn_spec 1 true).
Defined.

(** The word indices stay where they were. *)
Lemma EmbeddingConstruction_forward2_frame_witness :
  DGL.ndata
    (EmbeddingConstruction_forward2 0 (torch_sum_dim1 0 Z.add) Z.div id argsort_stable
       {| node_edge_emb_strategy := "mean";
          seq_info_encode_strategy := "none";
          word_emb_layers := [WordEmbedding [[1]; [2]] true];
          node_edge_emb_layer := MeanLayer;
          seq_info_encode_layer := None |}
       {| DGL.ndata := {[ "token_id" := DGL.LongTensor [[0]; [1]; [1]] ]};
          DGL.batch_num_nodes := [1; 2] |}
       "token_id" [1; 1; 1] [1; 2] "node_feat").1 !! "token_id"
  = Some (DGL.LongTensor [[0]; [1]; [1]]).
Proof.
  refine (proj2 (EmbeddingConstruction_forward2_frame 0 (torch_sum_dim1 0 Z.add) Z.div id argsort_stable
                   {| node_edge_emb_strategy := "mean";
                      seq_info_encode_strategy := "none";
                      word_emb_layers := [WordEmbedding [[1]; [2]] true];
                      node_edge_emb_layer := MeanLayer;
                      seq_info_encode_layer := None |}
                   {| DGL.ndata := {[ "token_id" := DGL.LongTensor [[0]; [1]; [1]] ]};
                      DGL.batch_num_nodes := [1; 2] |}
                   "token_id" "node_feat" [1; 1; 1] [1; 2] "token_id" _)).
  discriminate.
Defined.

(** * The sizes of the layers [__init__] builds *)

Section EmbeddingConstructionSizes.

Context {F : Type}.
Variable nn_RNN : rnn_cell -> Z -> Z -> bool -> result (@rnn_fn F).

Lemma init_node_edge_emb_layer_rnn (embeddings : list (list F)) (node : string)
    (hidden : Z) (r : @RNNEmbedding F) :
  init_node_edge_emb_layer nn_RNN embeddings node hidden = Ok (RNNLayer r) ->
  String.eqb node "mean" = false
  /\ exists bidir kind,
       RNNEmbedding_init nn_RNN (emb_dim embeddings) hidden bidir kind = Ok r.
Proof.
  unfold init_node_edge_emb_layer. intros H.
  destruct (String.eqb node "mean"); [done|]. split; [done|].
  repeat match type of H with
         | context [if String.eqb node ?s then _ else _] =>
             destruct (String.eqb node s)
         end.
  all: try done.
  all: match type of H with
       | (let* r := RNNEmbedding_init _ _ _ ?b ?k in _) = _ =>
           exists b, k; destruct (RNNEmbedding_init _ _ _ b k); [|done];
           cbn [bind] in H; congruence
       end.
Qed.

Lemma init_seq_info_encode_layer_rnn (embeddings : list (list F))
    (node seq : string) (hidden : Z) (s : @RNNEmbedding F) :
  init_seq_info_encode_layer nn_RNN embeddings node seq hidden = Ok (Some s) ->
  exists bidir kind,
    RNNEmbedding_init nn_RNN
      (if String.eqb node "mean" then emb_dim embeddings else hidden)
      hidden bidir kind = Ok s.
Proof.
  unfold init_seq_info_encode_layer. cbn zeta. intros H.
  destruct (String.eqb seq "none"); [done|].
  repeat match type of H with
         | context [if String.eqb seq ?s then _ else _] =>
             destruct (String.eqb seq s)
         end.
  all: try done.
  all: match type of H with
       | (let* r := RNNEmbedding_init _ _ _ ?b ?k in _) = _ =>
           exists b, k; destruct (RNNEmbedding_init _ _ _ b k); [|done];
           cbn [bind] in H; congruence
       end.
Qed.

(** X23.  The sequence encoder is built for the features the node/edge layer
    returns: its network takes inputs as wide as the word embeddings after
    the mean, and as wide as the final states of all directions,
    [hidden_size * num_directions], after a recurrent node/edge layer. *)
Theorem EmbeddingConstruction_init_sizes_fit (embeddings : list (list F))
    (word_emb_type : str_or_list) (node seq : string) (hidden : Z)
    (fix_word_emb : bool) (self : @EmbeddingConstruction F) (s : @RNNEmbedding F) :
  EmbeddingConstruction_init nn_RNN embeddings word_emb_type node seq hidden
    fix_word_emb = Ok self ->
  seq_info_encode_layer self = Some s ->
  nn_RNN (if String.eqb (rnn_type s) "lstm" then nn_LSTM else nn_GRU)
    match node_edge_emb_layer self with
    | MeanLayer => emb_dim embeddings
    | RNNLayer r => hidden_size r * num_directions r
    end
    (hidden_size s) (bidirectional s)
  = Ok (model s).
Proof.
  intros Hinit Hs.
  destruct (EmbeddingConstruction_init_parts _ _ _ _ _ _ _ _ Hinit)
    as (_ & Hne & Hse).
  rewrite Hs in Hse.
  destruct (init_seq_info_encode_layer_rnn _ _ _ _ _ Hse) as (b & k & Hsinit).
  apply RNNEmbedding_init_returns in Hsinit
    as (_ & _ & Hm & Hkind & Hbi & Hhid).
  rewrite Hkind, Hbi, Hhid.
  destruct (node_edge_emb_layer self) as [|r] eqn:Hlayer.
  - unfold init_node_edge_emb_layer in Hne.
    destruct (String.eqb node "mean") eqn:Hmean; [done|].
    exfalso.
    repeat match type of Hne with
           | context [if String.eqb node ?s then _ else _] =>
               destruct (String.eqb node s)
           end; try done.
    all: match type of Hne with
         | (let* r := RNNEmbedding_init _ _ _ ?b ?k in _) = _ =>
             destruct (RNNEmbedding_init _ _ _ b k); done
         end.
  - destruct (init_node_edge_emb_layer_rnn _ _ _ _ Hne) as (Hmean & b' & k' & Hrinit).
    rewrite Hmean in Hm.
    apply RNNEmbedding_init_returns in Hrinit
      as (_ & Hpar & _ & _ & Hbi' & Hhid').
    replace (hidden_size r * num_directions r) with hidden; [done|].
    unfold num_directions. rewrite Hhid', Hbi'.
    destruct b'; [|lia].
    specialize (Hpar eq_refl).
    rewrite (Z.div_mod hidden 2) at 1 by lia. lia.
Qed.

End EmbeddingConstructionSizes.

(** A bidirectional LSTM over the words, a GRU over the items. *)
Lemma EmbeddingConstruction_init_sizes_fit_witness :
  echo_rnn (F := Z) nn_GRU (2 * 2) 4 false = Ok (echo_fn 4 false).
Proof.
  exact (EmbeddingConstruction_init_sizes_fit (F := Z) echo_rnn [[1; 2; 3]] (Str "w2v")
           "bilstm" "gru" 4 true
           {| node_edge_emb_strategy := "bilstm";
              seq_info_encode_strategy := "gru";
              word_emb_layers := [WordEmbedding [[1; 2; 3]] true];
              node_edge_emb_layer :=
                RNNLayer {| rnn_type := "lstm"; bidirectional := true;
                            hidden_size := 2; model := echo_fn 3 true |};
              seq_info_encode_layer :=
                Some {| rnn_type := "gru"; bidirectional := false;
                        hidden_size := 4; model := echo_fn 4 false |} |}
           {| rnn_type := "gru"; bidirectional := false;
              hidden_size := 4; model := echo_fn 4 false |}
           eq_refl eq_refl).
Defined.

(** A run of [forward2] with an LSTM over the items of two graphs. *)
Example EmbeddingConstruction_forward2_run_lstm :
  EmbeddingConstruction_forward2 0 (torch_sum_dim1 0 Z.add) Z.div id argsort_stable
    {| node_edge_emb_strategy := "mean";
       seq_info_encode_strategy := "lstm";
       word_emb_layers := [WordEmbedding [[1]; [2]] true];
       node_edge_emb_layer := MeanLayer;
       seq_info_encode_layer :=
         Some {| rnn_type := "lstm"; bidirectional := false; hidden_size := 1;
                 model := echo_fn 1 false |} |}
    {| DGL.ndata := {[ "token_id" := DGL.LongTensor [[0]; [1]; [1]] ]};
       DGL.batch_num_nodes := [1; 2] |}
    "token_id" [1; 1; 1] [1; 2] "node_feat"
  = ({| DGL.ndata :=
          <["node_feat" := DGL.FloatTensor [[1]; [2]; [2]]]>
            {[ "token_id" := DGL.LongTensor [[0]; [1]; [1]] ]};
        DGL.batch_num_nodes := [1; 2] |},
     DGL.Returns tt).
Proof. vm_compute. reflexivity. Qed.
